(** * Deep Research Clone: the research workflow of [app.py]

    A shallow embedding of the Streamlit script [src/app.py] and of its six
    workflow functions.  One execution of the script (one "render") is a
    computation in a small state-and-exception monad over

    - the session store [st.session_state], a dictionary from keys to
      Python values;
    - the state of the outside world behind [client.responses.create];
    - a trace of what the run did: Gateway calls with their outcomes,
      widgets polled and elements displayed, in program order.

    The LLM Gateway, [json.loads], [json.dumps] and Python's [repr] are not
    code of the repository: they are the fields of the class [Externals], and
    every statement about the script holds for all of them.

    Text is modelled as byte strings; the case mapping and the whitespace
    test are those of Python on ASCII.  Floating-point values are left out
    of the value type.  The start-up check of the API key (lines 7-16) runs
    before the workflow and is not part of the model.

    Streamlit delivers the values of the widgets with the event that causes
    a run, before the script starts: within a run [st.text_input] and
    [st.button] only read them.  A run caused by [st.rerun()] has no pressed
    button.

    The file has five parts: the embedding of the script; the notions the
    statements use, with concrete sessions and Gateways; lemmas about runs;
    the properties of the workflow, each followed up on a concrete run;
    further properties of the workflow, followed up likewise. *)

From Stdlib Require Import ZArith List Ascii String Bool Lia DecimalString.
From stdpp Require Import base option gmap strings fin_maps.
Import ListNotations.

Local Open Scope string_scope.
Local Open Scope list_scope.

(** ** Text *)

Module PyStr.

Definition nl : string := String (ascii_of_nat 10) "".
Definition dq : string := String (ascii_of_nat 34) "".

(** [str.lower] on one character: [A]..[Z] go to [a]..[z]. *)
Definition lower_char (c : ascii) : ascii :=
  let n := nat_of_ascii c in
  if (65 <=? n)%nat && (n <=? 90)%nat then ascii_of_nat (n + 32) else c.

Fixpoint lower (s : string) : string :=
  match s with
  | EmptyString => EmptyString
  | String c t => String (lower_char c) (lower t)
  end.

(** [needle in hay] for two [str]. *)
Fixpoint contains (needle hay : string) : bool :=
  String.prefix needle hay ||
  match hay with
  | EmptyString => false
  | String _ t => contains needle t
  end.

(** [str.isspace] on one ASCII character. *)
Definition is_space (c : ascii) : bool :=
  let n := nat_of_ascii c in
  ((9 <=? n)%nat && (n <=? 13)%nat) || ((28 <=? n)%nat && (n <=? 32)%nat).

(** Truth value of [s.strip()]: some character is not whitespace. *)
Fixpoint strip_nonempty (s : string) : bool :=
  match s with
  | EmptyString => false
  | String c t => negb (is_space c) || strip_nonempty t
  end.

(** [s.split(sep)] for a one-character separator: the pieces between the
    separators, always at least one piece. *)
Fixpoint split_on (sep : ascii) (s : string) : list string :=
  match s with
  | EmptyString => [EmptyString]
  | String c t =>
      if Ascii.eqb c sep then EmptyString :: split_on sep t
      else match split_on sep t with
           | [] => [String c EmptyString]
           | w :: ws => String c w :: ws
           end
  end.

Definition split_lines (s : string) : list string :=
  split_on (ascii_of_nat 10) s.

Definition is_letter (c : ascii) : bool :=
  let n := nat_of_ascii (lower_char c) in (97 <=? n)%nat && (n <=? 122)%nat.

(** The maximal runs of letters of a text, lowercased: its words. *)
Fixpoint words_go (cur : string) (s : string) : list string :=
  match s with
  | EmptyString => if String.eqb cur "" then [] else [String.rev cur]
  | String c t =>
      if is_letter c then words_go (String (lower_char c) cur) t
      else if String.eqb cur "" then words_go "" t
           else String.rev cur :: words_go "" t
  end.

Definition words (s : string) : list string := words_go "" s.

(** The text has [yes] as a word of its own, in any case. *)
Definition has_word_yes (s : string) : bool :=
  existsb (String.eqb "yes") (words s).

(** [i] in decimal, as [f"{i}"] prints it. *)
Definition decimal (i : nat) : string :=
  NilZero.string_of_uint (Nat.to_uint i).

End PyStr.

(** ** Python values *)

#[warnings="-register-all"]
Inductive pyval : Type :=
| PNone
| PBool (b : bool)
| PInt (z : Z)
| PStr (s : string)
| PList (l : list pyval)
| PDict (d : list (string * pyval)).

Module Py.

(** Truth value of a value, as [if v:] and [all] take it. *)
Definition truthy (v : pyval) : bool :=
  match v with
  | PNone => false
  | PBool b => b
  | PInt z => negb (z =? 0)%Z
  | PStr s => negb (String.eqb s "")
  | PList l => match l with [] => false | _ => true end
  | PDict d => match d with [] => false | _ => true end
  end.

(** [v == n] for an integer literal [n]. *)
Definition eq_int (v : pyval) (n : Z) : bool :=
  match v with
  | PInt z => (z =? n)%Z
  | PBool b => ((if b then 1 else 0) =? n)%Z
  | _ => false
  end.

Fixpoint chars (s : string) : list pyval :=
  match s with
  | EmptyString => []
  | String c t => PStr (String c EmptyString) :: chars t
  end.

(** What [for x in v] iterates over; [None] where Python raises
    [TypeError]. *)
Definition iter (v : pyval) : option (list pyval) :=
  match v with
  | PList l => Some l
  | PStr s => Some (chars s)
  | PDict d => Some (map (fun kv => PStr (fst kv)) d)
  | _ => None
  end.

Fixpoint assoc (k : string) (d : list (string * pyval)) : option pyval :=
  match d with
  | [] => None
  | (k', v) :: d' => if String.eqb k k' then Some v else assoc k d'
  end.

(** [len(v)]; [None] where Python raises [TypeError]. *)
Definition len (v : pyval) : option nat :=
  match v with
  | PList l => Some (length l)
  | PStr s => Some (String.length s)
  | PDict d => Some (length d)
  | _ => None
  end.

End Py.

(** ** The Gateway interface *)

(** The [input] of a request: a prompt, or a list of messages with a role
    and a content. *)
Inductive request_input : Type :=
| InText (prompt : string)
| InMessages (msgs : list (string * string)).

(** The keyword arguments of [client.responses.create].  An argument the
    call does not pass is [PNone] or the empty tool list. *)
Record request : Type := mk_request {
  req_model : string;
  req_input : request_input;
  req_previous_response_id : pyval;
  req_instructions : string;
  req_tools : list string
}.

(** A content block of an output item: only a text block has [.text]. *)
Inductive content_part : Type :=
| OutputText (text : string)
| Refusal (refusal : string).

(** An output item: a message with content blocks, or a tool call, which
    has an identifier and no [.content]. *)
Inductive out_item : Type :=
| OutMessage (item_id : string) (content : list content_part)
| OutToolCall (item_id : string).

Record response : Type := mk_response {
  resp_id : string;
  resp_output : list out_item
}.

(** What lies outside the script.  A call of the Gateway answers with a
    response or fails with an error, and moves the world on. *)
Class Externals : Type := {
  World : Type;
  responses_create : request -> World -> (string + response) * World;
  json_loads : string -> option pyval;
  json_dumps : pyval -> string;
  py_repr : pyval -> string
}.

(** ** Runs of the script *)

Inductive exn : Type :=
| GatewayError (msg : string)
| JSONDecodeError
| IndexError
| AttributeError
| KeyError (key : string)
| TypeError.

Inductive display : Type :=
| Title | Write | Info | Success | Warning | Markdown | Balloons.

Inductive event : Type :=
| EvGateway (req : request) (res : string + response)
| EvTextInput (label : string) (key : option string)
| EvButton (label : string)
| EvShow (kind : display) (text : string).

(** What the user did to cause this run: the current value of every text
    field, by widget key (or by label for a widget without key), and the
    button that was pressed, if any. *)
Record ui_input : Type := mk_ui {
  text_of : string -> string;
  clicked : option string
}.

(** How a computation ends: with a value, with an uncaught exception, or
    with [st.rerun()], which abandons the run and asks for a fresh one. *)
Inductive outcome (A : Type) : Type :=
| Ret (a : A)
| Raise (e : exn)
| RerunReq.

Arguments Ret {A} a.
Arguments Raise {A} e.
Arguments RerunReq {A}.

Section Script.

Context `{E : Externals}.

Record run_state : Type := mk_rs {
  session : gmap string pyval;
  world : World;
  trace : list event
}.

Definition M (A : Type) : Type := run_state -> outcome A * run_state.

Definition ret {A} (a : A) : M A := fun st => (Ret a, st).

Definition bind {A B} (m : M A) (k : A -> M B) : M B :=
  fun st =>
    match m st with
    | (Ret a, st') => k a st'
    | (Raise e, st') => (Raise e, st')
    | (RerunReq, st') => (RerunReq, st')
    end.

Definition raise {A} (e : exn) : M A := fun st => (Raise e, st).

(** [st.rerun()] *)
Definition rerun {A} : M A := fun st => (RerunReq, st).

Definition emit (ev : event) : M unit :=
  fun st => (Ret tt, mk_rs (session st) (world st) (trace st ++ [ev])).

End Script.

Declare Scope py_scope.
Delimit Scope py_scope with py.
Notation "'let*' x ':=' m 'in' k" := (bind m (fun x => k))
  (at level 10, x pattern, m at level 100, k at level 200) : py_scope.
Notation "m ';;' k" := (bind m (fun _ => k))
  (at level 100, k at level 200, right associativity) : py_scope.

Section Workflow.

Context `{E : Externals}.
Variable ui : ui_input.

Local Open Scope py_scope.

(** *** The session store *)

(** [st.session_state.k] *)
Definition get_attr (k : string) : M pyval :=
  fun st =>
    match session st !! k with
    | Some v => (Ret v, st)
    | None => (Raise AttributeError, st)
    end.

(** [st.session_state.k = v] *)
Definition set_attr (k : string) (v : pyval) : M unit :=
  fun st => (Ret tt, mk_rs (<[k := v]> (session st)) (world st) (trace st)).

(** [if k not in st.session_state: st.session_state.k = v] *)
Definition init_attr (k : string) (v : pyval) : M unit :=
  fun st =>
    match session st !! k with
    | Some _ => (Ret tt, st)
    | None => set_attr k v st
    end.

(** [list(st.session_state.keys())] *)
Definition session_keys : M (list string) :=
  fun st => (Ret (map fst (map_to_list (session st))), st).

(** [del st.session_state[k]] *)
Definition del_key (k : string) : M unit :=
  fun st =>
    match session st !! k with
    | Some _ =>
        (Ret tt, mk_rs (delete k (session st)) (world st) (trace st))
    | None => (Raise (KeyError k), st)
    end.

(** *** Widgets and display *)

Definition show (kind : display) (text : string) : M unit :=
  emit (EvShow kind text).

(** [st.text_input(label, key=key)]: the current value of the field. *)
Definition text_input (label : string) (key : option string) : M string :=
  emit (EvTextInput label key);;
  ret (text_of ui (match key with Some k => k | None => label end)).

(** [st.button(label)]: true in the run that the press of this button
    caused. *)
Definition button (label : string) : M bool :=
  emit (EvButton label);;
  ret (match clicked ui with
       | Some l => String.eqb l label
       | None => false
       end).

(** *** Python operations that can raise *)

(** [l[i]] on a list *)
Definition index {A} (l : list A) (i : nat) : M A :=
  match nth_error l i with
  | Some x => ret x
  | None => raise IndexError
  end.

(** [item.content] *)
Definition item_content (it : out_item) : M (list content_part) :=
  match it with
  | OutMessage _ c => ret c
  | OutToolCall _ => raise AttributeError
  end.

(** [item.id] *)
Definition item_ident (it : out_item) : string :=
  match it with
  | OutMessage i _ => i
  | OutToolCall i => i
  end.

(** [part.text] *)
Definition part_text (p : content_part) : M string :=
  match p with
  | OutputText t => ret t
  | Refusal _ => raise AttributeError
  end.

(** [r.output[i].content[0].text] *)
Definition output_text (r : response) (i : nat) : M string :=
  let* it := index (resp_output r) i in
  let* c := item_content it in
  let* p := index c 0 in
  part_text p.

(** [v[k]] for a string key [k] *)
Definition subscript (v : pyval) (k : string) : M pyval :=
  match v with
  | PDict d =>
      match Py.assoc k d with
      | Some x => ret x
      | None => raise (KeyError k)
      end
  | _ => raise TypeError
  end.

(** The elements [for x in v] runs through. *)
Definition iterate (v : pyval) : M (list pyval) :=
  match Py.iter v with
  | Some l => ret l
  | None => raise TypeError
  end.

(** [json.loads(text)] *)
Definition loads (text : string) : M pyval :=
  match json_loads text with
  | Some v => ret v
  | None => raise JSONDecodeError
  end.

(** [{v}] inside an f-string: a [str] as it is, anything else through
    its [repr]. *)
Definition fmt (v : pyval) : string :=
  match v with
  | PStr s => s
  | _ => py_repr v
  end.

(** [client.responses.create(...)]: the call and its outcome enter the
    trace; a failure is raised to the caller. *)
Definition create (req : request) : M response :=
  fun st =>
    let '(res, w') := responses_create req (world st) in
    let st' := mk_rs (session st) w' (trace st ++ [EvGateway req res]) in
    match res with
    | inr r => (Ret r, st')
    | inl msg => (Raise (GatewayError msg), st')
    end.

(** [for x in l: body(x)] *)
Fixpoint for_each {A} (l : list A) (body : A -> M unit) : M unit :=
  match l with
  | [] => ret tt
  | x :: l' => body x;; for_each l' body
  end.

(** A loop that appends one value per element to a list [acc]. *)
Fixpoint for_append {A B} (l : list A) (body : A -> M B) (acc : list B)
  : M (list B) :=
  match l with
  | [] => ret acc
  | x :: l' => let* y := body x in for_append l' body (acc ++ [y])
  end.

(** The same over [enumerate(l)], counting from [i]. *)
Fixpoint for_append_enum {A B} (l : list A) (i : nat)
    (body : nat -> A -> M B) (acc : list B) : M (list B) :=
  match l with
  | [] => ret acc
  | x :: l' =>
      let* y := body i x in for_append_enum l' (S i) body (acc ++ [y])
  end.

(** *** Constants (lines 18-24) *)

Definition MODEL : string := "gpt-4.1".
Definition MODEL_MINI : string := "gpt-4.1-mini".
Definition TOOLS : list string := ["web_search"].
Definition developer_message : string :=
  PyStr.nl +:+ "You are an expert deep researcher." +:+ PyStr.nl +:+
  "You must provide complete and in-depth research to the user." +:+
  PyStr.nl.

(** *** The workflow functions (lines 27-113) *)

Definition clarify_request (topic : pyval) : request :=
  mk_request MODEL_MINI
    (InText
       (PyStr.nl +:+
        "Ask 5 numbered clarifying questions about the following topic: "
        +:+ fmt topic +:+ "." +:+ PyStr.nl +:+
        "The goal of the questions is to understand the intended purpose of the research."
        +:+ PyStr.nl +:+ "Reply only with the questions" +:+ PyStr.nl))
    PNone developer_message [].

Definition get_clarifying_questions (topic : pyval) : M (pyval * pyval) :=
  let* clarify := create (clarify_request topic) in
  let* text := output_text clarify 0 in
  let questions := PyStr.split_lines text in
  ret (PList (map PStr (filter PyStr.strip_nonempty questions)),
       PStr (resp_id clarify)).

Definition plan_request (topic questions answers clarify_id : pyval)
  : request :=
  mk_request MODEL
    (InText
       (PyStr.nl +:+ "Using the user's " +:+ fmt answers +:+ " to the " +:+
        fmt questions +:+
        ", write a goal sentence, and 5 web search queries for the research about "
        +:+ fmt topic +:+ "." +:+ PyStr.nl +:+
        "Output: A json list of the goal sentence and the 5 web search queries that will reach it."
        +:+ PyStr.nl +:+
        "Format: {" +:+ PyStr.dq +:+ "goal" +:+ PyStr.dq +:+ ": " +:+
        PyStr.dq +:+ "..." +:+ PyStr.dq +:+ ", " +:+
        PyStr.dq +:+ "queries" +:+ PyStr.dq +:+ ": [" +:+
        PyStr.dq +:+ "q1" +:+ PyStr.dq +:+ ", ....]}" +:+ PyStr.nl))
    clarify_id developer_message [].

Definition get_goal_and_queries (topic questions answers clarify_id : pyval)
  : M (pyval * pyval) :=
  let* goal_and_queries :=
    create (plan_request topic questions answers clarify_id) in
  let* text := output_text goal_and_queries 0 in
  let* plan := loads text in
  ret (plan, PStr (resp_id goal_and_queries)).

Definition search_request (query previous_response_id : pyval) : request :=
  mk_request MODEL (InText ("search: " +:+ fmt query))
    previous_response_id developer_message TOOLS.

Definition run_search (query previous_response_id : pyval) : M pyval :=
  let* web_search := create (search_request query previous_response_id) in
  let* it := index (resp_output web_search) 1 in
  let ident := item_ident it in
  let* text := output_text web_search 1 in
  ret (PDict [("query", query);
              ("resp_id", PStr ident);
              ("research_output", PStr text)]).

Definition evaluate_request (goal collected : pyval) : request :=
  mk_request MODEL
    (InMessages
       [("developer", "Research goal: " +:+ fmt goal);
        ("assistant", json_dumps collected);
        ("user",
         "Does this information fully satisfy the goal? Answer Yes or No only.")])
    PNone developer_message [].

(** Line 85, the boolean: ["yes" in response_text.lower()]. *)
Definition sufficient (response_text : string) : bool :=
  PyStr.contains "yes" (PyStr.lower response_text).

Definition evaluate_responses (goal collected : pyval) : M (bool * string) :=
  let* review := create (evaluate_request goal collected) in
  let* response_text := output_text review 0 in
  ret (sufficient response_text, response_text).

Definition more_request (collected goal previous_response_id : pyval)
  : request :=
  mk_request MODEL
    (InMessages
       [("assistant", "Current data: " +:+ json_dumps collected);
        ("user",
         "This has not me the goal: " +:+ fmt goal +:+
         ". Write 5 more web searches to achieve the goal")])
    previous_response_id developer_message [].

Definition get_more_queries (collected goal previous_response_id : pyval)
  : M pyval :=
  let* more_searches :=
    create (more_request collected goal previous_response_id) in
  let* text := output_text more_searches 0 in
  loads text.

Definition report_request (goal collected : pyval) : request :=
  mk_request MODEL
    (InMessages
       [("developer",
         "Write a complete and detailed report abouth the research goal: "
         +:+ fmt goal +:+
         "Cite sources inline using [n] and append a reference" +:+
         "List mapping [n] to url");
        ("assistant", json_dumps collected)])
    PNone developer_message [].

Definition write_final_report (goal collected : pyval) : M string :=
  let* report := create (report_request goal collected) in
  output_text report 0.

(** *** The script (lines 116-228) *)

Definition topic_label : string :=
  "Enter the topic you'd like to research:".
Definition btn_questions : string := "Next: Generate Clarifying Questions".
Definition btn_plan : string := "Next: Generate Research Plan".
Definition btn_search : string := "Next: Run Web Searches".
Definition btn_report : string := "Next: Write Final Report".
Definition btn_proceed : string := "Proceed Anyway".
Definition btn_more : string := "Generate 5 More Queries".
Definition btn_restart : string := "Start New Research".

(** Lines 119-138: every field the script reads gets its default unless
    the store already has it. *)
Definition init_session : M unit :=
  init_attr "step" (PInt 0);;
  init_attr "topic" (PStr "");;
  init_attr "questions" (PList []);;
  init_attr "answers" (PList []);;
  init_attr "clarify_id" PNone;;
  init_attr "goal" (PStr "");;
  init_attr "queries" (PList []);;
  init_attr "goal_and_queries_id" PNone;;
  init_attr "collected" (PList []);;
  init_attr "report" (PStr "").

(** [st.session_state.step == n] *)
Definition step_is (n : Z) : M bool :=
  let* step := get_attr "step" in ret (Py.eq_int step n).

(** Lines 146-149: the body of the first button. *)
Definition questions_pressed : M unit :=
  let* topic := get_attr "topic" in
  let* (questions, clarify_id) := get_clarifying_questions topic in
  set_attr "questions" questions;;
  set_attr "clarify_id" clarify_id;;
  set_attr "step" (PInt 1);;
  rerun.

(** Step 0: enter the topic (lines 141-149). *)
Definition step0 : M unit :=
  let* t := text_input topic_label None in
  set_attr "topic" (PStr t);;
  let* topic := get_attr "topic" in
  if Py.truthy topic then
    let* pressed := button btn_questions in
    if pressed then questions_pressed else ret tt
  else ret tt.

(** The text fields of step 1, one per question (lines 154-157). *)
Definition ask_answers (questions : list pyval) : M (list pyval) :=
  for_append_enum questions 0
    (fun i q =>
       let* answer :=
         text_input (fmt q) (Some ("answer_" +:+ PyStr.decimal i)) in
       ret (PStr answer))
    [].

(** Lines 160-171: the body of the planning button. *)
Definition plan_pressed (answers : list pyval) : M unit :=
  set_attr "answers" (PList answers);;
  let* topic := get_attr "topic" in
  let* questions := get_attr "questions" in
  let* answers := get_attr "answers" in
  let* clarify_id := get_attr "clarify_id" in
  let* (plan, plan_id) :=
    get_goal_and_queries topic questions answers clarify_id in
  let* goal := subscript plan "goal" in
  set_attr "goal" goal;;
  let* queries := subscript plan "queries" in
  set_attr "queries" queries;;
  set_attr "goal_and_queries_id" plan_id;;
  set_attr "step" (PInt 2);;
  rerun.

(** Step 1: answer the questions (lines 152-171). *)
Definition step1 : M unit :=
  show Write "### Clarifying Questions";;
  let* qs := get_attr "questions" in
  let* questions := iterate qs in
  let* answers := ask_answers questions in
  if forallb Py.truthy answers then
    let* pressed := button btn_plan in
    if pressed then plan_pressed answers else ret tt
  else ret tt.

(** The loop of lines 180-183: one search per query, in order, each
    result appended to the local list. *)
Definition search_all (queries : list pyval) : M (list pyval) :=
  for_append queries
    (fun q =>
       let* previous := get_attr "goal_and_queries_id" in
       run_search q previous)
    [].

(** Lines 180-186: the body of the search button. *)
Definition search_pressed : M unit :=
  let* qs := get_attr "queries" in
  let* queries := iterate qs in
  let* collected := search_all queries in
  set_attr "collected" (PList collected);;
  set_attr "step" (PInt 3);;
  rerun.

(** Lines 177-178: the queries, displayed. *)
Definition show_queries (queries : list pyval) : M unit :=
  for_each queries (fun q => show Write ("- " +:+ fmt q)).

(** Step 2: run the searches (lines 174-186). *)
Definition step2 : M unit :=
  let* goal := get_attr "goal" in
  show Write ("### Research Goal" +:+ PyStr.nl +:+ fmt goal);;
  show Write "### Web Search Queries";;
  let* qs := get_attr "queries" in
  let* queries := iterate qs in
  show_queries queries;;
  let* pressed := button btn_search in
  if pressed then search_pressed else ret tt.

(** Lines 191-194: the collected results, displayed. *)
Definition show_collected (items : list pyval) : M unit :=
  for_each items
    (fun item =>
       let* q := subscript item "query" in
       show Write ("**Query:** " +:+ fmt q);;
       let* r := subscript item "research_output" in
       show Write (fmt r);;
       show Write "---").

(** Lines 202-205, and again lines 209-212: the body of the two buttons
    that write the report. *)
Definition report_pressed : M unit :=
  let* goal := get_attr "goal" in
  let* collected := get_attr "collected" in
  let* report := write_final_report goal collected in
  set_attr "report" (PStr report);;
  set_attr "step" (PInt 4);;
  rerun.

(** Lines 214-218: the body of the button for more queries. *)
Definition more_pressed : M unit :=
  let* collected := get_attr "collected" in
  let* goal := get_attr "goal" in
  let* previous := get_attr "goal_and_queries_id" in
  let* more_queries := get_more_queries collected goal previous in
  set_attr "queries" more_queries;;
  set_attr "step" (PInt 2);;
  rerun.

(** Lines 199-218: what step 3 offers once the evaluation is known. *)
Definition step3_actions (is_sufficient : bool) : M unit :=
  if is_sufficient then
    show Success "Sufficient information collected!";;
    let* pressed := button btn_report in
    if pressed then report_pressed else ret tt
  else
    show Warning "Not enough information. Generating 5 more queries...";;
    let* proceed := button btn_proceed in
    (if proceed then report_pressed else ret tt);;
    let* more := button btn_more in
    if more then more_pressed else ret tt.

(** Step 3: evaluate, then report or iterate (lines 189-218). *)
Definition step3 : M unit :=
  show Write "### Collected Research Results";;
  let* c := get_attr "collected" in
  let* items := iterate c in
  show_collected items;;
  let* goal := get_attr "goal" in
  let* collected := get_attr "collected" in
  let* (is_sufficient, eval_response) :=
    evaluate_responses goal collected in
  show Info ("**LLM Evaluation:** " +:+ eval_response);;
  step3_actions is_sufficient.

(** Lines 226-228: the body of the restart button. *)
Definition restart_pressed : M unit :=
  let* keys := session_keys in
  for_each keys del_key;;
  rerun.

(** Step 4: the report, and the way back (lines 221-228). *)
Definition step4 : M unit :=
  show Write "## Final Research Report";;
  let* report := get_attr "report" in
  show Markdown (fmt report);;
  show Balloons "";;
  let* pressed := button btn_restart in
  if pressed then restart_pressed else ret tt.

(** The [if]/[elif] chain on the step index. *)
Definition dispatch : M unit :=
  let* b0 := step_is 0 in
  if b0 then step0 else
  let* b1 := step_is 1 in
  if b1 then step1 else
  let* b2 := step_is 2 in
  if b2 then step2 else
  let* b3 := step_is 3 in
  if b3 then step3 else
  let* b4 := step_is 4 in
  if b4 then step4 else ret tt.

(** One execution of the script from line 116 on. *)
Definition script : M unit :=
  show Title "Deep Research Clone";;
  init_session;;
  dispatch.

(** A run from a session store and a world, with an empty trace. *)
Definition render (s : gmap string pyval) (w : World)
  : outcome unit * run_state :=
  script (mk_rs s w []).

End Workflow.

(** ** A reference instance of the externals

    Used to run the script on concrete inputs.  The world is a script of
    Gateway outcomes, handed out one per call; the decoder reads the JSON
    fragment without fractions, exponents and [\u] escapes and rejects
    every other text. *)

Module Ref.

Definition scripted (req : request) (w : list (string + response))
  : (string + response) * list (string + response) :=
  match w with
  | [] => (inl "connection error", [])
  | r :: w' => (r, w')
  end.

Fixpoint skip_ws (s : string) : string :=
  match s with
  | String c t => if PyStr.is_space c then skip_ws t else s
  | EmptyString => s
  end.

Definition is_digit (c : ascii) : bool :=
  let n := nat_of_ascii c in (48 <=? n)%nat && (n <=? 57)%nat.

Fixpoint digits (s : string) (acc : Z) : Z * string :=
  match s with
  | String c t =>
      if is_digit c
      then digits t (10 * acc + Z.of_nat (nat_of_ascii c - 48))%Z
      else (acc, s)
  | EmptyString => (acc, s)
  end.

Definition number (s : string) : option (Z * string) :=
  match s with
  | String "-" (String c t) =>
      if is_digit c
      then let '(z, r) := digits (String c t) 0 in Some ((- z)%Z, r)
      else None
  | String c _ =>
      if is_digit c then Some (digits s 0) else None
  | EmptyString => None
  end.

(** The body of a string literal, after the opening quote. *)
Fixpoint str_body (s : string) : option (string * string) :=
  match s with
  | EmptyString => None
  | String c t =>
      if Ascii.eqb c (ascii_of_nat 34) then Some (EmptyString, t)
      else if Ascii.eqb c (ascii_of_nat 92) then
        match t with
        | String e t' =>
            let unescaped :=
              if Ascii.eqb e "n" then Some (ascii_of_nat 10)
              else if Ascii.eqb e "t" then Some (ascii_of_nat 9)
              else if Ascii.eqb e "r" then Some (ascii_of_nat 13)
              else if Ascii.eqb e "b" then Some (ascii_of_nat 8)
              else if Ascii.eqb e "f" then Some (ascii_of_nat 12)
              else if Ascii.eqb e "/" then Some e
              else if Ascii.eqb e (ascii_of_nat 92) then Some e
              else if Ascii.eqb e (ascii_of_nat 34) then Some e
              else None in
            match unescaped, str_body t' with
            | Some a, Some (b, r) => Some (String a b, r)
            | _, _ => None
            end
        | EmptyString => None
        end
      else if (nat_of_ascii c <? 32)%nat then None
      else match str_body t with
           | Some (b, r) => Some (String c b, r)
           | None => None
           end
  end.

(** [d[k] = v] on a dictionary: a repeated key keeps its place and
    takes the new value. *)
Fixpoint dict_set (k : string) (v : pyval) (d : list (string * pyval))
  : list (string * pyval) :=
  match d with
  | [] => [(k, v)]
  | (k', v') :: d' =>
      if String.eqb k k' then (k', v) :: d' else (k', v') :: dict_set k v d'
  end.

Definition expect (lit : string) (v : pyval) (s : string)
  : option (pyval * string) :=
  if String.prefix lit s
  then Some (v, String.substring (String.length lit)
                  (String.length s - String.length lit) s)
  else None.

Fixpoint value (fuel : nat) (s : string) : option (pyval * string) :=
  match fuel with
  | O => None
  | S f =>
      match skip_ws s with
      | String "n" _ as s' => expect "null" PNone s'
      | String "t" _ as s' => expect "true" (PBool true) s'
      | String "f" _ as s' => expect "false" (PBool false) s'
      | String "[" t =>
          match skip_ws t with
          | String "]" r => Some (PList [], r)
          | t' => elements f t' []
          end
      | String "{" t =>
          match skip_ws t with
          | String "}" r => Some (PDict [], r)
          | t' => members f t' []
          end
      | String c t as s' =>
          if Ascii.eqb c (ascii_of_nat 34) then
            match str_body t with
            | Some (b, r) => Some (PStr b, r)
            | None => None
            end
          else
            match number s' with
            | Some (z, r) => Some (PInt z, r)
            | None => None
            end
      | EmptyString => None
      end
  end
with elements (fuel : nat) (s : string) (acc : list pyval)
  : option (pyval * string) :=
  match fuel with
  | O => None
  | S f =>
      match value f s with
      | Some (v, r) =>
          match skip_ws r with
          | String "," r' => elements f r' (acc ++ [v])
          | String "]" r' => Some (PList (acc ++ [v]), r')
          | _ => None
          end
      | None => None
      end
  end
with members (fuel : nat) (s : string) (acc : list (string * pyval))
  : option (pyval * string) :=
  match fuel with
  | O => None
  | S f =>
      match skip_ws s with
      | String c t =>
          if Ascii.eqb c (ascii_of_nat 34) then
            match str_body t with
            | Some (k, r) =>
                match skip_ws r with
                | String ":" r' =>
                    match value f r' with
                    | Some (v, r'') =>
                        match skip_ws r'' with
                        | String "," r3 => members f r3 (dict_set k v acc)
                        | String "}" r3 => Some (PDict (dict_set k v acc), r3)
                        | _ => None
                        end
                    | None => None
                    end
                | _ => None
                end
            | None => None
            end
          else None
      | EmptyString => None
      end
  end.

Definition loads (text : string) : option pyval :=
  match value (2 * String.length text + 2) text with
  | Some (v, r) =>
      match skip_ws r with
      | EmptyString => Some v
      | _ => None
      end
  | None => None
  end.

Definition of_Z (z : Z) : string := NilZero.string_of_int (Z.to_int z).

(** A string literal between quotes [q], with [q], the backslash and
    the line feed escaped. *)
Fixpoint escape (q : ascii) (s : string) : string :=
  match s with
  | EmptyString => EmptyString
  | String c t =>
      if Ascii.eqb c q || Ascii.eqb c (ascii_of_nat 92)
      then String (ascii_of_nat 92) (String c (escape q t))
      else if Ascii.eqb c (ascii_of_nat 10)
      then String (ascii_of_nat 92) (String "n" (escape q t))
      else String c (escape q t)
  end.

Definition quoted (q : ascii) (s : string) : string :=
  String q (escape q s +:+ String q EmptyString).

Fixpoint has_char (c : ascii) (s : string) : bool :=
  match s with
  | EmptyString => false
  | String a t => Ascii.eqb a c || has_char c t
  end.

(** [repr] of a [str] takes double quotes when the text has an
    apostrophe and no double quote. *)
Definition quoted_repr (s : string) : string :=
  if has_char (ascii_of_nat 39) s && negb (has_char (ascii_of_nat 34) s)
  then quoted (ascii_of_nat 34) s
  else quoted (ascii_of_nat 39) s.

Definition join (sep : string) (l : list string) : string :=
  match l with
  | [] => EmptyString
  | x :: r => fold_left (fun acc y => acc +:+ sep +:+ y) r x
  end.

(** The common shape of [json.dumps] and [repr]: they differ in the
    quote and in the names of the constants. *)
Fixpoint render_val (str : string -> string) (none true false : string)
    (v : pyval) : string :=
  match v with
  | PNone => none
  | PBool b => if b then true else false
  | PInt z => of_Z z
  | PStr s => str s
  | PList l =>
      "[" +:+ join ", " (map (render_val str none true false) l) +:+ "]"
  | PDict d =>
      "{" +:+
      join ", "
        (map (fun kv => str (fst kv) +:+ ": " +:+
                        render_val str none true false (snd kv)) d)
      +:+ "}"
  end.

Definition dumps : pyval -> string :=
  render_val (quoted (ascii_of_nat 34)) "null" "true" "false".

Definition repr : pyval -> string :=
  render_val quoted_repr "None" "True" "False".

(** Apostrophes for double quotes: writes JSON texts legibly. *)
Fixpoint js (s : string) : string :=
  match s with
  | EmptyString => EmptyString
  | String c t =>
      String (if Ascii.eqb c (ascii_of_nat 39) then ascii_of_nat 34 else c)
             (js t)
  end.

(** A response that is one message with one text block. *)
Definition message (id text : string) : response :=
  mk_response id [OutMessage ("msg_" +:+ id) [OutputText text]].

(** The Gateway answers with that message. *)
Definition says (id text : string) : string + response :=
  inr (message id text).

(** The answer to a search: the tool call, then the message. *)
Definition found (id text : string) : string + response :=
  inr (mk_response id [OutToolCall ("ws_" +:+ id);
                       OutMessage ("msg_" +:+ id) [OutputText text]]).

Definition fails (msg : string) : string + response := inl msg.

End Ref.

Definition ref_externals : Externals := {|
  World := list (string + response);
  responses_create := Ref.scripted;
  json_loads := Ref.loads;
  json_dumps := Ref.dumps;
  py_repr := Ref.repr
|}.

(** ** Derived notions used in the statements *)

Section Notions.

Context `{E : Externals}.

(** What one line of the initialisation makes of a store. *)
Definition setdefault (k : string) (v : pyval) (s : gmap string pyval)
  : gmap string pyval :=
  match s !! k with
  | Some _ => s
  | None => <[k := v]> s
  end.

(** What [init_session] makes of a store. *)
Definition with_defaults (s : gmap string pyval) : gmap string pyval :=
  setdefault "report" (PStr "")
    (setdefault "collected" (PList [])
      (setdefault "goal_and_queries_id" PNone
        (setdefault "queries" (PList [])
          (setdefault "goal" (PStr "")
            (setdefault "clarify_id" PNone
              (setdefault "answers" (PList [])
                (setdefault "questions" (PList [])
                  (setdefault "topic" (PStr "")
                    (setdefault "step" (PInt 0) s))))))))).


(** The fields and their defaults, as lines 119-138 list them. *)
Definition default_fields : list (string * pyval) :=
  [("step", PInt 0); ("topic", PStr ""); ("questions", PList []);
   ("answers", PList []); ("clarify_id", PNone); ("goal", PStr "");
   ("queries", PList []); ("goal_and_queries_id", PNone);
   ("collected", PList []); ("report", PStr "")].

(** The value of a field once the store is initialised. *)
Definition field (s : gmap string pyval) (k : string) : pyval :=
  default PNone (with_defaults s !! k).

(** The requests of the Gateway calls of a trace, in order. *)
Fixpoint gateway_requests (tr : list event) : list request :=
  match tr with
  | [] => []
  | EvGateway req _ :: tr' => req :: gateway_requests tr'
  | _ :: tr' => gateway_requests tr'
  end.

(** A search answer has the shape [run_search] relies on: a second
    output item that is a message whose first block is text. *)
Definition search_shaped (r : response) : Prop :=
  exists it0 id text parts rest,
    resp_output r = it0 :: OutMessage id (OutputText text :: parts) :: rest.

(** From world [w] on, the Gateway answers the searches for [qs], one
    after the other, each with a response of that shape. *)
Fixpoint searches_answered (qs : list pyval) (previous : pyval) (w : World)
  : Prop :=
  match qs with
  | [] => True
  | q :: qs' =>
      exists r w',
        responses_create (search_request q previous) w = (inr r, w') /\
        search_shaped r /\ searches_answered qs' previous w'
  end.

(** The first output item of [r] is a message whose first block is the
    text [text]: what [r.output[0].content[0].text] reads. *)
Definition says_text (r : response) (text : string) : Prop :=
  exists id parts rest,
    resp_output r = OutMessage id (OutputText text :: parts) :: rest.

(** [v] is a search result for the query [q], as [run_search] builds
    it. *)
Definition result_for (q v : pyval) : Prop :=
  exists id text,
    v = PDict [("query", q); ("resp_id", PStr id);
               ("research_output", PStr text)].

(** An item of [collected] that step 3 can display: a dictionary with
    the two keys it reads. *)
Definition displayable (item : pyval) : Prop :=
  exists d q r,
    item = PDict d /\ Py.assoc "query" d = Some q /\
    Py.assoc "research_output" d = Some r.

(** [item[k]], with [None] for a value the display cannot read. *)
Definition item_field (k : string) (item : pyval) : pyval :=
  match item with
  | PDict d => default PNone (Py.assoc k d)
  | _ => PNone
  end.

(** What step 3 displays for the collected results. *)
Fixpoint collected_shown (items : list pyval) : list event :=
  match items with
  | [] => []
  | item :: items' =>
      EvShow Write ("**Query:** " +:+ fmt (item_field "query" item))
      :: EvShow Write (fmt (item_field "research_output" item))
      :: EvShow Write "---"
      :: collected_shown items'
  end.

(** What step 2 displays for the queries. *)
Definition queries_shown (qs : list pyval) : list event :=
  map (fun q => EvShow Write ("- " +:+ fmt q)) qs.

Definition is_show (ev : event) : Prop :=
  exists kind text, ev = EvShow kind text.

(** The text starts with the letters y, e, s, each in either case. *)
Definition yes_at (s : string) : Prop :=
  exists c1 c2 c3 rest,
    s = String c1 (String c2 (String c3 rest)) /\
    (c1 = "y" \/ c1 = "Y")%char /\
    (c2 = "e" \/ c2 = "E")%char /\
    (c3 = "s" \/ c3 = "S")%char.

(** The text contains [yes] as a substring, case-insensitively. *)
Definition yes_somewhere (text : string) : Prop :=
  exists pre post, text = pre +:+ post /\ yes_at post.

(** The ten fields of the session. *)
Definition is_field (k : string) : Prop :=
  In k ["step"; "topic"; "questions"; "answers"; "clarify_id"; "goal";
        "queries"; "goal_and_queries_id"; "collected"; "report"].

(** *** Properties of computations

    A Gateway call that failed shows in the trace as an event with an
    error. *)

Definition failed (tr : list event) (req : request) (msg : string) : Prop :=
  In (EvGateway req (inl msg)) tr.

Definition no_fail (tr : list event) : Prop :=
  forall req msg, ~ failed tr req msg.

(** The exception an outcome carries, if it is one. *)
Definition raised {A} (o : outcome A) : option exn :=
  match o with
  | Raise e => Some e
  | _ => None
  end.

(** [calm m]: [m] leaves the session store alone, and when a Gateway
    call fails in it, [m] ends by raising that failure. *)
Definition calm {A} (m : M A) : Prop :=
  forall st o st',
    m st = (o, st') ->
    session st' = session st /\
    (no_fail (trace st) ->
     forall req msg, failed (trace st') req msg ->
                     raised o = Some (GatewayError msg)).

(** [quiet m]: no Gateway call fails in [m]. *)
Definition quiet {A} (m : M A) : Prop :=
  forall st o st',
    m st = (o, st') -> no_fail (trace st) -> no_fail (trace st').

(** [settled S m]: if a Gateway call has failed by the end of [m],
    started on store [S], the store is [S] at the end. *)
Definition settled {A} (S : gmap string pyval) (m : M A) : Prop :=
  forall st o st',
    m st = (o, st') -> session st = S -> no_fail (trace st) ->
    (forall req msg, failed (trace st') req msg ->
                     raised o = Some (GatewayError msg) /\ session st' = S).

(** [noreturn m]: [m] ends by raising or by asking for a rerun. *)
Definition noreturn {A} (m : M A) : Prop :=
  forall st a st', m st <> (Ret a, st').

(** [grows m]: [m] only appends to the trace. *)
Definition grows {A} (m : M A) : Prop :=
  forall st o st', m st = (o, st') -> exists evs, trace st' = trace st ++ evs.

(** *** Relations a computation preserves *)

(** The outcome is a request for a rerun. *)
Definition reruns {A} (o : outcome A) : bool :=
  match o with
  | RerunReq => true
  | _ => false
  end.

(** [preserves R m]: [m] never asks for a rerun, and relates the state
    it starts from to the state it ends in by [R]. *)
Definition preserves {A} (R : run_state -> run_state -> Prop) (m : M A)
  : Prop :=
  forall st o st', m st = (o, st') -> reruns o = false /\ R st st'.

(** A relation fit for [preserves]: a preorder that holds when an event
    other than a Gateway call is added to the trace. *)
Definition admissible (R : run_state -> run_state -> Prop) : Prop :=
  (forall st, R st st) /\
  (forall st1 st2 st3, R st1 st2 -> R st2 st3 -> R st1 st3) /\
  (forall st ev,
     (forall req res, ev <> EvGateway req res) ->
     R st (mk_rs (session st) (world st) (trace st ++ [ev]))).

(** The store is the same. *)
Definition same_session (st st' : run_state) : Prop :=
  session st' = session st.

(** The step index is the same. *)
Definition same_step (st st' : run_state) : Prop :=
  session st' !! "step" = session st !! "step".

(** The store and the world are the same and the Gateway was not
    called. *)
Definition untouched (st st' : run_state) : Prop :=
  session st' = session st /\ world st' = world st /\
  gateway_requests (trace st') = gateway_requests (trace st).

(** [moves targets m]: when [m] asks for a rerun the step index is one
    of [targets] ([None] for a store without the key); otherwise the
    step index is what it was. *)
Definition moves {A} (targets : list (option pyval)) (m : M A) : Prop :=
  forall st o st',
    m st = (o, st') ->
    if reruns o then In (session st' !! "step") targets
    else session st' !! "step" = session st !! "step".

(** The transitions of the workflow: where a rerun may leave the step
    index, for each value of the index before the run. *)
Definition next_steps (n : Z) : list (option pyval) :=
  if (n =? 0)%Z then [Some (PInt 1)]
  else if (n =? 1)%Z then [Some (PInt 2)]
  else if (n =? 2)%Z then [Some (PInt 3)]
  else if (n =? 3)%Z then [Some (PInt 4); Some (PInt 2)]
  else if (n =? 4)%Z then [None]
  else [].

(** The exceptions a search can end with: a failure of the Gateway, or
    an answer without the item or the text [run_search] reads. *)
Definition search_error (e : exn) : Prop :=
  (exists msg, e = GatewayError msg) \/ e = IndexError \/ e = AttributeError.



(** [spends n m]: [m] calls the Gateway at most [n] times. *)
Definition spends {A} (n : nat) (m : M A) : Prop :=
  forall st o st',
    m st = (o, st') ->
    exists reqs,
      gateway_requests (trace st') = gateway_requests (trace st) ++ reqs /\
      length reqs <= n.

(** The Gateway calls one run can make, by the step of the store: one
    for the questions and one for the plan, one per query for the
    searches, the evaluation and one more at step 3, none elsewhere. *)
Definition call_budget (s : gmap string pyval) : nat :=
  if Py.eq_int (field s "step") 0 then 1
  else if Py.eq_int (field s "step") 1 then 1
  else if Py.eq_int (field s "step") 2 then
    length (default [] (Py.iter (field s "queries")))
  else if Py.eq_int (field s "step") 3 then 2
  else 0.

(** A list of strings. *)
Definition texts (v : pyval) : Prop := exists l, v = PList (map PStr l).

(** The shape of the fields the script writes without regard to what
    the Gateway answered: the step is an index from 0 to 4, the topic
    and the report are strings, the questions and the answers are lists
    of strings, and the collected results are dictionaries step 3 can
    display. *)
Definition well_formed (s : gmap string pyval) : Prop :=
  (exists n, field s "step" = PInt n /\ (0 <= n <= 4)%Z) /\
  (exists t, field s "topic" = PStr t) /\
  texts (field s "questions") /\
  texts (field s "answers") /\
  (exists items,
     field s "collected" = PList items /\ Forall displayable items) /\
  (exists t, field s "report" = PStr t).

(** [keeps I m]: [m] keeps the property [I] of the store. *)
Definition keeps {A} (I : gmap string pyval -> Prop) (m : M A) : Prop :=
  forall st o st', m st = (o, st') -> I (session st) -> I (session st').

(** [yields Q m]: what [m] returns satisfies [Q]. *)
Definition yields {A} (Q : A -> Prop) (m : M A) : Prop :=
  forall st a st', m st = (Ret a, st') -> Q a.

Variable ui : ui_input.

(** The values of the answer fields of step 1, for the questions [qs]
    numbered from [i]. *)
Fixpoint answers_from (qs : list pyval) (i : nat) : list pyval :=
  match qs with
  | [] => []
  | _ :: qs' =>
      PStr (text_of ui ("answer_" +:+ PyStr.decimal i))
      :: answers_from qs' (S i)
  end.

Fixpoint answer_inputs (qs : list pyval) (i : nat) : list event :=
  match qs with
  | [] => []
  | q :: qs' =>
      EvTextInput (fmt q) (Some ("answer_" +:+ PyStr.decimal i))
      :: answer_inputs qs' (S i)
  end.

(** The answers the user has given to the questions of the store. *)
Definition answers_given (questions : pyval) : list pyval :=
  match Py.iter questions with
  | Some qs => answers_from qs 0
  | None => []
  end.

(** The store as the handler of its step leaves it before it calls the
    Gateway: step 0 has stored the topic field, the planning button of
    step 1 has stored the answers, steps 2 to 4 have stored nothing. *)
Definition pre_call_session (s : gmap string pyval) : gmap string pyval :=
  if Py.eq_int (field s "step") 0 then
    <["topic" := PStr (text_of ui topic_label)]> (with_defaults s)
  else if Py.eq_int (field s "step") 1 then
    <["answers" := PList (answers_given (field s "questions"))]>
      (with_defaults s)
  else with_defaults s.

(** The handler the [if]/[elif] chain selects for a step value. *)
Definition handler (step : pyval) : M unit :=
  if Py.eq_int step 0 then step0 ui
  else if Py.eq_int step 1 then step1 ui
  else if Py.eq_int step 2 then step2 ui
  else if Py.eq_int step 3 then step3 ui
  else if Py.eq_int step 4 then step4 ui
  else ret tt.

Definition title : event := EvShow Title "Deep Research Clone".

End Notions.

(** ** Concrete sessions, users and Gateways *)

Module Demo.

(** A user who has typed [text] into every field and pressed [press]. *)
Definition user (text : string) (press : option string) : ui_input :=
  mk_ui (fun _ => text) press.

(** A session in the middle of the workflow, at step [step]. *)
Definition populated (step : Z) : gmap string pyval :=
  list_to_map
    [("step", PInt step); ("topic", PStr "tea");
     ("questions", PList [PStr "1. Why?"; PStr "2. How?"]);
     ("answers", PList []); ("clarify_id", PStr "resp_1");
     ("goal", PStr "Know tea"); ("queries", PList [PStr "q1"; PStr "q2"]);
     ("goal_and_queries_id", PStr "resp_2");
     ("collected", PList []); ("report", PStr "")].

Definition results : list pyval :=
  [PDict [("query", PStr "q1"); ("resp_id", PStr "msg_r3");
          ("research_output", PStr "t1")];
   PDict [("query", PStr "q2"); ("resp_id", PStr "msg_r4");
          ("research_output", PStr "t2")]].

(** The session at step 3, after the two searches. *)
Definition searched : gmap string pyval :=
  <["collected" := PList results]> (populated 3).

(** The session at step 1 when the Gateway gave no question. *)
Definition unasked : gmap string pyval :=
  <["questions" := PList []]> (populated 1).

Definition plan_json : string :=
  Ref.js "{'goal':'G','queries':['a','b','c','d','e']}".

Definition short_plan_json : string :=
  Ref.js "{'goal':'G','queries':['a']}".

Definition five_json : string := Ref.js "['n1','n2','n3','n4','n5']".

Definition one_json : string := Ref.js "['only one']".

Definition yesterday : string := "No, yesterday's figures are missing".

Definition eyes : string := "Eyes on the data: not enough".

Definition goal_only_json : string := Ref.js "{'goal':'G'}".

(** An answer with two questions and a blank line between them. *)
Definition two_questions : string :=
  "1. Why?" +:+ PyStr.nl +:+ "  " +:+ PyStr.nl +:+ "2. How?".

(** The session at step 2 with a number where the queries should
    be. *)
Definition unreadable : gmap string pyval :=
  <["queries" := PInt 7]> (populated 2).

(** The run state a call of a workflow function starts from. *)
Definition calling (w : list (string + response))
  : @run_state ref_externals :=
  @mk_rs ref_externals ∅ w [].

End Demo.

(** ** Lemmas about runs *)

Section Basics.
Context `{E : Externals}.
Variable ui : ui_input.
Local Open Scope py_scope.

Lemma bind_ret {A B} (m : M A) (k : A -> M B) st a st' :
  m st = (Ret a, st') -> bind m k st = k a st'.
Proof. intros H. unfold bind. now rewrite H. Qed.

Lemma bind_assoc_run {A B C} (m : M A) (k : A -> M B) (h : B -> M C) st :
  bind (bind m k) h st = bind m (fun a => bind (k a) h) st.
Proof. unfold bind. destruct (m st) as [[a|e|] st']; reflexivity. Qed.

Lemma init_attr_run k v st :
  init_attr k v st
  = (Ret tt, mk_rs (setdefault k v (session st)) (world st) (trace st)).
Proof.
  destruct st as [s w tr]. unfold init_attr, setdefault, set_attr. simpl.
  now destruct (s !! k).
Qed.

Lemma init_session_run (st : run_state) :
  init_session st
  = (Ret tt, mk_rs (with_defaults (session st)) (world st) (trace st)).
Proof.
  unfold init_session, with_defaults.
  repeat (erewrite bind_ret by apply init_attr_run; cbn [session world trace]).
  now rewrite init_attr_run.
Qed.

Lemma setdefault_lookup k v s k' :
  setdefault k v s !! k'
  = match s !! k' with
    | Some x => Some x
    | None => if decide (k = k') then Some v else None
    end.
Proof.
  unfold setdefault. destruct (s !! k) eqn:Hk.
  - destruct (s !! k') eqn:Hk'; [done|]. case_decide; [congruence|done].
  - rewrite lookup_insert. case_decide.
    + subst. now rewrite Hk.
    + now destruct (s !! k').
Qed.

Lemma with_defaults_field s k :
  is_field k -> with_defaults s !! k = Some (field s k).
Proof.
  intros Hk. unfold field.
  enough (is_Some (with_defaults s !! k)) as [v ->] by done.
  unfold with_defaults. rewrite !setdefault_lookup.
  destruct (s !! k); [eauto|].
  unfold is_field in Hk. simpl in Hk.
  repeat (destruct Hk as [<-|Hk];
          [repeat (case_decide; [eauto|]); congruence|]).
  destruct Hk.
Qed.

(** Unfolding the state plumbing, and nothing else. *)
Ltac plumb :=
  cbv beta iota zeta delta
    [bind ret raise rerun emit show button text_input get_attr set_attr
     step_is session world trace index item_content item_ident part_text
     output_text subscript iterate loads].

Lemma dispatch_step s w tr :
  dispatch ui (mk_rs (with_defaults s) w tr)
  = handler ui (field s "step") (mk_rs (with_defaults s) w tr).
Proof.
  assert (Hs : with_defaults s !! "step" = Some (field s "step")).
  { apply with_defaults_field. unfold is_field. simpl. tauto. }
  unfold dispatch, handler.
  do 5 (plumb; rewrite Hs; destruct (Py.eq_int _ _); [reflexivity|]).
  reflexivity.
Qed.

Lemma script_run s w tr :
  script ui (mk_rs s w tr)
  = handler ui (field s "step") (mk_rs (with_defaults s) w (tr ++ [title])).
Proof.
  unfold script.
  erewrite bind_ret by reflexivity.
  erewrite bind_ret by apply init_session_run.
  apply dispatch_step.
Qed.

Lemma render_run s w :
  render ui s w
  = handler ui (field s "step") (mk_rs (with_defaults s) w [title]).
Proof. unfold render. now rewrite script_run. Qed.

(** *** Gateway failures in a trace *)

Lemma raised_inv {A} (o : outcome A) e : raised o = Some e -> o = Raise e.
Proof. destruct o; simpl; congruence. Qed.

Lemma no_fail_snoc tr ev :
  no_fail tr -> (forall req msg, ev <> EvGateway req (inl msg)) ->
  no_fail (tr ++ [ev]).
Proof.
  intros Htr Hev req msg Hin. apply in_app_or in Hin as [Hin|[Hin|[]]].
  - exact (Htr _ _ Hin).
  - exact (Hev _ _ Hin).
Qed.

Lemma bind_inv {A B} (m : M A) (k : A -> M B) st o st' :
  bind m k st = (o, st') ->
  (exists a st1, m st = (Ret a, st1) /\ k a st1 = (o, st')) \/
  (exists e, m st = (Raise e, st') /\ o = Raise e) \/
  (m st = (RerunReq, st') /\ o = RerunReq).
Proof.
  unfold bind. destruct (m st) as [[a|e|] st1]; intros H.
  - left. eauto.
  - right. left. inversion H. eauto.
  - right. right. inversion H. eauto.
Qed.

Lemma calm_bind {A B} (m : M A) (k : A -> M B) :
  calm m -> (forall a, calm (k a)) -> calm (bind m k).
Proof.
  intros Hm Hk st o st' Hrun.
  apply bind_inv in Hrun as [(a & st1 & H1 & H2)|[(e & H1 & ->)|[H1 ->]]].
  - destruct (Hm _ _ _ H1) as [Hs1 Hf1]. destruct (Hk a _ _ _ H2) as [Hs2 Hf2].
    split; [congruence|]. intros Hnf. apply Hf2.
    intros req msg Hin. specialize (Hf1 Hnf _ _ Hin). discriminate.
  - exact (Hm _ _ _ H1).
  - exact (Hm _ _ _ H1).
Qed.

Lemma quiet_bind {A B} (m : M A) (k : A -> M B) :
  quiet m -> (forall a, quiet (k a)) -> quiet (bind m k).
Proof.
  intros Hm Hk st o st' Hrun Hnf.
  apply bind_inv in Hrun as [(a & st1 & H1 & H2)|[(e & H1 & ->)|[H1 ->]]].
  - exact (Hk a _ _ _ H2 (Hm _ _ _ H1 Hnf)).
  - exact (Hm _ _ _ H1 Hnf).
  - exact (Hm _ _ _ H1 Hnf).
Qed.

Lemma settled_bind {A B} S (m : M A) (k : A -> M B) :
  calm m -> (forall a, settled S (k a)) -> settled S (bind m k).
Proof.
  intros Hm Hk st o st' Hrun HS Hnf req msg Hin.
  apply bind_inv in Hrun as [(a & st1 & H1 & H2)|[(e & H1 & ->)|[H1 ->]]].
  - destruct (Hm _ _ _ H1) as [Hs1 Hf1].
    refine (Hk a _ _ _ H2 _ _ req msg Hin); [congruence|].
    intros req' msg' Hin'. specialize (Hf1 Hnf _ _ Hin'). discriminate.
  - destruct (Hm _ _ _ H1) as [Hs1 Hf1].
    split; [exact (Hf1 Hnf _ _ Hin)|congruence].
  - destruct (Hm _ _ _ H1) as [Hs1 Hf1].
    specialize (Hf1 Hnf _ _ Hin). discriminate.
Qed.

Lemma settled_quiet {A} S (m : M A) : quiet m -> settled S m.
Proof.
  intros Hm st o st' Hrun _ Hnf req msg Hin.
  destruct (Hm _ _ _ Hrun Hnf _ _ Hin).
Qed.

(** The primitives. *)

Lemma calm_pure {A} (m : M A) :
  (forall st, exists o, m st = (o, st)) -> calm m.
Proof.
  intros H st o st' Hrun. destruct (H st) as [o' Ho].
  rewrite Ho in Hrun. inversion Hrun; subst. split; [done|].
  intros Hnf req msg Hin. destruct (Hnf _ _ Hin).
Qed.

Lemma quiet_pure {A} (m : M A) :
  (forall st, exists o, m st = (o, st)) -> quiet m.
Proof.
  intros H st o st' Hrun. destruct (H st) as [o' Ho].
  rewrite Ho in Hrun. now inversion Hrun; subst.
Qed.

Lemma calm_ret {A} (a : A) : calm (ret a).
Proof. apply calm_pure. intros st. now exists (Ret a). Qed.

Lemma calm_raise {A} e : calm (@raise E A e).
Proof. apply calm_pure. intros st. now exists (Raise e). Qed.

Lemma calm_get_attr k : calm (get_attr k).
Proof.
  apply calm_pure. intros st. unfold get_attr.
  destruct (session st !! k); eauto.
Qed.

Lemma calm_emit ev :
  (forall req msg, ev <> EvGateway req (inl msg)) -> calm (emit ev).
Proof.
  intros Hev st o st' Hrun. inversion Hrun; subst; clear Hrun.
  split; [done|]. cbn [trace]. intros Hnf req msg Hin.
  destruct (no_fail_snoc _ _ Hnf Hev _ _ Hin).
Qed.

Lemma calm_show kind text : calm (show kind text).
Proof. apply calm_emit. discriminate. Qed.

Lemma calm_button label : calm (button ui label).
Proof.
  unfold button. apply calm_bind; [apply calm_emit; discriminate|].
  intros _. apply calm_ret.
Qed.

Lemma calm_text_input label key : calm (text_input ui label key).
Proof.
  unfold text_input. apply calm_bind; [apply calm_emit; discriminate|].
  intros _. apply calm_ret.
Qed.

Lemma calm_create req : calm (create req).
Proof.
  intros st o st' Hrun. unfold create in Hrun.
  destruct (responses_create req (world st)) as [[msg|r] w'];
    inversion Hrun; subst; clear Hrun; cbn [session trace]; (split; [done|]);
    intros Hnf req' msg' Hin; apply in_app_or in Hin as [Hin|[Hin|[]]];
    try (destruct (Hnf _ _ Hin)); now inversion Hin.
Qed.

Lemma quiet_still {A} (m : M A) :
  (forall st o st', m st = (o, st') -> trace st' = trace st) -> quiet m.
Proof. intros H st o st' Hrun Hnf. now rewrite (H _ _ _ Hrun). Qed.

Lemma quiet_set_attr k v : quiet (set_attr k v).
Proof. apply quiet_still. intros st o st' H. now inversion H. Qed.

Lemma quiet_del_key k : quiet (del_key k).
Proof.
  apply quiet_still. intros st o st' H. unfold del_key in H.
  destruct (session st !! k); now inversion H.
Qed.

Lemma quiet_rerun {A} : quiet (@rerun E A).
Proof. apply quiet_pure. intros st. now exists RerunReq. Qed.

Lemma quiet_ret {A} (a : A) : quiet (ret a).
Proof. apply quiet_pure. intros st. now exists (Ret a). Qed.

Lemma quiet_raise {A} e : quiet (@raise E A e).
Proof. apply quiet_pure. intros st. now exists (Raise e). Qed.

Lemma quiet_get_attr k : quiet (get_attr k).
Proof.
  apply quiet_pure. intros st. unfold get_attr.
  destruct (session st !! k); eauto.
Qed.

Lemma quiet_session_keys : quiet session_keys.
Proof. apply quiet_pure. intros st. unfold session_keys. eauto. Qed.

Lemma quiet_emit ev :
  (forall req msg, ev <> EvGateway req (inl msg)) -> quiet (emit ev).
Proof.
  intros Hev st o st' Hrun Hnf. inversion Hrun; subst. cbn [trace].
  now apply no_fail_snoc.
Qed.

Lemma quiet_show kind text : quiet (show kind text).
Proof. apply quiet_emit. discriminate. Qed.

Lemma quiet_button label : quiet (button ui label).
Proof.
  unfold button. apply quiet_bind; [apply quiet_emit; discriminate|].
  intros _. apply quiet_ret.
Qed.

Lemma quiet_text_input label key : quiet (text_input ui label key).
Proof.
  unfold text_input. apply quiet_bind; [apply quiet_emit; discriminate|].
  intros _. apply quiet_ret.
Qed.


(** *** Structural proofs of [calm] and [quiet] *)

Ltac pure_case :=
  intros st;
  repeat match goal with
    | |- context [match ?x with _ => _ end] => destruct x
    end;
  eexists; reflexivity.

Lemma calm_index {A} (l : list A) i : calm (index l i).
Proof. apply calm_pure. unfold index. pure_case. Qed.

Lemma calm_item_content it : calm (item_content it).
Proof. apply calm_pure. unfold item_content. pure_case. Qed.

Lemma calm_part_text p : calm (part_text p).
Proof. apply calm_pure. unfold part_text. pure_case. Qed.

Lemma calm_subscript v k : calm (subscript v k).
Proof. apply calm_pure. unfold subscript. pure_case. Qed.

Lemma quiet_subscript v k : quiet (subscript v k).
Proof. apply quiet_pure. unfold subscript. pure_case. Qed.

Lemma calm_iterate v : calm (iterate v).
Proof. apply calm_pure. unfold iterate. pure_case. Qed.

Lemma quiet_iterate v : quiet (iterate v).
Proof. apply quiet_pure. unfold iterate. pure_case. Qed.

Lemma calm_loads text : calm (loads text).
Proof. apply calm_pure. unfold loads. pure_case. Qed.

Ltac calmly :=
  repeat first
    [ apply calm_ret | apply calm_raise
    | apply calm_get_attr | apply calm_show | apply calm_button
    | apply calm_text_input | apply calm_create | apply calm_index
    | apply calm_item_content | apply calm_part_text
    | apply calm_subscript | apply calm_iterate | apply calm_loads
    | apply calm_bind
    | match goal with
      | |- forall _, _ => intro
      | |- calm (match ?x with _ => _ end) => destruct x
      end ].

Ltac quietly :=
  repeat first
    [ apply quiet_ret | apply quiet_raise
    | apply quiet_rerun | apply quiet_get_attr | apply quiet_set_attr
    | apply quiet_del_key | apply quiet_session_keys | apply quiet_show
    | apply quiet_button | apply quiet_text_input
    | apply quiet_subscript | apply quiet_iterate
    | apply quiet_bind
    | match goal with
      | |- forall _, _ => intro
      | |- quiet (match ?x with _ => _ end) => destruct x
      end ].

Lemma calm_output_text r i : calm (output_text r i).
Proof. unfold output_text. calmly. Qed.

Lemma calm_get_clarifying_questions topic :
  calm (get_clarifying_questions topic).
Proof.
  unfold get_clarifying_questions. calmly.
Qed.

Lemma calm_get_goal_and_queries topic questions answers clarify_id :
  calm (get_goal_and_queries topic questions answers clarify_id).
Proof.
  unfold get_goal_and_queries. calmly.
Qed.

Lemma calm_run_search q previous : calm (run_search q previous).
Proof.
  unfold run_search, index. calmly.
Qed.

Lemma calm_evaluate_responses goal collected :
  calm (evaluate_responses goal collected).
Proof. unfold evaluate_responses. calmly. Qed.

Lemma calm_get_more_queries collected goal previous :
  calm (get_more_queries collected goal previous).
Proof.
  unfold get_more_queries. calmly.
Qed.

Lemma calm_write_final_report goal collected :
  calm (write_final_report goal collected).
Proof. unfold write_final_report. calmly. Qed.

Lemma calm_for_each {A} (l : list A) body :
  (forall x, calm (body x)) -> calm (for_each l body).
Proof. intros Hb. induction l; cbn [for_each]; calmly; auto. Qed.

Lemma quiet_for_each {A} (l : list A) body :
  (forall x, quiet (body x)) -> quiet (for_each l body).
Proof. intros Hb. induction l; cbn [for_each]; quietly; auto. Qed.

Lemma calm_for_append {A B} (l : list A) (body : A -> M B) acc :
  (forall x, calm (body x)) -> calm (for_append l body acc).
Proof.
  intros Hb. revert acc. induction l; intros acc; cbn [for_append];
    calmly; auto.
Qed.

Lemma calm_for_append_enum {A B} (l : list A) i (body : nat -> A -> M B) acc :
  (forall i x, calm (body i x)) -> calm (for_append_enum l i body acc).
Proof.
  intros Hb. revert i acc.
  induction l; intros i acc; cbn [for_append_enum]; calmly; auto.
Qed.

Lemma calm_search_all qs : calm (search_all qs).
Proof.
  unfold search_all. apply calm_for_append. intros q. calmly.
Qed.

Lemma calm_ask_answers qs : calm (ask_answers ui qs).
Proof. unfold ask_answers. apply calm_for_append_enum. calmly. Qed.

Lemma calm_show_collected items : calm (show_collected items).
Proof.
  unfold show_collected. apply calm_for_each. intros item. calmly.
Qed.


Lemma noreturn_rerun {A} : noreturn (@rerun E A).
Proof. intros st a st'. discriminate. Qed.

Lemma noreturn_bind {A B} (m : M A) (k : A -> M B) :
  (forall a, noreturn (k a)) -> noreturn (bind m k).
Proof.
  intros Hk st b st' Hrun.
  apply bind_inv in Hrun as [(a & st1 & H1 & H2)|[(e & H1 & ?)|[H1 ?]]];
    try discriminate.
  exact (Hk a _ _ _ H2).
Qed.

Ltac stops :=
  repeat first
    [ apply noreturn_rerun | apply noreturn_bind
    | match goal with
      | |- forall _, _ => intro
      | |- noreturn (match ?x with _ => _ end) => destruct x
      end ].

Lemma noreturn_report_pressed : noreturn report_pressed.
Proof. unfold report_pressed. stops. Qed.

Lemma settled_bind_stop {A B} S (m : M A) (k : A -> M B) :
  settled S m -> noreturn m -> settled S (bind m k).
Proof.
  intros Hm Hn st o st' Hrun HS Hnf req msg Hin.
  apply bind_inv in Hrun as [(a & st1 & H1 & H2)|[(e & H1 & ->)|[H1 ->]]].
  - destruct (Hn _ _ _ H1).
  - exact (Hm _ _ _ H1 HS Hnf _ _ Hin).
  - exact (Hm _ _ _ H1 HS Hnf _ _ Hin).
Qed.

Ltac calmly' :=
  repeat first
    [ apply calm_search_all | apply calm_ask_answers
    | apply calm_show_collected | apply calm_for_each
    | progress calmly ].

Ltac settle :=
  repeat first
    [ apply settled_quiet; solve [quietly]
    | apply settled_bind; [solve [calmly']|]
    | match goal with
      | |- forall _, _ => intro
      | |- settled _ (match ?x with _ => _ end) => destruct x
      | |- settled _ (bind (match ?x with _ => _ end) _) => destruct x
      end ].

Lemma settled_questions_pressed S : settled S questions_pressed.
Proof. unfold questions_pressed. settle. Qed.

Lemma settled_search_pressed S : settled S search_pressed.
Proof. unfold search_pressed. settle. Qed.

Lemma settled_report_pressed S : settled S report_pressed.
Proof. unfold report_pressed. settle. Qed.

Lemma settled_more_pressed S : settled S more_pressed.
Proof. unfold more_pressed. settle. Qed.

Lemma settled_restart_pressed S : settled S restart_pressed.
Proof.
  apply settled_quiet. unfold restart_pressed. quietly.
  apply quiet_for_each. quietly.
Qed.

Lemma settled_step2 S : settled S (step2 ui).
Proof. unfold step2, show_queries. settle. Qed.

Lemma settled_step3 S : settled S (step3 ui).
Proof.
  unfold step3, step3_actions. settle.
  apply settled_bind_stop;
    [apply settled_report_pressed | apply noreturn_report_pressed].
Qed.

Lemma settled_step4 S : settled S (step4 ui).
Proof. unfold step4. settle. apply settled_restart_pressed. Qed.


(** *** The deterministic parts of the handlers *)

Lemma text_input_run label key st :
  text_input ui label key st
  = (Ret (text_of ui (match key with Some k => k | None => label end)),
     mk_rs (session st) (world st) (trace st ++ [EvTextInput label key])).
Proof. reflexivity. Qed.

Lemma button_run label st :
  button ui label st
  = (Ret (match clicked ui with
          | Some l => String.eqb l label
          | None => false
          end),
     mk_rs (session st) (world st) (trace st ++ [EvButton label])).
Proof. reflexivity. Qed.

Lemma show_run kind text st :
  show kind text st
  = (Ret tt, mk_rs (session st) (world st) (trace st ++ [EvShow kind text])).
Proof. reflexivity. Qed.

Lemma set_attr_run k v st :
  set_attr k v st
  = (Ret tt, mk_rs (<[k := v]> (session st)) (world st) (trace st)).
Proof. reflexivity. Qed.

Lemma get_attr_run k v st :
  session st !! k = Some v -> get_attr k st = (Ret v, st).
Proof. intros H. unfold get_attr. now rewrite H. Qed.

Lemma for_append_enum_answers qs i acc st :
  for_append_enum qs i
    (fun i q =>
       bind (text_input ui (fmt q) (Some ("answer_" +:+ PyStr.decimal i)))
            (fun answer => ret (PStr answer)))
    acc st
  = (Ret (acc ++ answers_from ui qs i),
     mk_rs (session st) (world st) (trace st ++ answer_inputs qs i)).
Proof.
  revert i acc st. induction qs as [|q qs IH]; intros i acc st.
  - cbn [for_append_enum answers_from answer_inputs]. unfold ret.
    rewrite !app_nil_r. now destruct st.
  - cbn [for_append_enum answers_from answer_inputs].
    erewrite bind_ret by (erewrite bind_ret by apply text_input_run;
                          reflexivity).
    rewrite IH. cbn [session world trace]. now rewrite <- !app_assoc.
Qed.

Lemma ask_answers_run qs st :
  ask_answers ui qs st
  = (Ret (answers_from ui qs 0),
     mk_rs (session st) (world st) (trace st ++ answer_inputs qs 0)).
Proof. unfold ask_answers. now rewrite for_append_enum_answers. Qed.

Lemma plan_pressed_failure answers st o st' :
  plan_pressed answers st = (o, st') -> no_fail (trace st) ->
  forall req msg, failed (trace st') req msg ->
    raised o = Some (GatewayError msg) /\
    session st' = <["answers" := PList answers]> (session st).
Proof.
  unfold plan_pressed. intros Hrun Hnf.
  erewrite bind_ret in Hrun by apply set_attr_run.
  revert Hrun.
  match goal with
  | |- ?m ?st0 = _ -> _ =>
      intros Hrun;
      assert (Hs : settled (session st0) m) by settle;
      exact (Hs _ _ _ Hrun eq_refl Hnf)
  end.
Qed.

Lemma step0_failure st o st' :
  step0 ui st = (o, st') -> no_fail (trace st) ->
  forall req msg, failed (trace st') req msg ->
    raised o = Some (GatewayError msg) /\
    session st' = <["topic" := PStr (text_of ui topic_label)]> (session st).
Proof.
  unfold step0. intros Hrun Hnf.
  erewrite bind_ret in Hrun by apply text_input_run.
  erewrite bind_ret in Hrun by apply set_attr_run.
  revert Hrun.
  match goal with
  | |- ?m ?st0 = _ -> _ =>
      intros Hrun;
      assert (Hs : settled (session st0) m)
        by (settle; apply settled_questions_pressed);
      refine (Hs _ _ _ Hrun eq_refl _)
  end.
  cbn [trace]. apply no_fail_snoc; [exact Hnf|discriminate].
Qed.


Lemma step1_failure st o st' v :
  session st !! "questions" = Some v ->
  step1 ui st = (o, st') -> no_fail (trace st) ->
  forall req msg, failed (trace st') req msg ->
    raised o = Some (GatewayError msg) /\
    session st' = <["answers" := PList (answers_given ui v)]> (session st).
Proof.
  unfold step1. intros Hq Hrun Hnf req msg Hin.
  erewrite bind_ret in Hrun by apply show_run.
  erewrite bind_ret in Hrun by (apply get_attr_run; exact Hq).
  unfold answers_given, iterate in *.
  destruct (Py.iter v) as [qs|].
  - erewrite bind_ret in Hrun by reflexivity.
    erewrite bind_ret in Hrun by apply ask_answers_run.
    assert (Hnf' : forall evs,
               (forall ev, In ev evs -> forall r m, ev <> EvGateway r (inl m)) ->
               no_fail (trace st ++ evs)).
    { intros evs Hevs r m Hf. apply in_app_or in Hf as [Hf|Hf].
      - exact (Hnf _ _ Hf).
      - exact (Hevs _ Hf _ _ eq_refl). }
    assert (Hinputs : forall i ev,
               In ev (answer_inputs qs i) ->
               forall r m, ev <> EvGateway r (inl m)).
    { clear. induction qs as [|q qs IH]; intros i ev [].
      - subst. discriminate.
      - eauto. }
    destruct (forallb Py.truthy (answers_from ui qs 0)).
    + erewrite bind_ret in Hrun by apply button_run.
      cbn [session world trace] in Hrun.
      destruct (match clicked ui with
                | Some l => String.eqb l btn_plan
                | None => false
                end).
      * refine (plan_pressed_failure _ _ _ _ Hrun _ _ _ Hin).
        cbn [trace]. rewrite <- !app_assoc. apply Hnf'.
        intros ev Hev. apply in_app_or in Hev as [[<-|[]]|Hev];
          [discriminate|].
        apply in_app_or in Hev as [Hev|[<-|[]]]; [eauto|discriminate].
      * inversion Hrun; subst. cbn [trace] in Hin. exfalso.
        rewrite <- !app_assoc in Hin. revert Hin. apply Hnf'.
        intros ev Hev. apply in_app_or in Hev as [[<-|[]]|Hev];
          [discriminate|].
        apply in_app_or in Hev as [Hev|[<-|[]]]; [eauto|discriminate].
    + inversion Hrun; subst. cbn [trace] in Hin. exfalso.
      rewrite <- !app_assoc in Hin. revert Hin. apply Hnf'.
      intros ev Hev. apply in_app_or in Hev as [[<-|[]]|Hev];
        [discriminate|eauto].
  - unfold bind, raise in Hrun. inversion Hrun; subst. cbn [trace] in Hin.
    exfalso. apply in_app_or in Hin as [Hin|[Hin|[]]];
      [exact (Hnf _ _ Hin)|discriminate].
Qed.

(** *** When a Gateway call fails *)

Lemma handler_failure s w o st' :
  handler ui (field s "step") (mk_rs (with_defaults s) w [title]) = (o, st') ->
  forall req msg, failed (trace st') req msg ->
    raised o = Some (GatewayError msg) /\
    session st' = pre_call_session ui s.
Proof.
  assert (Hnf : no_fail [title]).
  { intros req msg [Hin|[]]. discriminate. }
  unfold handler, pre_call_session. intros Hrun req msg Hin.
  destruct (Py.eq_int (field s "step") 0).
  { exact (step0_failure _ _ _ Hrun Hnf _ _ Hin). }
  destruct (Py.eq_int (field s "step") 1).
  { refine (step1_failure _ _ _ _ _ Hrun Hnf _ _ Hin).
    apply with_defaults_field. unfold is_field. simpl. tauto. }
  destruct (Py.eq_int (field s "step") 2).
  { exact (settled_step2 _ _ _ _ Hrun eq_refl Hnf _ _ Hin). }
  destruct (Py.eq_int (field s "step") 3).
  { exact (settled_step3 _ _ _ _ Hrun eq_refl Hnf _ _ Hin). }
  destruct (Py.eq_int (field s "step") 4).
  { exact (settled_step4 _ _ _ _ Hrun eq_refl Hnf _ _ Hin). }
  inversion Hrun; subst. destruct (Hnf _ _ Hin).
Qed.


(** *** The workflow functions on a Gateway that answers *)

Lemma create_ok req st r w' :
  responses_create req (world st) = (inr r, w') ->
  create req st
  = (Ret r, mk_rs (session st) w' (trace st ++ [EvGateway req (inr r)])).
Proof. intros H. unfold create. now rewrite H. Qed.

Lemma create_failed req st msg w' :
  responses_create req (world st) = (inl msg, w') ->
  create req st
  = (Raise (GatewayError msg),
     mk_rs (session st) w' (trace st ++ [EvGateway req (inl msg)])).
Proof. intros H. unfold create. now rewrite H. Qed.

Lemma output_text_says r text st :
  says_text r text -> output_text r 0 st = (Ret text, st).
Proof.
  intros (id & parts & rest & Hr). unfold output_text, index.
  rewrite Hr. reflexivity.
Qed.

Lemma get_goal_and_queries_ok topic questions answers clarify_id st r w' text :
  responses_create (plan_request topic questions answers clarify_id)
                   (world st) = (inr r, w') ->
  says_text r text ->
  get_goal_and_queries topic questions answers clarify_id st
  = (match json_loads text with
     | Some plan => Ret (plan, PStr (resp_id r))
     | None => Raise JSONDecodeError
     end,
     mk_rs (session st) w'
       (trace st ++
        [EvGateway (plan_request topic questions answers clarify_id)
                   (inr r)])).
Proof.
  intros Hc Ht. unfold get_goal_and_queries.
  erewrite bind_ret by (apply create_ok; exact Hc).
  erewrite bind_ret by (apply output_text_says; exact Ht).
  unfold loads. now destruct (json_loads text).
Qed.

Lemma evaluate_responses_ok goal collected st r w' text :
  responses_create (evaluate_request goal collected) (world st)
  = (inr r, w') ->
  says_text r text ->
  evaluate_responses goal collected st
  = (Ret (sufficient text, text),
     mk_rs (session st) w'
       (trace st ++ [EvGateway (evaluate_request goal collected) (inr r)])).
Proof.
  intros Hc Ht. unfold evaluate_responses.
  erewrite bind_ret by (apply create_ok; exact Hc).
  erewrite bind_ret by (apply output_text_says; exact Ht).
  reflexivity.
Qed.

Lemma get_more_queries_ok collected goal previous st r w' text :
  responses_create (more_request collected goal previous) (world st)
  = (inr r, w') ->
  says_text r text ->
  get_more_queries collected goal previous st
  = (match json_loads text with
     | Some v => Ret v
     | None => Raise JSONDecodeError
     end,
     mk_rs (session st) w'
       (trace st ++
        [EvGateway (more_request collected goal previous) (inr r)])).
Proof.
  intros Hc Ht. unfold get_more_queries.
  erewrite bind_ret by (apply create_ok; exact Hc).
  erewrite bind_ret by (apply output_text_says; exact Ht).
  unfold loads. now destruct (json_loads text).
Qed.

Lemma get_clarifying_questions_ok topic st r w' text :
  responses_create (clarify_request topic) (world st) = (inr r, w') ->
  says_text r text ->
  get_clarifying_questions topic st
  = (Ret (PList (map PStr (filter PyStr.strip_nonempty
                             (PyStr.split_lines text))),
          PStr (resp_id r)),
     mk_rs (session st) w'
       (trace st ++ [EvGateway (clarify_request topic) (inr r)])).
Proof.
  intros Hc Ht. unfold get_clarifying_questions.
  erewrite bind_ret by (apply create_ok; exact Hc).
  erewrite bind_ret by (apply output_text_says; exact Ht).
  reflexivity.
Qed.

Lemma run_search_ok q previous st r w' :
  responses_create (search_request q previous) (world st) = (inr r, w') ->
  search_shaped r ->
  exists v,
    result_for q v /\
    run_search q previous st
    = (Ret v,
       mk_rs (session st) w'
         (trace st ++ [EvGateway (search_request q previous) (inr r)])).
Proof.
  intros Hc (it0 & id & text & parts & rest & Hr).
  exists (PDict [("query", q); ("resp_id", PStr id);
                 ("research_output", PStr text)]).
  split; [now exists id, text|].
  unfold run_search.
  erewrite bind_ret by (apply create_ok; exact Hc).
  unfold output_text, index. rewrite Hr. reflexivity.
Qed.

(** Whatever the Gateway does, a search ends with a result for its
    query or with an exception, after exactly one call, and leaves the
    store alone. *)
Lemma run_search_inv q previous st o st' :
  run_search q previous st = (o, st') ->
  session st' = session st /\
  (exists res,
     trace st' = trace st ++ [EvGateway (search_request q previous) res]) /\
  match o with
  | Ret v => result_for q v
  | Raise _ => True
  | RerunReq => False
  end.
Proof.
  unfold run_search, create. intros Hrun.
  unfold bind at 1 in Hrun.
  destruct (responses_create (search_request q previous) (world st))
    as [[msg|r] w'].
  - inversion Hrun; subst. cbn [session trace]. eauto.
  - revert Hrun. unfold output_text, index, item_content, part_text.
    destruct (resp_output r) as [|it0 [|[id [|[text|rf] parts]|id] rest]];
      cbn; intros Hrun; inversion Hrun; subst; cbn [session trace];
      (split; [reflexivity|]); (split; [eauto|]); try exact I.
    now exists id, text.
Qed.


(** *** The loops *)

Lemma gateway_requests_app tr1 tr2 :
  gateway_requests (tr1 ++ tr2)
  = gateway_requests tr1 ++ gateway_requests tr2.
Proof.
  induction tr1 as [|[] tr1 IH]; cbn [gateway_requests app];
    rewrite ?IH; reflexivity.
Qed.

Lemma show_queries_run qs st :
  show_queries qs st
  = (Ret tt, mk_rs (session st) (world st) (trace st ++ queries_shown qs)).
Proof.
  unfold show_queries, queries_shown. revert st.
  induction qs as [|q qs IH]; intros st; cbn [for_each map].
  - unfold ret. rewrite app_nil_r. now destruct st.
  - erewrite bind_ret by apply show_run. rewrite IH.
    cbn [session world trace]. now rewrite <- app_assoc.
Qed.

Lemma show_collected_run items st :
  Forall displayable items ->
  show_collected items st
  = (Ret tt,
     mk_rs (session st) (world st) (trace st ++ collected_shown items)).
Proof.
  unfold show_collected. intros Hitems. revert st.
  induction Hitems as [|item items (d & q & r & -> & Hq & Hr) _ IH];
    intros st; cbn [for_each collected_shown].
  - unfold ret. rewrite app_nil_r. now destruct st.
  - unfold subscript, item_field. rewrite Hq, Hr. cbn [default].
    erewrite bind_ret
      by (erewrite bind_ret by reflexivity;
          erewrite bind_ret by apply show_run;
          erewrite bind_ret by reflexivity;
          erewrite bind_ret by apply show_run;
          apply show_run).
    rewrite IH. cbn [session world trace].
    rewrite <- !app_assoc. reflexivity.
Qed.

(** The search loop, whatever the Gateway does: the store is left alone;
    a loop that completes has appended one result per query, in order,
    after one call per query, in order. *)
Lemma search_loop_inv previous qs acc st o st' :
  session st !! "goal_and_queries_id" = Some previous ->
  for_append qs
    (fun q => bind (get_attr "goal_and_queries_id")
                   (fun previous => run_search q previous))
    acc st = (o, st') ->
  session st' = session st /\
  match o with
  | Ret l =>
      exists items,
        l = acc ++ items /\ Forall2 result_for qs items /\
        gateway_requests (trace st')
        = gateway_requests (trace st)
          ++ map (fun q => search_request q previous) qs
  | Raise _ => True
  | RerunReq => False
  end.
Proof.
  intros Hp. revert acc st Hp.
  induction qs as [|q qs IH]; intros acc st Hp; cbn [for_append].
  - intros Hrun. inversion Hrun; subst. split; [done|].
    exists []. rewrite !app_nil_r. repeat split. constructor.
  - intros Hrun.
    apply bind_inv in Hrun as [(v & st1 & H1 & H2)|[(e & H1 & ->)|[H1 ->]]].
    + erewrite bind_ret in H1 by (apply get_attr_run; exact Hp).
      apply run_search_inv in H1 as (Hs1 & (res & Ht1) & Hv).
      apply IH in H2 as [Hs2 Ho]; [|now rewrite Hs1].
      split; [congruence|].
      destruct o as [l|e|]; [|exact I|exact Ho].
      destruct Ho as (items & -> & Hitems & Hreq).
      exists (v :: items). rewrite <- app_assoc. split; [done|].
      split; [now constructor|].
      rewrite Hreq, Ht1, gateway_requests_app. cbn [gateway_requests map].
      now rewrite <- app_assoc.
    + erewrite bind_ret in H1 by (apply get_attr_run; exact Hp).
      apply run_search_inv in H1 as (Hs1 & _ & _). now split.
    + erewrite bind_ret in H1 by (apply get_attr_run; exact Hp).
      apply run_search_inv in H1 as (_ & _ & []).
Qed.

(** On a Gateway that answers every search, the loop completes. *)
Lemma search_loop_ok previous qs acc st :
  session st !! "goal_and_queries_id" = Some previous ->
  searches_answered qs previous (world st) ->
  exists l st',
    for_append qs
      (fun q => bind (get_attr "goal_and_queries_id")
                     (fun previous => run_search q previous))
      acc st = (Ret l, st').
Proof.
  intros Hp. revert acc st Hp.
  induction qs as [|q qs IH]; intros acc st Hp; cbn [for_append].
  - intros _. now exists acc, st.
  - intros (r & w' & Hc & Hshape & Hrest).
    destruct (run_search_ok q previous st r w' Hc Hshape) as (v & _ & Hv).
    erewrite bind_ret
      by (erewrite bind_ret by (apply get_attr_run; exact Hp); exact Hv).
    apply IH; [exact Hp|exact Hrest].
Qed.

(** Deleting every key of the store, one after the other, empties it. *)
Lemma delete_keys_run keys s w tr :
  NoDup keys -> (forall k, k ∈ keys <-> is_Some (s !! k)) ->
  for_each keys del_key (mk_rs s w tr) = (Ret tt, mk_rs ∅ w tr).
Proof.
  intros Hnd. revert s. induction Hnd as [|k keys Hk Hnd IH]; intros s Hs.
  - cbn [for_each]. unfold ret. do 2 f_equal.
    apply map_empty. intros k. apply eq_None_not_Some. rewrite <- Hs.
    apply not_elem_of_nil.
  - cbn [for_each].
    assert (Hsk : is_Some (s !! k)) by (apply Hs; left).
    destruct Hsk as [v Hv].
    erewrite bind_ret
      by (unfold del_key; cbn [session world trace]; rewrite Hv;
          reflexivity).
    apply IH. intros k'. rewrite lookup_delete. case_decide.
    + subst. split; [done|]. intros [? ?]. discriminate.
    + rewrite <- Hs, elem_of_cons.
      split; [tauto|intros [?|?]; [congruence|done]].
Qed.

Lemma restart_pressed_run s w tr :
  restart_pressed (mk_rs s w tr) = (RerunReq, mk_rs ∅ w tr).
Proof.
  unfold restart_pressed.
  erewrite bind_ret by reflexivity. cbn [session].
  erewrite bind_ret; [reflexivity|].
  apply delete_keys_run.
  - apply NoDup_fst_map_to_list.
  - intros k. rewrite list_elem_of_fmap. split.
    + intros ([k' v] & -> & Hin). apply elem_of_map_to_list in Hin. eauto.
    + intros [v Hv]. exists (k, v). split; [done|].
      now apply elem_of_map_to_list.
Qed.


(** *** The handlers up to the body of the pressed button *)

Ltac fld := apply with_defaults_field; unfold is_field; simpl; tauto.

Lemma pressed_same label :
  clicked ui = Some label ->
  match clicked ui with
  | Some l => String.eqb l label
  | None => false
  end = true.
Proof. intros ->. apply String.eqb_refl. Qed.

Lemma step2_pressed s w tr qs :
  field s "queries" = PList qs ->
  clicked ui = Some btn_search ->
  step2 ui (mk_rs (with_defaults s) w tr)
  = search_pressed
      (mk_rs (with_defaults s) w
         (tr ++
          [EvShow Write ("### Research Goal" +:+ PyStr.nl +:+
                         fmt (field s "goal"));
           EvShow Write "### Web Search Queries"] ++
          queries_shown qs ++ [EvButton btn_search])).
Proof.
  intros Hq Hc. unfold step2.
  erewrite bind_ret by (apply get_attr_run; cbn [session]; fld).
  erewrite bind_ret by apply show_run.
  erewrite bind_ret by apply show_run.
  erewrite bind_ret by (apply get_attr_run; cbn [session]; fld).
  rewrite Hq.
  erewrite bind_ret by reflexivity.
  erewrite bind_ret by apply show_queries_run.
  erewrite bind_ret by apply button_run.
  rewrite (pressed_same _ Hc). cbn [session world trace].
  now rewrite <- !app_assoc.
Qed.

Lemma search_pressed_inv s w tr qs o st' :
  field s "queries" = PList qs ->
  search_pressed (mk_rs (with_defaults s) w tr) = (o, st') ->
  match o with
  | Ret _ => False
  | Raise _ => session st' = with_defaults s
  | RerunReq =>
      exists collected,
        session st'
        = <["step" := PInt 3]>
            (<["collected" := PList collected]> (with_defaults s)) /\
        Forall2 result_for qs collected /\
        gateway_requests (trace st')
        = gateway_requests tr
          ++ map (fun q => search_request q (field s "goal_and_queries_id"))
                 qs
  end.
Proof.
  intros Hq. unfold search_pressed.
  erewrite bind_ret by (apply get_attr_run; cbn [session]; fld).
  rewrite Hq. erewrite bind_ret by reflexivity.
  intros Hrun.
  apply bind_inv in Hrun as [(l & st1 & H1 & H2)|[(e & H1 & ->)|[H1 ->]]].
  - eapply search_loop_inv in H1 as [Hs1 (items & -> & Hitems & Hreq)];
      [|cbn [session]; fld].
    destruct st1 as [s1 w1 tr1]. cbn [session trace] in *. subst s1.
    unfold bind, set_attr, rerun in H2. cbn [session world trace] in H2.
    injection H2 as <- <-. cbn [session trace].
    exists items. auto.
  - eapply search_loop_inv in H1 as [Hs1 _]; [|cbn [session]; fld].
    exact Hs1.
  - eapply search_loop_inv in H1 as [_ []]. cbn [session]. fld.
Qed.

Lemma search_pressed_ok s w tr qs :
  field s "queries" = PList qs ->
  searches_answered qs (field s "goal_and_queries_id") w ->
  exists st', search_pressed (mk_rs (with_defaults s) w tr) = (RerunReq, st').
Proof.
  intros Hq Hans. unfold search_pressed.
  erewrite bind_ret by (apply get_attr_run; cbn [session]; fld).
  rewrite Hq. erewrite bind_ret by reflexivity.
  destruct (search_loop_ok (field s "goal_and_queries_id") qs []
              (mk_rs (with_defaults s) w tr)) as (l & st1 & Hl);
    [cbn [session]; fld|exact Hans|].
  unfold search_all. erewrite bind_ret by exact Hl.
  eexists. reflexivity.
Qed.


Lemma render_step s w n :
  field s "step" = PInt n ->
  render ui s w = handler ui (PInt n) (mk_rs (with_defaults s) w [title]).
Proof. intros <-. apply render_run. Qed.

(** ** The sufficiency heuristic *)

Lemma lower_char_is c (l u : ascii) :
  PyStr.lower_char u = l -> PyStr.lower_char l = l ->
  (forall c', PyStr.lower_char c' = l -> c' = l \/ c' = u) ->
  PyStr.lower_char c = l <-> (c = l \/ c = u).
Proof. intros Hu Hl Hall. split; [apply Hall|intros [->| ->]; assumption]. Qed.

Lemma lower_char_y c :
  PyStr.lower_char c = "y"%char <-> (c = "y" \/ c = "Y")%char.
Proof.
  apply lower_char_is; [reflexivity..|].
  intros [[] [] [] [] [] [] [] []]; vm_compute; intros H;
    first [discriminate H | now left | now right].
Qed.

Lemma lower_char_e c :
  PyStr.lower_char c = "e"%char <-> (c = "e" \/ c = "E")%char.
Proof.
  apply lower_char_is; [reflexivity..|].
  intros [[] [] [] [] [] [] [] []]; vm_compute; intros H;
    first [discriminate H | now left | now right].
Qed.

Lemma lower_char_s c :
  PyStr.lower_char c = "s"%char <-> (c = "s" \/ c = "S")%char.
Proof.
  apply lower_char_is; [reflexivity..|].
  intros [[] [] [] [] [] [] [] []]; vm_compute; intros H;
    first [discriminate H | now left | now right].
Qed.

Lemma prefix_yes_lower s :
  String.prefix "yes" (PyStr.lower s) = true <-> yes_at s.
Proof.
  unfold yes_at. split.
  - destruct s as [|c1 [|c2 [|c3 rest]]]; cbn [PyStr.lower String.prefix];
      try discriminate;
      repeat match goal with
        | |- (if ascii_dec ?a ?b then _ else _) = _ -> _ =>
            destruct (ascii_dec a b); [|discriminate]
        end; try discriminate.
    intros _. exists c1, c2, c3, rest.
    split; [reflexivity|].
    rewrite <- lower_char_y, <- lower_char_e, <- lower_char_s. auto.
  - intros (c1 & c2 & c3 & rest & -> & H1 & H2 & H3).
    apply lower_char_y in H1. apply lower_char_e in H2.
    apply lower_char_s in H3.
    cbn [PyStr.lower String.prefix]. rewrite H1, H2, H3.
    repeat (destruct (ascii_dec _ _); [|congruence]).
    now destruct rest.
Qed.

Lemma contains_lower_split needle s :
  PyStr.contains needle (PyStr.lower s) = true <->
  exists pre post,
    s = pre +:+ post /\ String.prefix needle (PyStr.lower post) = true.
Proof.
  split.
  - induction s as [|c s IH]; cbn [PyStr.lower PyStr.contains];
      intros H; apply orb_true_iff in H as [H|H].
    + now exists "", "".
    + discriminate.
    + now exists "", (String c s).
    + destruct (IH H) as (pre & post & -> & Hp).
      now exists (String c pre), post.
  - intros (pre & post & -> & Hp). induction pre as [|c pre IH].
    + change ("" +:+ post) with post.
      destruct post; cbn [PyStr.lower PyStr.contains] in *;
        now rewrite Hp.
    + change (String c pre +:+ post) with (String c (pre +:+ post)).
      cbn [PyStr.lower PyStr.contains]. rewrite IH. apply orb_true_r.
Qed.

Lemma sufficient_iff text : sufficient text = true <-> yes_somewhere text.
Proof.
  unfold sufficient, yes_somewhere. rewrite contains_lower_split.
  split; intros (pre & post & Ht & Hp); exists pre, post;
    (split; [exact Ht|]); now apply prefix_yes_lower.
Qed.

Lemma yes_somewhere_word pre w post :
  In w ["Yes"; "yes"; "YES"] -> yes_somewhere (pre +:+ w +:+ post).
Proof.
  intros Hw. exists pre, (w +:+ post). split; [reflexivity|].
  destruct Hw as [<-|[<-|[<-|[]]]];
    (eexists _, _, _, post; split; [reflexivity|]); auto.
Qed.


(** *** Traces only grow *)

Lemma grows_bind {A B} (m : M A) (k : A -> M B) :
  grows m -> (forall a, grows (k a)) -> grows (bind m k).
Proof.
  intros Hm Hk st o st' Hrun.
  apply bind_inv in Hrun as [(a & st1 & H1 & H2)|[(e & H1 & ->)|[H1 ->]]];
    [|exact (Hm _ _ _ H1)..].
  destruct (Hm _ _ _ H1) as [evs1 Ht1]. destruct (Hk a _ _ _ H2) as [evs2 Ht2].
  exists (evs1 ++ evs2). now rewrite Ht2, Ht1, app_assoc.
Qed.

Lemma grows_still {A} (m : M A) :
  (forall st o st', m st = (o, st') -> trace st' = trace st) -> grows m.
Proof.
  intros H st o st' Hrun. exists []. rewrite app_nil_r. exact (H _ _ _ Hrun).
Qed.

Lemma grows_ret {A} (a : A) : grows (ret a).
Proof. apply grows_still. intros st o st' H. now inversion H. Qed.

Lemma grows_raise {A} e : grows (@raise E A e).
Proof. apply grows_still. intros st o st' H. now inversion H. Qed.

Lemma grows_rerun {A} : grows (@rerun E A).
Proof. apply grows_still. intros st o st' H. now inversion H. Qed.

Lemma grows_get_attr k : grows (get_attr k).
Proof.
  apply grows_still. intros st o st' H. unfold get_attr in H.
  destruct (session st !! k); now inversion H.
Qed.

Lemma grows_set_attr k v : grows (set_attr k v).
Proof. apply grows_still. intros st o st' H. now inversion H. Qed.

Lemma grows_del_key k : grows (del_key k).
Proof.
  apply grows_still. intros st o st' H. unfold del_key in H.
  destruct (session st !! k); now inversion H.
Qed.

Lemma grows_session_keys : grows session_keys.
Proof. apply grows_still. intros st o st' H. now inversion H. Qed.

Lemma grows_emit ev : grows (emit ev).
Proof. intros st o st' H. inversion H; subst. now exists [ev]. Qed.

Lemma grows_create req : grows (create req).
Proof.
  intros st o st' H. unfold create in H.
  destruct (responses_create req (world st)) as [[msg|r] w'];
    inversion H; subst; cbn [trace]; eauto.
Qed.

Lemma grows_index {A} (l : list A) i : grows (index l i).
Proof.
  apply grows_still. intros st o st' H. unfold index in H.
  destruct (nth_error l i); now inversion H.
Qed.

Lemma grows_item_content it : grows (item_content it).
Proof.
  apply grows_still. intros st o st' H. destruct it; now inversion H.
Qed.

Lemma grows_part_text p : grows (part_text p).
Proof.
  apply grows_still. intros st o st' H. destruct p; now inversion H.
Qed.

Lemma grows_subscript v k : grows (subscript v k).
Proof.
  apply grows_still. intros st o st' H. unfold subscript in H.
  destruct v; try (now inversion H).
  destruct (Py.assoc k d); now inversion H.
Qed.

Lemma grows_iterate v : grows (iterate v).
Proof.
  apply grows_still. intros st o st' H. unfold iterate in H.
  destruct (Py.iter v); now inversion H.
Qed.

Lemma grows_loads text : grows (loads text).
Proof.
  apply grows_still. intros st o st' H. unfold loads in H.
  destruct (json_loads text); now inversion H.
Qed.

Lemma grows_for_each {A} (l : list A) body :
  (forall x, grows (body x)) -> grows (for_each l body).
Proof.
  intros Hb. induction l; cbn [for_each];
    [apply grows_ret|apply grows_bind; auto].
Qed.

Lemma grows_for_append {A B} (l : list A) (body : A -> M B) acc :
  (forall x, grows (body x)) -> grows (for_append l body acc).
Proof.
  intros Hb. revert acc. induction l; intros acc; cbn [for_append];
    [apply grows_ret|apply grows_bind; auto].
Qed.

Ltac growing :=
  repeat first
    [ apply grows_ret | apply grows_raise | apply grows_rerun
    | apply grows_get_attr | apply grows_set_attr | apply grows_del_key
    | apply grows_session_keys | apply grows_emit | apply grows_create
    | apply grows_index | apply grows_item_content | apply grows_part_text
    | apply grows_subscript | apply grows_iterate | apply grows_loads
    | apply grows_for_each | apply grows_for_append
    | apply grows_bind
    | match goal with
      | |- forall _, _ => intro
      | |- grows (match ?x with _ => _ end) => destruct x
      end ].

Lemma grows_step3_actions b : grows (step3_actions ui b).
Proof.
  unfold step3_actions, report_pressed, more_pressed, write_final_report,
    get_more_queries, output_text, button, show.
  growing.
Qed.

Lemma grows_output_text r i : grows (output_text r i).
Proof. unfold output_text. growing. Qed.


(** *** Steps 0, 1, 3 and 4 up to the body of the pressed button *)

Lemma step0_pressed s w tr :
  text_of ui topic_label <> "" ->
  clicked ui = Some btn_questions ->
  step0 ui (mk_rs s w tr)
  = questions_pressed
      (mk_rs (<["topic" := PStr (text_of ui topic_label)]> s) w
         (tr ++ [EvTextInput topic_label None; EvButton btn_questions])).
Proof.
  intros Ht Hc. unfold step0.
  erewrite bind_ret by apply text_input_run.
  erewrite bind_ret by apply set_attr_run.
  erewrite bind_ret
    by (apply get_attr_run; cbn [session]; apply lookup_insert_eq).
  cbn [Py.truthy].
  destruct (String.eqb_spec (text_of ui topic_label) ""); [done|].
  cbn [negb].
  erewrite bind_ret by apply button_run.
  rewrite (pressed_same _ Hc). cbn [session world trace].
  now rewrite <- !app_assoc.
Qed.


Lemma questions_pressed_ok s w tr topic r w' text :
  s !! "topic" = Some topic ->
  responses_create (clarify_request topic) w = (inr r, w') ->
  says_text r text ->
  questions_pressed (mk_rs s w tr)
  = (RerunReq,
     mk_rs (<["step" := PInt 1]>
              (<["clarify_id" := PStr (resp_id r)]>
                 (<["questions" :=
                      PList (map PStr (filter PyStr.strip_nonempty
                                         (PyStr.split_lines text)))]> s)))
           w' (tr ++ [EvGateway (clarify_request topic) (inr r)])).
Proof.
  intros Ht Hc Hs. unfold questions_pressed.
  erewrite bind_ret by (apply get_attr_run; exact Ht).
  erewrite bind_ret
    by (eapply get_clarifying_questions_ok; [exact Hc|exact Hs]).
  reflexivity.
Qed.

Lemma step1_pressed s w tr qs :
  Py.iter (field s "questions") = Some qs ->
  forallb Py.truthy (answers_from ui qs 0) = true ->
  clicked ui = Some btn_plan ->
  step1 ui (mk_rs (with_defaults s) w tr)
  = plan_pressed (answers_from ui qs 0)
      (mk_rs (with_defaults s) w
         (tr ++ [EvShow Write "### Clarifying Questions"]
             ++ answer_inputs qs 0 ++ [EvButton btn_plan])).
Proof.
  intros Hq Hall Hc. unfold step1.
  erewrite bind_ret by apply show_run.
  erewrite bind_ret by (apply get_attr_run; cbn [session]; fld).
  unfold iterate. rewrite Hq.
  erewrite bind_ret by reflexivity.
  erewrite bind_ret by apply ask_answers_run.
  rewrite Hall.
  erewrite bind_ret by apply button_run.
  rewrite (pressed_same _ Hc). cbn [session world trace].
  now rewrite <- !app_assoc.
Qed.

Lemma lookup_answers_set s k answers :
  is_field k -> k <> "answers" ->
  <["answers" := answers]> (with_defaults s) !! k = Some (field s k).
Proof.
  intros Hk Hne. rewrite lookup_insert_ne by congruence.
  now apply with_defaults_field.
Qed.

(** The planning button: the first thing after storing the answers is
    the call of the planner on the stored fields. *)
Lemma plan_pressed_calls s w tr answers o st' :
  plan_pressed answers (mk_rs (with_defaults s) w tr) = (o, st') ->
  exists res rest,
    trace st'
    = tr ++ EvGateway (plan_request (field s "topic") (field s "questions")
                         (PList answers) (field s "clarify_id")) res
         :: rest.
Proof.
  unfold plan_pressed.
  erewrite bind_ret by apply set_attr_run. cbn [session world trace].
  erewrite bind_ret
    by (apply get_attr_run; cbn [session]; apply lookup_answers_set;
        [unfold is_field; simpl; tauto|done]).
  erewrite bind_ret
    by (apply get_attr_run; cbn [session]; apply lookup_answers_set;
        [unfold is_field; simpl; tauto|done]).
  erewrite bind_ret
    by (apply get_attr_run; cbn [session]; apply lookup_insert_eq).
  erewrite bind_ret
    by (apply get_attr_run; cbn [session]; apply lookup_answers_set;
        [unfold is_field; simpl; tauto|done]).
  unfold get_goal_and_queries. rewrite !bind_assoc_run.
  intros Hrun.
  apply bind_inv in Hrun as [(r & st1 & H1 & H2)|[(e & H1 & ->)|[H1 ->]]].
  - unfold create in H1. cbn [session world trace] in H1.
    destruct (responses_create _ w) as [[msg|r'] w1]; inversion H1; subst.
    match type of H2 with
    | ?m ?st = _ =>
        assert (Hg : grows m)
          by (unfold output_text; growing; apply grows_output_text)
    end.
    destruct (Hg _ _ _ H2) as [evs Hevs]. cbn [trace] in Hevs.
    rewrite Hevs, <- app_assoc. eauto.
  - unfold create in H1. cbn [session world trace] in H1.
    destruct (responses_create _ w) as [[msg|r'] w1]; inversion H1; subst.
    cbn [trace]. eauto.
  - unfold create in H1.
    destruct (responses_create _ _) as [[msg|r'] w1]; inversion H1.
Qed.


Lemma plan_pressed_ok s w tr answers r w' text d g q :
  responses_create
    (plan_request (field s "topic") (field s "questions") (PList answers)
                  (field s "clarify_id")) w = (inr r, w') ->
  says_text r text ->
  json_loads text = Some (PDict d) ->
  Py.assoc "goal" d = Some g ->
  Py.assoc "queries" d = Some q ->
  plan_pressed answers (mk_rs (with_defaults s) w tr)
  = (RerunReq,
     mk_rs (<["step" := PInt 2]>
              (<["goal_and_queries_id" := PStr (resp_id r)]>
                 (<["queries" := q]>
                    (<["goal" := g]>
                       (<["answers" := PList answers]> (with_defaults s))))))
           w'
           (tr ++ [EvGateway
                     (plan_request (field s "topic") (field s "questions")
                                   (PList answers) (field s "clarify_id"))
                     (inr r)])).
Proof.
  intros Hc Ht Hj Hg Hq. unfold plan_pressed.
  erewrite bind_ret by apply set_attr_run. cbn [session world trace].
  erewrite bind_ret
    by (apply get_attr_run; cbn [session]; apply lookup_answers_set;
        [unfold is_field; simpl; tauto|done]).
  erewrite bind_ret
    by (apply get_attr_run; cbn [session]; apply lookup_answers_set;
        [unfold is_field; simpl; tauto|done]).
  erewrite bind_ret
    by (apply get_attr_run; cbn [session]; apply lookup_insert_eq).
  erewrite bind_ret
    by (apply get_attr_run; cbn [session]; apply lookup_answers_set;
        [unfold is_field; simpl; tauto|done]).
  erewrite bind_ret
    by (erewrite get_goal_and_queries_ok by (cbn [world]; eassumption);
        rewrite Hj; reflexivity).
  unfold subscript. rewrite Hg, Hq. reflexivity.
Qed.

(** Step 3 up to the evaluation: the results are displayed, then the
    evaluator is called on the goal and the results of the store. *)
Lemma step3_evaluates s w tr items :
  field s "collected" = PList items ->
  Forall displayable items ->
  step3 ui (mk_rs (with_defaults s) w tr)
  = bind (evaluate_responses (field s "goal") (field s "collected"))
      (fun '(is_sufficient, eval_response) =>
         bind (show Info ("**LLM Evaluation:** " +:+ eval_response))
              (fun _ => step3_actions ui is_sufficient))
      (mk_rs (with_defaults s) w
         (tr ++ [EvShow Write "### Collected Research Results"]
             ++ collected_shown items)).
Proof.
  intros Hc Hitems. unfold step3.
  erewrite bind_ret by apply show_run.
  erewrite bind_ret by (apply get_attr_run; cbn [session]; fld).
  rewrite Hc. erewrite bind_ret by reflexivity.
  erewrite bind_ret by (apply show_collected_run; exact Hitems).
  erewrite bind_ret by (apply get_attr_run; cbn [session]; fld).
  erewrite bind_ret by (apply get_attr_run; cbn [session]; fld).
  rewrite Hc. cbn [session world trace]. now rewrite <- !app_assoc.
Qed.

Lemma evaluate_responses_calls goal collected st o st' :
  evaluate_responses goal collected st = (o, st') ->
  exists rest,
    trace st'
    = trace st
      ++ EvGateway (evaluate_request goal collected)
           (fst (responses_create (evaluate_request goal collected)
                                  (world st)))
      :: rest.
Proof.
  unfold evaluate_responses. intros Hrun.
  apply bind_inv in Hrun as [(r & st1 & H1 & H2)|[(e & H1 & ->)|[H1 ->]]];
    unfold create in H1;
    destruct (responses_create _ (world st)) as [[msg|r'] w1];
    inversion H1; subst; cbn [trace fst]; eauto.
  match type of H2 with
  | ?m ?st = _ => assert (Hg : grows m) by (unfold output_text; growing)
  end.
  destruct (Hg _ _ _ H2) as [evs Hevs]. cbn [trace] in Hevs.
  rewrite Hevs, <- app_assoc. eauto.
Qed.

Lemma step3_not_sufficient s w tr items r w' text :
  field s "collected" = PList items ->
  Forall displayable items ->
  responses_create
    (evaluate_request (field s "goal") (field s "collected")) w
  = (inr r, w') ->
  says_text r text ->
  sufficient text = false ->
  clicked ui = Some btn_more ->
  step3 ui (mk_rs (with_defaults s) w tr)
  = more_pressed
      (mk_rs (with_defaults s) w'
         (tr ++ [EvShow Write "### Collected Research Results"]
             ++ collected_shown items
             ++ [EvGateway
                   (evaluate_request (field s "goal") (field s "collected"))
                   (inr r);
                 EvShow Info ("**LLM Evaluation:** " +:+ text);
                 EvShow Warning
                   "Not enough information. Generating 5 more queries...";
                 EvButton btn_proceed; EvButton btn_more])).
Proof.
  intros Hc Hitems Hr Ht Hno Hclick.
  rewrite (step3_evaluates _ _ _ _ Hc Hitems).
  erewrite bind_ret
    by (eapply evaluate_responses_ok; [cbn [world]; exact Hr|exact Ht]).
  rewrite Hno. cbv beta iota.
  erewrite bind_ret by apply show_run.
  unfold step3_actions.
  erewrite bind_ret by apply show_run.
  erewrite bind_ret by apply button_run.
  rewrite Hclick. change (String.eqb btn_more btn_proceed) with false.
  cbv iota. erewrite bind_ret by reflexivity.
  erewrite bind_ret by apply button_run.
  rewrite (pressed_same _ Hclick). cbn [session world trace].
  now rewrite <- !app_assoc.
Qed.

Lemma more_pressed_ok s w tr r w' text v :
  responses_create
    (more_request (field s "collected") (field s "goal")
                  (field s "goal_and_queries_id")) w = (inr r, w') ->
  says_text r text ->
  json_loads text = Some v ->
  more_pressed (mk_rs (with_defaults s) w tr)
  = (RerunReq,
     mk_rs (<["step" := PInt 2]> (<["queries" := v]> (with_defaults s))) w'
       (tr ++ [EvGateway
                 (more_request (field s "collected") (field s "goal")
                               (field s "goal_and_queries_id")) (inr r)])).
Proof.
  intros Hc Ht Hj. unfold more_pressed.
  erewrite bind_ret by (apply get_attr_run; cbn [session]; fld).
  erewrite bind_ret by (apply get_attr_run; cbn [session]; fld).
  erewrite bind_ret by (apply get_attr_run; cbn [session]; fld).
  erewrite bind_ret
    by (erewrite get_more_queries_ok by (cbn [world]; eassumption);
        rewrite Hj; reflexivity).
  reflexivity.
Qed.


Lemma with_defaults_id s :
  (forall k, is_field k -> is_Some (s !! k)) -> with_defaults s = s.
Proof.
  intros Hs. unfold with_defaults.
  assert (Hd : forall k v m, m = s -> is_field k -> setdefault k v m = s).
  { intros k v m -> Hk. unfold setdefault.
    destruct (Hs k Hk) as [x ->]. reflexivity. }
  repeat (apply Hd; [|unfold is_field; simpl; tauto]). reflexivity.
Qed.

End Basics.

(** ** The claims *)

Section Claims.

Context `{E : Externals}.

(** C1.  At step 2, with the list [qs] as [queries], the press of the
    search button never ends the run normally: it raises, or it asks
    for a rerun.  When it asks for a rerun, the store holds step 3 and a
    [collected] list as long as [qs] whose [i]-th result has the [i]-th
    query under ["query"], and the Gateway has been called once per
    query, for the queries in list order and for nothing else.  On a
    Gateway that answers every search, the transition does complete. *)
Theorem search_transition_collects ui s w qs :
  field s "step" = PInt 2 ->
  field s "queries" = PList qs ->
  clicked ui = Some btn_search ->
  fst (render ui s w) <> Ret tt /\
  (forall st',
     render ui s w = (RerunReq, st') ->
     exists collected : list pyval,
       session st' !! "collected" = Some (PList collected) /\
       session st' !! "step" = Some (PInt 3) /\
       length collected = length qs /\
       (forall i q,
          qs !! i = Some q ->
          exists d, collected !! i = Some (PDict d) /\
                    Py.assoc "query" d = Some q) /\
       gateway_requests (trace st')
       = map (fun q => search_request q (field s "goal_and_queries_id")) qs)
  /\
  (searches_answered qs (field s "goal_and_queries_id") w ->
   exists st', render ui s w = (RerunReq, st')).
Proof.
  intros Hstep Hq Hc.
  rewrite (render_step ui _ _ _ Hstep).
  change (handler ui (PInt 2)) with (step2 ui).
  rewrite (step2_pressed ui _ _ _ _ Hq Hc).
  split; [|split].
  - match goal with
    | |- fst ?r <> _ => destruct r as [o st'] eqn:Hrun
    end.
    pose proof (search_pressed_inv _ _ _ _ _ _ Hq Hrun) as Hinv.
    destruct o; [destruct Hinv|discriminate|discriminate].
  - intros st' Hrun.
    destruct (search_pressed_inv _ _ _ _ _ _ Hq Hrun)
      as (collected & Hs & Hitems & Hreq).
    exists collected. rewrite Hs.
    split; [rewrite lookup_insert_ne by done; apply lookup_insert_eq|].
    split; [apply lookup_insert_eq|].
    split; [symmetry; exact (Forall2_length _ _ _ Hitems)|].
    split.
    + intros i q Hi.
      destruct (Forall2_lookup_l _ _ _ _ _ Hitems Hi)
        as (v & Hv & id & text & ->).
      eexists. split; [exact Hv|reflexivity].
    + rewrite Hreq, !gateway_requests_app.
      assert (Hshown : gateway_requests (queries_shown qs) = []).
      { unfold queries_shown. clear. now induction qs. }
      rewrite Hshown. reflexivity.
  - intros Hans. exact (search_pressed_ok _ _ _ _ Hq Hans).
Qed.

(** C2.  When the Gateway answers the planner's request with the text
    [text]: if [text] is the JSON object with goal [G] and the five
    queries [a] to [e], the planner returns that plan, with
    [plan["goal"]] equal to [G] and [plan["queries"]] equal to the five
    queries in order, together with the identifier of the answer; if
    [text] is not valid JSON, the planner raises the decoder's error and
    returns nothing.  Either way the store is as it was. *)
Theorem planner_parses_reply topic questions answers clarify_id st r w' text :
  responses_create (plan_request topic questions answers clarify_id)
                   (world st) = (inr r, w') ->
  says_text r text ->
  let st1 :=
    mk_rs (session st) w'
      (trace st ++
       [EvGateway (plan_request topic questions answers clarify_id)
                  (inr r)]) in
  (forall G a b c d e,
     json_loads text
     = Some (PDict [("goal", PStr G);
                    ("queries",
                     PList [PStr a; PStr b; PStr c; PStr d; PStr e])]) ->
     exists plan,
       get_goal_and_queries topic questions answers clarify_id st
       = (Ret (plan, PStr (resp_id r)), st1) /\
       subscript plan "goal" st1 = (Ret (PStr G), st1) /\
       subscript plan "queries" st1
       = (Ret (PList [PStr a; PStr b; PStr c; PStr d; PStr e]), st1)) /\
  (json_loads text = None ->
   get_goal_and_queries topic questions answers clarify_id st
   = (Raise JSONDecodeError, st1)).
Proof.
  intros Hc Ht st1.
  pose proof (get_goal_and_queries_ok _ _ _ _ _ _ _ _ Hc Ht) as Hrun.
  fold st1 in Hrun. split.
  - intros G a b c d e Hj. rewrite Hj in Hrun.
    eexists. split; [exact Hrun|]. split; reflexivity.
  - intros Hj. now rewrite Hj in Hrun.
Qed.

(** C3, as amended.  In every run of the script, at every step and for
    every user action: if a call of the Gateway fails, the run ends by
    raising that failure, and the store is the one the handler had
    before the call, [pre_call_session]: the initialised store the run
    started from, with the topic field stored at step 0 and the
    submitted answers stored at step 1, and with nothing stored at the
    other steps. *)
Theorem gateway_failure_propagates ui s w req msg :
  In (EvGateway req (inl msg)) (trace (snd (render ui s w))) ->
  fst (render ui s w) = Raise (GatewayError msg) /\
  session (snd (render ui s w)) = pre_call_session ui s /\
  (Py.eq_int (field s "step") 0 = false ->
   Py.eq_int (field s "step") 1 = false ->
   session (snd (render ui s w)) = with_defaults s) /\
  ((forall k, is_field k -> is_Some (s !! k)) -> with_defaults s = s).
Proof.
  intros Hin. rewrite render_run in *.
  destruct (handler ui (field s "step") _) as [o st'] eqn:Hrun.
  cbn [fst snd] in *.
  destruct (handler_failure ui _ _ _ _ Hrun _ _ Hin) as [Ho Hs].
  split; [now apply raised_inv|]. split; [exact Hs|]. split.
  - intros H0 H1. rewrite Hs. unfold pre_call_session. now rewrite H0, H1.
  - apply with_defaults_id.
Qed.


(** C5, as amended.  At step 1, when every answer is filled in, the
    planning button is pressed, and the Gateway answers with a text
    that decodes to a JSON object with a ["goal"] and a ["queries"]: the
    transition completes, the step is 2, and the [queries] field is
    exactly the value [q] the reply has under ["queries"], of whatever
    length; so it has length 5 exactly when the reply lists 5
    queries. *)
Theorem planning_stores_reply_queries ui s w qs r w' text d g q :
  field s "step" = PInt 1 ->
  Py.iter (field s "questions") = Some qs ->
  forallb Py.truthy (answers_from ui qs 0) = true ->
  clicked ui = Some btn_plan ->
  responses_create
    (plan_request (field s "topic") (field s "questions")
                  (PList (answers_from ui qs 0)) (field s "clarify_id")) w
  = (inr r, w') ->
  says_text r text ->
  json_loads text = Some (PDict d) ->
  Py.assoc "goal" d = Some g ->
  Py.assoc "queries" d = Some q ->
  exists st',
    render ui s w = (RerunReq, st') /\
    session st' !! "step" = Some (PInt 2) /\
    session st' !! "goal" = Some g /\
    session st' !! "queries" = Some q /\
    (Py.len q = Some 5 <-> exists l, Py.iter q = Some l /\ length l = 5).
Proof.
  intros Hstep Hqs Hall Hc Hr Ht Hj Hg Hq.
  rewrite (render_step ui _ _ _ Hstep).
  change (handler ui (PInt 1)) with (step1 ui).
  rewrite (step1_pressed ui _ _ _ _ Hqs Hall Hc).
  rewrite (plan_pressed_ok _ _ _ _ _ _ _ _ _ _ Hr Ht Hj Hg Hq).
  eexists. split; [reflexivity|]. cbn [session].
  split; [apply lookup_insert_eq|].
  split; [now rewrite !lookup_insert_ne, lookup_insert_eq by done|].
  split; [now rewrite !lookup_insert_ne, lookup_insert_eq by done|].
  clear. destruct q; cbn [Py.len Py.iter]; split;
    try discriminate; try (intros (l' & Hl & _); discriminate).
  - intros Hlen. eexists. split; [reflexivity|].
    assert (Hc : forall s0, length (Py.chars s0) = String.length s0)
      by (induction s0; cbn; congruence).
    rewrite Hc. congruence.
  - intros (l' & Hl & Hlen). inversion Hl; subst.
    assert (Hc : forall s0, length (Py.chars s0) = String.length s0)
      by (induction s0; cbn; congruence).
    rewrite Hc in Hlen. congruence.
  - intros Hlen. eexists. split; [reflexivity|]. congruence.
  - intros (l' & Hl & Hlen). congruence.
  - intros Hlen. eexists. split; [reflexivity|].
    rewrite length_map. congruence.
  - intros (l' & Hl & Hlen). inversion Hl; subst.
    rewrite length_map in Hlen. congruence.
Qed.

(** C6, as amended.  At step 3, when the evaluation of this run does
    not find [yes] in the Gateway's answer and the button for more
    queries is pressed, and the Gateway answers the request for more
    queries with a text that decodes to [v]: the run asks for a rerun
    with the step at 2 and the [queries] field set to exactly [v],
    whatever the field held before and however many queries [v] holds;
    no other field changes. *)
Theorem more_queries_replace ui s w items r1 w1 text1 r2 w2 text2 v :
  field s "step" = PInt 3 ->
  field s "collected" = PList items ->
  Forall displayable items ->
  clicked ui = Some btn_more ->
  responses_create
    (evaluate_request (field s "goal") (field s "collected")) w
  = (inr r1, w1) ->
  says_text r1 text1 ->
  sufficient text1 = false ->
  responses_create
    (more_request (field s "collected") (field s "goal")
                  (field s "goal_and_queries_id")) w1 = (inr r2, w2) ->
  says_text r2 text2 ->
  json_loads text2 = Some v ->
  exists tr,
    render ui s w
    = (RerunReq,
       mk_rs (<["step" := PInt 2]> (<["queries" := v]> (with_defaults s)))
             w2 tr) /\
    (forall old,
       <["queries" := v]> (<["queries" := old]> (with_defaults s))
       = <["queries" := v]> (with_defaults s)).
Proof.
  intros Hstep Hcol Hitems Hc Hr1 Ht1 Hno Hr2 Ht2 Hj.
  rewrite (render_step ui _ _ _ Hstep).
  change (handler ui (PInt 3)) with (step3 ui).
  rewrite (step3_not_sufficient ui _ _ _ _ _ _ _ Hcol Hitems Hr1 Ht1 Hno Hc).
  rewrite (more_pressed_ok _ _ _ _ _ _ _ Hr2 Ht2 Hj).
  eexists. split; [reflexivity|].
  intros old. apply insert_insert_eq.
Qed.

(** C7.  When the Gateway answers the evaluation request with the text
    [text], the evaluator returns [text] together with a boolean that
    is true if and only if [text] contains the letters y, e, s in a row,
    each in either case: a text with [Yes], [yes] or [YES] anywhere
    gives true, and the text [No further data needed] gives false. *)
Theorem sufficiency_is_substring_yes goal collected st r w' text :
  responses_create (evaluate_request goal collected) (world st)
  = (inr r, w') ->
  says_text r text ->
  exists b st',
    evaluate_responses goal collected st = (Ret (b, text), st') /\
    (b = true <-> yes_somewhere text) /\
    (forall pre w post,
       In w ["Yes"; "yes"; "YES"] -> text = pre +:+ w +:+ post ->
       b = true) /\
    (text = "No further data needed" -> b = false).
Proof.
  intros Hc Ht. exists (sufficient text). eexists.
  split; [exact (evaluate_responses_ok _ _ _ _ _ _ Hc Ht)|].
  split; [apply sufficient_iff|]. split.
  - intros pre w post Hw ->. apply sufficient_iff.
    now apply yes_somewhere_word.
  - intros ->. reflexivity.
Qed.

(** C8.  At step 3, with displayable results in [collected], every run
    of the script, whatever the user did, displays the results and then
    calls the Gateway with the evaluation request for the goal and the
    results of the store: the trace of the run is display events, then
    that call, then the rest; no button is polled before the call. *)
Theorem evaluation_runs_on_every_render ui s w items :
  field s "step" = PInt 3 ->
  field s "collected" = PList items ->
  Forall displayable items ->
  exists shown rest,
    trace (snd (render ui s w))
    = shown
      ++ EvGateway (evaluate_request (field s "goal") (field s "collected"))
           (fst (responses_create
                   (evaluate_request (field s "goal") (field s "collected"))
                   w))
      :: rest /\
    Forall is_show shown /\
    (forall label, ~ In (EvButton label) shown).
Proof.
  intros Hstep Hcol Hitems.
  rewrite (render_step ui _ _ _ Hstep).
  change (handler ui (PInt 3)) with (step3 ui).
  rewrite (step3_evaluates ui _ _ _ _ Hcol Hitems).
  match goal with
  | |- context [bind ?m ?k ?st] =>
      destruct (bind m k st) as [o st'] eqn:Hrun
  end.
  cbn [snd].
  assert (Hshown : Forall is_show
                     ([title] ++
                      [EvShow Write "### Collected Research Results"] ++
                      collected_shown items)).
  { repeat (constructor; [now eexists _, _|]).
    clear. induction items as [|item items IH]; cbn [collected_shown].
    - constructor.
    - repeat (constructor; [now eexists _, _|]). exact IH. }
  assert (Hgrow : exists rest,
             trace st'
             = ([title] ++
                [EvShow Write "### Collected Research Results"] ++
                collected_shown items)
               ++ EvGateway
                    (evaluate_request (field s "goal") (field s "collected"))
                    (fst (responses_create
                            (evaluate_request (field s "goal")
                                              (field s "collected")) w))
               :: rest).
  { apply bind_inv in Hrun
      as [([b text] & st1 & H1 & H2)|[(e & H1 & ->)|[H1 ->]]].
    - destruct (evaluate_responses_calls _ _ _ _ _ H1) as [rest1 Ht1].
      cbn [trace world] in Ht1.
      assert (Hg : grows (bind (show Info ("**LLM Evaluation:** " +:+ text))
                               (fun _ => step3_actions ui b))).
      { apply grows_bind; [apply grows_emit|].
        intros _. apply grows_step3_actions. }
      destruct (Hg _ _ _ H2) as [evs Hevs].
      rewrite Hevs, Ht1. rewrite <- app_assoc. cbn [app]. eauto.
    - destruct (evaluate_responses_calls _ _ _ _ _ H1) as [rest1 Ht1].
      cbn [trace world] in Ht1. eauto.
    - destruct (evaluate_responses_calls _ _ _ _ _ H1) as [rest1 Ht1].
      cbn [trace world] in Ht1. eauto. }
  destruct Hgrow as [rest Hrest].
  eexists _, rest. split; [exact Hrest|]. split; [exact Hshown|].
  intros label Hin. rewrite Forall_forall in Hshown.
  rewrite <- list_elem_of_In in Hin.
  destruct (Hshown _ Hin) as (kind & text & Heq). discriminate.
Qed.

(** C10.  At step 1 with an empty question list, no answer field is
    shown, [all] of the empty answer list holds, the planning button is
    offered, and its press runs the body of the button with no answers:
    the first call of the Gateway is the planner's request for an empty
    question list and an empty answer list.  Nothing keeps the question
    list from being empty: at step 0 a Gateway answer without a
    non-blank line moves the session to step 1 with no questions. *)
Theorem empty_questions_advance ui s w :
  field s "step" = PInt 1 ->
  field s "questions" = PList [] ->
  clicked ui = Some btn_plan ->
  forallb Py.truthy (answers_given ui (field s "questions")) = true /\
  render ui s w
  = plan_pressed []
      (mk_rs (with_defaults s) w
         [title; EvShow Write "### Clarifying Questions";
          EvButton btn_plan]) /\
  (exists res rest,
     trace (snd (render ui s w))
     = [title; EvShow Write "### Clarifying Questions"; EvButton btn_plan;
        EvGateway (plan_request (field s "topic") (PList []) (PList [])
                                (field s "clarify_id")) res]
       ++ rest) /\
  (forall ui0 s0 w0 r w' text,
     field s0 "step" = PInt 0 ->
     text_of ui0 topic_label <> "" ->
     clicked ui0 = Some btn_questions ->
     responses_create
       (clarify_request (PStr (text_of ui0 topic_label))) w0 = (inr r, w') ->
     says_text r text ->
     filter PyStr.strip_nonempty (PyStr.split_lines text) = [] ->
     exists st',
       render ui0 s0 w0 = (RerunReq, st') /\
       session st' !! "step" = Some (PInt 1) /\
       session st' !! "questions" = Some (PList [])).
Proof.
  intros Hstep Hq Hc.
  assert (Hrun : render ui s w
                 = plan_pressed []
                     (mk_rs (with_defaults s) w
                        [title; EvShow Write "### Clarifying Questions";
                         EvButton btn_plan])).
  { rewrite (render_step ui _ _ _ Hstep).
    change (handler ui (PInt 1)) with (step1 ui).
    erewrite (step1_pressed ui _ _ _ []);
      [reflexivity|now rewrite Hq|reflexivity|exact Hc]. }
  split; [now rewrite Hq|]. split; [exact Hrun|]. split.
  - rewrite Hrun.
    destruct (plan_pressed [] _) as [o st'] eqn:Hp.
    destruct (plan_pressed_calls _ _ _ _ _ _ Hp) as (res & rest & Htr).
    rewrite Hq in Htr. cbn [snd]. rewrite Htr. now exists res, rest.
  - intros ui0 s0 w0 r w' text Hstep0 Htopic Hc0 Hr Ht Hblank.
    rewrite (render_step ui0 _ _ _ Hstep0).
    change (handler ui0 (PInt 0)) with (step0 ui0).
    rewrite (step0_pressed ui0 _ _ _ Htopic Hc0).
    erewrite questions_pressed_ok;
      [|apply lookup_insert_eq|exact Hr|exact Ht].
    rewrite Hblank. eexists. split; [reflexivity|]. cbn [session map].
    split; [apply lookup_insert_eq|].
    now rewrite !lookup_insert_ne, lookup_insert_eq by done.
Qed.

End Claims.

(** ** The claims on concrete inputs *)

(** C9.  Two answers without the word [yes], one with [yesterday] and one
    with [Eyes], count as sufficient, and the evaluator returns true for
    both: the test is for the substring in the lowercased text, so any
    text around [yesterday] or [Eyes] passes it. *)
Theorem yes_inside_a_word :
  PyStr.has_word_yes Demo.yesterday = false /\
  PyStr.has_word_yes Demo.eyes = false /\
  sufficient Demo.yesterday = true /\
  sufficient Demo.eyes = true /\
  fst (@evaluate_responses ref_externals (PStr "Know tea") (PList [])
         (Demo.calling [Ref.says "r5" Demo.yesterday]))
  = Ret (true, Demo.yesterday) /\
  fst (@evaluate_responses ref_externals (PStr "Know tea") (PList [])
         (Demo.calling [Ref.says "r5" Demo.eyes]))
  = Ret (true, Demo.eyes) /\
  (forall pre post, sufficient (pre +:+ "yesterday" +:+ post) = true) /\
  (forall pre post, sufficient (pre +:+ "Eyes" +:+ post) = true).
Proof.
  do 6 (split; [vm_compute; reflexivity|]).
  split; intros pre post; apply sufficient_iff.
  - exists pre, ("yesterday" +:+ post). split; [reflexivity|].
    exists "y"%char, "e"%char, "s"%char, ("terday" +:+ post).
    split; [reflexivity|]. auto.
  - exists (pre +:+ "E"), ("yes" +:+ post). split.
    + induction pre as [|c pre IH]; [reflexivity|].
      change (String c pre +:+ "Eyes" +:+ post)
        with (String c (pre +:+ "Eyes" +:+ post)).
      rewrite IH. reflexivity.
    + exists "y"%char, "e"%char, "s"%char, post.
      split; [reflexivity|]. auto.
Qed.

(** The search transition on a session with two queries and a Gateway that
    answers both. *)
Lemma search_transition_collects_witness :
  let ui := Demo.user "x" (Some btn_search) in
  let w := [Ref.found "r3" "t1"; Ref.found "r4" "t2"] in
  field (Demo.populated 2) "step" = PInt 2 /\
  field (Demo.populated 2) "queries" = PList [PStr "q1"; PStr "q2"] /\
  clicked ui = Some btn_search /\
  exists st',
    @render ref_externals ui (Demo.populated 2) w = (RerunReq, st') /\
    session st' !! "collected" = Some (PList Demo.results).
Proof.
  intros ui w.
  assert (H1 : field (Demo.populated 2) "step" = PInt 2) by reflexivity.
  assert (H2 : field (Demo.populated 2) "queries"
               = PList [PStr "q1"; PStr "q2"]) by reflexivity.
  assert (H3 : clicked ui = Some btn_search) by reflexivity.
  repeat (split; [assumption|]).
  destruct (@search_transition_collects ref_externals ui _ w _ H1 H2 H3)
    as (_ & _ & Hok).
  destruct Hok as [st' Hst'].
  - cbn [searches_answered].
    do 2 (eexists _, _; split; [reflexivity|];
          split; [eexists _, _, _, _, _; reflexivity|]).
    exact I.
  - exists st'. split; [exact Hst'|].
    assert (Hs : st' = snd (@render ref_externals ui (Demo.populated 2) w))
      by now rewrite Hst'.
    rewrite Hs. vm_compute. reflexivity.
Defined.

(** The planner on the plan of the specification, and on a reply that is
    prose. *)
Lemma planner_parses_reply_witness :
  let st := Demo.calling [Ref.says "resp_2" Demo.plan_json] in
  let bad := Demo.calling [Ref.says "resp_2" "Sure! Here is the plan"] in
  let out :=
    @get_goal_and_queries ref_externals (PStr "tea") (PList []) (PList [])
      (PStr "resp_1") st in
  @json_loads ref_externals Demo.plan_json
  = Some (PDict [("goal", PStr "G");
                 ("queries",
                  PList [PStr "a"; PStr "b"; PStr "c"; PStr "d"; PStr "e"])]) /\
  @json_loads ref_externals "Sure! Here is the plan" = None /\
  (exists plan,
     fst out = Ret (plan, PStr "resp_2") /\
     fst (@subscript ref_externals plan "goal" (snd out)) = Ret (PStr "G") /\
     fst (@subscript ref_externals plan "queries" (snd out))
     = Ret (PList [PStr "a"; PStr "b"; PStr "c"; PStr "d"; PStr "e"])) /\
  fst (@get_goal_and_queries ref_externals (PStr "tea") (PList []) (PList [])
         (PStr "resp_1") bad)
  = Raise JSONDecodeError.
Proof.
  intros st bad out.
  assert (Hj : @json_loads ref_externals Demo.plan_json
               = Some (PDict [("goal", PStr "G");
                              ("queries",
                               PList [PStr "a"; PStr "b"; PStr "c"; PStr "d";
                                      PStr "e"])]))
    by (vm_compute; reflexivity).
  assert (Hn : @json_loads ref_externals "Sure! Here is the plan" = None)
    by (vm_compute; reflexivity).
  split; [exact Hj|]. split; [exact Hn|]. split.
  - destruct (@planner_parses_reply ref_externals (PStr "tea") (PList [])
                (PList []) (PStr "resp_1") st _ _ Demo.plan_json eq_refl)
      as [Hok _].
    { eexists _, _, _. reflexivity. }
    destruct (Hok "G" "a" "b" "c" "d" "e" Hj) as (p & Hrun & Hg & Hq).
    exists p. unfold out. rewrite Hrun. cbn [fst snd].
    rewrite Hg, Hq. auto.
  - destruct (@planner_parses_reply ref_externals (PStr "tea") (PList [])
                (PList []) (PStr "resp_1") bad _ _ "Sure! Here is the plan"
                eq_refl)
      as [_ Hbad].
    { eexists _, _, _. reflexivity. }
    now rewrite (Hbad Hn).
Defined.

(** The second of two searches fails: the run raises the failure and the
    session is the one before the press. *)
Lemma gateway_failure_propagates_witness :
  let ui := Demo.user "x" (Some btn_search) in
  let w := [Ref.found "r3" "t1"; Ref.fails "quota exceeded"] in
  let req := @search_request ref_externals (PStr "q2") (PStr "resp_2") in
  In (EvGateway req (inl "quota exceeded"))
     (trace (snd (@render ref_externals ui (Demo.populated 2) w))) /\
  fst (@render ref_externals ui (Demo.populated 2) w)
  = Raise (GatewayError "quota exceeded") /\
  session (snd (@render ref_externals ui (Demo.populated 2) w))
  = Demo.populated 2.
Proof.
  intros ui w req.
  assert (Hin : In (EvGateway req (inl "quota exceeded"))
                   (trace (snd (@render ref_externals ui (Demo.populated 2) w)))).
  { vm_compute. repeat (first [left; reflexivity | right]). }
  split; [exact Hin|].
  destruct (@gateway_failure_propagates ref_externals ui _ w _ _ Hin)
    as (Ho & _ & Hs & _).
  split; [exact Ho|]. rewrite Hs; reflexivity.
Defined.

(** C3, the claim as stated fails at step 1: the planning button stores
    the answers before it calls the planner, so when the Gateway fails the
    [answers] field is no longer what it was before the action. *)
Lemma planning_failure_keeps_answers :
  let ui := Demo.user "x" (Some btn_plan) in
  let r := @render ref_externals ui (Demo.populated 1)
             [Ref.fails "connection reset"] in
  fst r = Raise (GatewayError "connection reset") /\
  Demo.populated 1 !! "answers" = Some (PList []) /\
  session (snd r) !! "answers" = Some (PList [PStr "x"; PStr "x"]) /\
  session (snd r) <> Demo.populated 1.
Proof.
  intros ui r.
  assert (Ha : session (snd r) !! "answers"
               = Some (PList [PStr "x"; PStr "x"]))
    by (vm_compute; reflexivity).
  split; [vm_compute; reflexivity|]. split; [reflexivity|].
  split; [exact Ha|].
  intros Heq. rewrite Heq in Ha. vm_compute in Ha. discriminate Ha.
Qed.



(** C5, the claim as stated fails: the planner accepts a reply with one
    query, and immediately after the planning transition the [queries]
    field has length 1. *)
Lemma planning_accepts_one_query :
  let ui := Demo.user "x" (Some btn_plan) in
  let r := @render ref_externals ui (Demo.populated 1)
             [Ref.says "resp_2" Demo.short_plan_json] in
  fst r = RerunReq /\
  session (snd r) !! "step" = Some (PInt 2) /\
  session (snd r) !! "queries" = Some (PList [PStr "a"]) /\
  Py.len (PList [PStr "a"]) = Some 1.
Proof. intros ui r. repeat split; vm_compute; reflexivity. Qed.

(** C6, the claim as stated fails in its count: when the Gateway answers
    the request for more queries with a list of one, the session returns
    to step 2 with that one query, not with five. *)
Lemma more_queries_accepts_one :
  let ui := Demo.user "" (Some btn_more) in
  let r := @render ref_externals ui Demo.searched
             [Ref.says "r5" "No."; Ref.says "r6" Demo.one_json] in
  fst r = RerunReq /\
  session (snd r) !! "step" = Some (PInt 2) /\
  session (snd r) !! "queries" = Some (PList [PStr "only one"]) /\
  Py.len (PList [PStr "only one"]) = Some 1.
Proof. intros ui r. repeat split; vm_compute; reflexivity. Qed.

(** The evaluator on an answer that starts with [Yes]. *)
Lemma sufficiency_is_substring_yes_witness :
  let st := Demo.calling [Ref.says "r5" "Yes, it does."] in
  says_text (Ref.message "r5" "Yes, it does.") "Yes, it does." /\
  fst (@evaluate_responses ref_externals (PStr "Know tea") (PList Demo.results)
         st)
  = Ret (true, "Yes, it does.").
Proof.
  intros st.
  assert (Ht : says_text (Ref.message "r5" "Yes, it does.") "Yes, it does.")
    by (eexists _, _, _; reflexivity).
  split; [exact Ht|].
  destruct (@sufficiency_is_substring_yes ref_externals (PStr "Know tea")
              (PList Demo.results) st _ _ "Yes, it does." eq_refl Ht)
    as (b & st' & Hrun & _ & Hyes & _).
  rewrite Hrun. cbn [fst].
  now rewrite (Hyes "" "Yes" ", it does." (or_introl eq_refl) eq_refl).
Defined.

(** A run at step 3 that no button caused still calls the evaluator. *)
Lemma evaluation_runs_on_every_render_witness :
  let ui := Demo.user "" None in
  let w := [Ref.says "r5" "No."] in
  field Demo.searched "step" = PInt 3 /\
  field Demo.searched "collected" = PList Demo.results /\
  Forall displayable Demo.results /\
  exists shown rest,
    trace (snd (@render ref_externals ui Demo.searched w))
    = shown
      ++ EvGateway
           (@evaluate_request ref_externals (PStr "Know tea")
              (PList Demo.results))
           (Ref.says "r5" "No.")
      :: rest /\
    Forall is_show shown.
Proof.
  intros ui w.
  assert (H1 : field Demo.searched "step" = PInt 3) by reflexivity.
  assert (H2 : field Demo.searched "collected" = PList Demo.results)
    by reflexivity.
  assert (H3 : Forall displayable Demo.results).
  { repeat (constructor; [eexists _, _, _; repeat split; reflexivity|]).
    constructor. }
  repeat (split; [assumption|]).
  destruct (@evaluation_runs_on_every_render ref_externals ui Demo.searched w
              Demo.results H1 H2 H3)
    as (shown & rest & Htr & Hshown & _).
  exists shown, rest. split; [exact Htr|exact Hshown].
Defined.

(** The planning transition on a reply with five queries. *)
Lemma planning_stores_reply_queries_witness :
  let ui := Demo.user "x" (Some btn_plan) in
  let w := [Ref.says "resp_2" Demo.plan_json] in
  let five := PList [PStr "a"; PStr "b"; PStr "c"; PStr "d"; PStr "e"] in
  field (Demo.populated 1) "step" = PInt 1 /\
  clicked ui = Some btn_plan /\
  @json_loads ref_externals Demo.plan_json
  = Some (PDict [("goal", PStr "G"); ("queries", five)]) /\
  exists st',
    @render ref_externals ui (Demo.populated 1) w = (RerunReq, st') /\
    session st' !! "step" = Some (PInt 2) /\
    session st' !! "queries" = Some five.
Proof.
  intros ui w five.
  assert (H1 : field (Demo.populated 1) "step" = PInt 1) by reflexivity.
  assert (H2 : clicked ui = Some btn_plan) by reflexivity.
  assert (Hj : @json_loads ref_externals Demo.plan_json
               = Some (PDict [("goal", PStr "G"); ("queries", five)]))
    by (vm_compute; reflexivity).
  split; [exact H1|]. split; [exact H2|]. split; [exact Hj|].
  destruct (@planning_stores_reply_queries ref_externals ui
              (Demo.populated 1) w [PStr "1. Why?"; PStr "2. How?"]
              (Ref.message "resp_2" Demo.plan_json) [] Demo.plan_json
              [("goal", PStr "G"); ("queries", five)] (PStr "G") five
              H1 eq_refl eq_refl H2 eq_refl)
    as (st' & Hrun & Hstep & _ & Hq & _).
  - eexists _, _, _. reflexivity.
  - exact Hj.
  - reflexivity.
  - reflexivity.
  - exists st'. auto.
Defined.

(** More queries at step 3: five new queries take the place of the two
    old ones. *)
Lemma more_queries_replace_witness :
  let ui := Demo.user "" (Some btn_more) in
  let w := [Ref.says "r5" "No."; Ref.says "r6" Demo.five_json] in
  let five := PList [PStr "n1"; PStr "n2"; PStr "n3"; PStr "n4"; PStr "n5"] in
  field Demo.searched "step" = PInt 3 /\
  field Demo.searched "collected" = PList Demo.results /\
  Forall displayable Demo.results /\
  clicked ui = Some btn_more /\
  sufficient "No." = false /\
  @json_loads ref_externals Demo.five_json = Some five /\
  fst (@render ref_externals ui Demo.searched w) = RerunReq /\
  session (snd (@render ref_externals ui Demo.searched w))
  = <["step" := PInt 2]> (<["queries" := five]> Demo.searched).
Proof.
  intros ui w five.
  assert (H1 : field Demo.searched "step" = PInt 3) by reflexivity.
  assert (H2 : field Demo.searched "collected" = PList Demo.results)
    by reflexivity.
  assert (H3 : Forall displayable Demo.results).
  { repeat (constructor; [eexists _, _, _; repeat split; reflexivity|]).
    constructor. }
  assert (H4 : clicked ui = Some btn_more) by reflexivity.
  assert (H5 : sufficient "No." = false) by reflexivity.
  assert (Hj : @json_loads ref_externals Demo.five_json = Some five)
    by (vm_compute; reflexivity).
  repeat (split; [assumption|]).
  destruct (@more_queries_replace ref_externals ui Demo.searched w
              Demo.results (Ref.message "r5" "No.")
              [Ref.says "r6" Demo.five_json] "No."
              (Ref.message "r6" Demo.five_json) [] Demo.five_json five
              H1 H2 H3 H4 eq_refl)
    as (tr & Hrun & _).
  - eexists _, _, _. reflexivity.
  - exact H5.
  - reflexivity.
  - eexists _, _, _. reflexivity.
  - exact Hj.
  - rewrite Hrun. cbn [fst snd session]. split; [reflexivity|].
    vm_compute. reflexivity.
Defined.

(** Planning without questions, and the answer without a line that leads
    there. *)
Lemma empty_questions_advance_witness :
  let ui := Demo.user "" (Some btn_plan) in
  let ui0 := Demo.user "tea" (Some btn_questions) in
  field Demo.unasked "step" = PInt 1 /\
  field Demo.unasked "questions" = PList [] /\
  clicked ui = Some btn_plan /\
  (exists res rest,
     trace (snd (@render ref_externals ui Demo.unasked [Ref.says "resp_2"
                                                         Demo.plan_json]))
     = [title; EvShow Write "### Clarifying Questions"; EvButton btn_plan;
        EvGateway (@plan_request ref_externals (PStr "tea") (PList [])
                     (PList []) (PStr "resp_1")) res]
       ++ rest) /\
  exists st',
    @render ref_externals ui0 ∅ [Ref.says "resp_1" ""] = (RerunReq, st') /\
    session st' !! "step" = Some (PInt 1) /\
    session st' !! "questions" = Some (PList []).
Proof.
  intros ui ui0.
  assert (H1 : field Demo.unasked "step" = PInt 1) by reflexivity.
  assert (H2 : field Demo.unasked "questions" = PList []) by reflexivity.
  assert (H3 : clicked ui = Some btn_plan) by reflexivity.
  repeat (split; [assumption|]).
  destruct (@empty_questions_advance ref_externals ui Demo.unasked
              [Ref.says "resp_2" Demo.plan_json] H1 H2 H3)
    as (_ & _ & Hcall & Hstep0).
  split; [exact Hcall|].
  apply (Hstep0 ui0 ∅ [Ref.says "resp_1" ""] (Ref.message "resp_1" "") [] "").
  - reflexivity.
  - discriminate.
  - reflexivity.
  - reflexivity.
  - eexists _, _, _. reflexivity.
  - reflexivity.
Defined.

(** ** Further properties of the workflow *)

Section Lines.

(** *** Lines of a text *)






End Lines.

Section Relations.

Context `{E : Externals}.
Variable ui : ui_input.

(** *** Computations that preserve a relation *)

Lemma preserves_bind {A B} R (m : M A) (k : A -> M B) :
  admissible R ->
  preserves R m -> (forall a, preserves R (k a)) -> preserves R (bind m k).
Proof.
  intros (_ & Htrans & _) Hm Hk st o st' Hrun.
  apply bind_inv in Hrun as [(a & st1 & H1 & H2)|[(e & H1 & ->)|[H1 ->]]].
  - destruct (Hm _ _ _ H1) as [_ HR1]. destruct (Hk a _ _ _ H2) as [Ho HR2].
    split; [exact Ho|]. exact (Htrans _ _ _ HR1 HR2).
  - destruct (Hm _ _ _ H1) as [_ HR1]. now split.
  - destruct (Hm _ _ _ H1) as [Ho _]. discriminate Ho.
Qed.

Lemma preserves_still {A} R (m : M A) :
  admissible R ->
  (forall st, exists o, reruns o = false /\ m st = (o, st)) ->
  preserves R m.
Proof.
  intros (Hrefl & _) H st o st' Hrun. destruct (H st) as (o' & Ho' & Hm).
  rewrite Hm in Hrun. inversion Hrun; subst. split; [exact Ho'|apply Hrefl].
Qed.

Lemma preserves_weaken {A} (R R' : run_state -> run_state -> Prop)
      (m : M A) :
  (forall st st', R st st' -> R' st st') -> preserves R m -> preserves R' m.
Proof.
  intros HRR Hm st o st' Hrun. destruct (Hm _ _ _ Hrun). split; auto.
Qed.

Ltac still_case :=
  intros st;
  repeat match goal with
    | |- context [match ?x with _ => _ end] => destruct x
    end;
  eexists; (split; [|reflexivity]; reflexivity).

Lemma preserves_ret {A} R (a : A) : admissible R -> preserves R (ret a).
Proof. intros H. apply preserves_still; [exact H|]. still_case. Qed.

Lemma preserves_raise {A} R e : admissible R -> preserves R (@raise E A e).
Proof. intros H. apply preserves_still; [exact H|]. still_case. Qed.

Lemma preserves_get_attr R k : admissible R -> preserves R (get_attr k).
Proof.
  intros H. apply preserves_still; [exact H|]. unfold get_attr. still_case.
Qed.

Lemma preserves_index {A} R (l : list A) i :
  admissible R -> preserves R (index l i).
Proof.
  intros H. apply preserves_still; [exact H|]. unfold index. still_case.
Qed.

Lemma preserves_item_content R it :
  admissible R -> preserves R (item_content it).
Proof.
  intros H. apply preserves_still; [exact H|]. unfold item_content.
  still_case.
Qed.

Lemma preserves_part_text R p : admissible R -> preserves R (part_text p).
Proof.
  intros H. apply preserves_still; [exact H|]. unfold part_text. still_case.
Qed.

Lemma preserves_subscript R v k :
  admissible R -> preserves R (subscript v k).
Proof.
  intros H. apply preserves_still; [exact H|]. unfold subscript. still_case.
Qed.

Lemma preserves_iterate R v : admissible R -> preserves R (iterate v).
Proof.
  intros H. apply preserves_still; [exact H|]. unfold iterate. still_case.
Qed.

Lemma preserves_loads R text : admissible R -> preserves R (loads text).
Proof.
  intros H. apply preserves_still; [exact H|]. unfold loads. still_case.
Qed.

Lemma preserves_emit R ev :
  admissible R -> (forall req res, ev <> EvGateway req res) ->
  preserves R (emit ev).
Proof.
  intros (_ & _ & Hemit) Hev st o st' Hrun. inversion Hrun; subst.
  split; [reflexivity|]. now apply Hemit.
Qed.

Lemma preserves_show R kind text : admissible R -> preserves R (show kind text).
Proof. intros H. apply preserves_emit; [exact H|discriminate]. Qed.

Lemma preserves_button R label : admissible R -> preserves R (button ui label).
Proof.
  intros H. unfold button. apply preserves_bind; [exact H| |].
  - apply preserves_emit; [exact H|discriminate].
  - intros _. now apply preserves_ret.
Qed.

Lemma preserves_text_input R label key :
  admissible R -> preserves R (text_input ui label key).
Proof.
  intros H. unfold text_input. apply preserves_bind; [exact H| |].
  - apply preserves_emit; [exact H|discriminate].
  - intros _. now apply preserves_ret.
Qed.

(** In a run that no button caused, what follows a button is what
    follows an unpressed button. *)
Lemma preserves_unpressed {A} R label (k : bool -> M A) :
  admissible R -> clicked ui = None ->
  preserves R (k false) -> preserves R (bind (button ui label) k).
Proof.
  intros H Hc Hk st o st' Hrun.
  erewrite bind_ret in Hrun by apply button_run. rewrite Hc in Hrun.
  destruct H as (_ & Htrans & Hemit).
  destruct (Hk _ _ _ Hrun) as [Ho HR]. split; [exact Ho|].
  refine (Htrans _ _ _ _ HR). apply Hemit. discriminate.
Qed.

Lemma preserves_for_each {A} R (l : list A) body :
  admissible R -> (forall x, preserves R (body x)) ->
  preserves R (for_each l body).
Proof.
  intros H Hb. induction l; cbn [for_each].
  - now apply preserves_ret.
  - apply preserves_bind; auto.
Qed.

Lemma preserves_for_append {A B} R (l : list A) (body : A -> M B) acc :
  admissible R -> (forall x, preserves R (body x)) ->
  preserves R (for_append l body acc).
Proof.
  intros H Hb. revert acc. induction l; intros acc; cbn [for_append].
  - now apply preserves_ret.
  - apply preserves_bind; auto.
Qed.

Lemma preserves_for_append_enum {A B} R (l : list A) i
      (body : nat -> A -> M B) acc :
  admissible R -> (forall i x, preserves R (body i x)) ->
  preserves R (for_append_enum l i body acc).
Proof.
  intros H Hb. revert i acc.
  induction l; intros i acc; cbn [for_append_enum].
  - now apply preserves_ret.
  - apply preserves_bind; auto.
Qed.

(** The three relations. *)

Lemma admissible_same_session : admissible same_session.
Proof.
  unfold same_session. split; [|split]; [reflexivity|congruence|].
  reflexivity.
Qed.

Lemma admissible_same_step : admissible same_step.
Proof.
  unfold same_step. split; [|split]; [reflexivity|congruence|].
  reflexivity.
Qed.

Lemma gateway_requests_snoc tr ev :
  (forall req res, ev <> EvGateway req res) ->
  gateway_requests (tr ++ [ev]) = gateway_requests tr.
Proof.
  intros Hev. rewrite gateway_requests_app.
  destruct ev; cbn [gateway_requests]; [|apply app_nil_r..].
  destruct (Hev _ _ eq_refl).
Qed.

Lemma admissible_untouched : admissible untouched.
Proof.
  unfold untouched. split; [|split].
  - auto.
  - intros st1 st2 st3 (H1 & H2 & H3) (H4 & H5 & H6).
    repeat split; congruence.
  - intros st ev Hev. cbn [session world trace].
    repeat split. now apply gateway_requests_snoc.
Qed.

Lemma preserves_create R req :
  (forall st res w',
     R st (mk_rs (session st) w' (trace st ++ [EvGateway req res]))) ->
  preserves R (create req).
Proof.
  intros HR st o st' Hrun. unfold create in Hrun.
  destruct (responses_create req (world st)) as [[msg|r] w'];
    inversion Hrun; subst; (split; [reflexivity|]); apply HR.
Qed.

Lemma preserves_set_attr_other k v :
  k <> "step" -> preserves same_step (set_attr k v).
Proof.
  intros Hk st o st' Hrun. inversion Hrun; subst. split; [reflexivity|].
  unfold same_step. cbn [session]. now rewrite lookup_insert_ne.
Qed.

Ltac keep_leaf H :=
  first
    [ apply preserves_ret | apply preserves_raise | apply preserves_get_attr
    | apply preserves_index | apply preserves_item_content
    | apply preserves_part_text | apply preserves_subscript
    | apply preserves_iterate | apply preserves_loads | apply preserves_show
    | apply preserves_button | apply preserves_text_input ];
  exact H.

(** [keep H extra]: a structural proof of [preserves R m] for an
    admissible [R], with [extra] for the leaves that depend on [R]. *)
Ltac keep H extra :=
  repeat first
    [ keep_leaf H
    | extra
    | apply preserves_for_each; [exact H|]
    | apply preserves_for_append; [exact H|]
    | apply preserves_for_append_enum; [exact H|]
    | apply preserves_bind; [exact H| |]
    | match goal with
      | |- forall _, _ => intro
      | |- preserves _ (match ?x with _ => _ end) => destruct x
      end ].

Ltac calls_keep := apply preserves_create; intros; reflexivity.

Ltac keep_session := keep admissible_same_session calls_keep.

Ltac keep_step :=
  keep admissible_same_step
    ltac:(first [ calls_keep
                | apply preserves_set_attr_other; discriminate ]).

(** The same for a run that no button caused. *)
Ltac keep_idle H Hc extra :=
  repeat first
    [ keep_leaf H
    | extra
    | apply preserves_unpressed; [exact H|exact Hc|cbv beta iota]
    | apply preserves_for_each; [exact H|]
    | apply preserves_for_append; [exact H|]
    | apply preserves_for_append_enum; [exact H|]
    | apply preserves_bind; [exact H| |]
    | match goal with
      | |- forall _, _ => intro
      | |- preserves _ (match ?x with _ => _ end) => destruct x
      end ].

(** *** Runs that no button caused *)

Lemma step1_idle : clicked ui = None -> preserves untouched (step1 ui).
Proof.
  intros Hc. unfold step1, ask_answers.
  keep_idle admissible_untouched Hc fail.
Qed.

Lemma step2_idle : clicked ui = None -> preserves untouched (step2 ui).
Proof.
  intros Hc. unfold step2, show_queries.
  keep_idle admissible_untouched Hc fail.
Qed.

Lemma step4_idle : clicked ui = None -> preserves untouched (step4 ui).
Proof.
  intros Hc. unfold step4. keep_idle admissible_untouched Hc fail.
Qed.

Lemma step3_idle : clicked ui = None -> preserves same_session (step3 ui).
Proof.
  intros Hc. unfold step3, show_collected, evaluate_responses, output_text,
    step3_actions.
  keep_idle admissible_same_session Hc calls_keep.
Qed.

Lemma step0_idle_untouched s w tr o st' :
  clicked ui = None ->
  step0 ui (mk_rs s w tr) = (o, st') ->
  reruns o = false /\
  session st' = <["topic" := PStr (text_of ui topic_label)]> s /\
  world st' = w /\
  gateway_requests (trace st') = gateway_requests tr.
Proof.
  intros Hc. unfold step0.
  erewrite bind_ret by apply text_input_run.
  erewrite bind_ret by apply set_attr_run.
  cbn [session world trace].
  match goal with
  | |- ?m ?st0 = _ -> _ =>
      assert (Hm : preserves untouched m)
        by keep_idle admissible_untouched Hc fail;
      intros Hrun; destruct (Hm _ _ _ Hrun) as (Ho & Hs & Hw & Hg)
  end.
  cbn [session world trace] in *. repeat split; try assumption.
  rewrite Hg. apply gateway_requests_snoc. discriminate.
Qed.

(** *** Where a run leaves the step index *)

Lemma moves_preserves {A} targets (m : M A) :
  preserves same_step m -> moves targets m.
Proof.
  intros Hm st o st' Hrun. destruct (Hm _ _ _ Hrun) as [Ho Hs].
  rewrite Ho. exact Hs.
Qed.

Lemma moves_bind {A B} targets (m : M A) (k : A -> M B) :
  preserves same_step m -> (forall a, moves targets (k a)) ->
  moves targets (bind m k).
Proof.
  intros Hm Hk st o st' Hrun.
  apply bind_inv in Hrun as [(a & st1 & H1 & H2)|[(e & H1 & ->)|[H1 ->]]].
  - destruct (Hm _ _ _ H1) as [_ Hs1]. specialize (Hk a _ _ _ H2).
    unfold same_step in Hs1. rewrite <- Hs1. exact Hk.
  - destruct (Hm _ _ _ H1) as [_ Hs1]. exact Hs1.
  - destruct (Hm _ _ _ H1) as [Ho _]. discriminate Ho.
Qed.

Lemma moves_bind_stop {A B} targets (m : M A) (k : A -> M B) :
  moves targets m -> noreturn m -> moves targets (bind m k).
Proof.
  intros Hm Hn st o st' Hrun.
  apply bind_inv in Hrun as [(a & st1 & H1 & H2)|[(e & H1 & ->)|[H1 ->]]].
  - destruct (Hn _ _ _ H1).
  - exact (Hm _ _ _ H1).
  - exact (Hm _ _ _ H1).
Qed.

Lemma moves_set_step {A} targets v :
  In (Some v) targets ->
  moves targets (bind (set_attr "step" v) (fun _ => @rerun E A)).
Proof.
  intros Hv st o st' Hrun. inversion Hrun; subst. cbn [reruns session].
  now rewrite lookup_insert_eq.
Qed.

Lemma moves_restart_pressed targets :
  In None targets -> moves targets restart_pressed.
Proof.
  intros Hv [s w tr] o st' Hrun. rewrite restart_pressed_run in Hrun.
  inversion Hrun; subst. cbn [reruns session]. now rewrite lookup_empty.
Qed.

Ltac stepping :=
  repeat first
    [ apply moves_set_step; cbn; tauto
    | apply moves_bind; [solve [keep_step]|]
    | apply moves_preserves; solve [keep_step]
    | match goal with
      | |- forall _, _ => intro
      | |- moves _ (match ?x with _ => _ end) => destruct x
      end ].

Lemma moves_step0 : moves [Some (PInt 1)] (step0 ui).
Proof.
  unfold step0, questions_pressed, get_clarifying_questions, output_text.
  stepping.
Qed.

Lemma moves_step1 : moves [Some (PInt 2)] (step1 ui).
Proof.
  unfold step1, ask_answers, plan_pressed, get_goal_and_queries,
    output_text.
  stepping.
Qed.

Lemma moves_step2 : moves [Some (PInt 3)] (step2 ui).
Proof.
  unfold step2, show_queries, search_pressed, search_all, run_search,
    output_text.
  stepping.
Qed.

Lemma moves_report_pressed targets :
  In (Some (PInt 4)) targets -> moves targets report_pressed.
Proof.
  intros Hv. unfold report_pressed, write_final_report, output_text.
  repeat first
    [ apply moves_set_step; exact Hv
    | apply moves_bind; [solve [keep_step]|]
    | match goal with |- forall _, _ => intro end ].
Qed.

Lemma moves_step3 : moves [Some (PInt 4); Some (PInt 2)] (step3 ui).
Proof.
  unfold step3, show_collected, evaluate_responses, output_text,
    step3_actions.
  repeat first
    [ apply moves_report_pressed; cbn; tauto
    | apply moves_bind_stop;
      [apply moves_report_pressed; cbn; tauto|apply noreturn_report_pressed]
    | apply moves_bind; [solve [keep_step]|]
    | apply moves_preserves; solve [keep_step]
    | match goal with
      | |- forall _, _ => intro
      | |- moves _ (match ?x with _ => _ end) => destruct x
      | |- moves _ (bind (match ?x with _ => _ end) _) => destruct x
      end ].
  unfold more_pressed, get_more_queries, output_text. stepping.
Qed.

Lemma moves_step4 : moves [None] (step4 ui).
Proof.
  unfold step4.
  repeat first
    [ apply moves_restart_pressed; cbn; tauto
    | apply moves_bind; [solve [keep_step]|]
    | apply moves_preserves; solve [keep_step]
    | match goal with
      | |- forall _, _ => intro
      | |- moves _ (match ?x with _ => _ end) => destruct x
      end ].
Qed.

(** *** Guards and button bodies *)

Lemma bind_rerun {A B} (m : M A) (k : A -> M B) st st' :
  m st = (RerunReq, st') -> bind m k st = (RerunReq, st').
Proof. intros H. unfold bind. now rewrite H. Qed.

Lemma pressed_other label :
  clicked ui <> Some label ->
  match clicked ui with
  | Some l => String.eqb l label
  | None => false
  end = false.
Proof.
  destruct (clicked ui) as [l|]; [|reflexivity]. intros Hne.
  destruct (String.eqb_spec l label); [congruence|reflexivity].
Qed.

Ltac fld := apply with_defaults_field; unfold is_field; simpl; tauto.

Lemma step0_blank s w tr :
  text_of ui topic_label = "" ->
  step0 ui (mk_rs s w tr)
  = (Ret tt,
     mk_rs (<["topic" := PStr ""]> s) w
           (tr ++ [EvTextInput topic_label None])).
Proof.
  intros Ht. unfold step0.
  erewrite bind_ret by apply text_input_run.
  erewrite bind_ret by apply set_attr_run.
  erewrite bind_ret
    by (apply get_attr_run; cbn [session]; apply lookup_insert_eq).
  rewrite Ht. reflexivity.
Qed.

Lemma step1_blocked s w tr qs :
  Py.iter (field s "questions") = Some qs ->
  forallb Py.truthy (answers_from ui qs 0) = false ->
  step1 ui (mk_rs (with_defaults s) w tr)
  = (Ret tt,
     mk_rs (with_defaults s) w
           (tr ++ [EvShow Write "### Clarifying Questions"]
               ++ answer_inputs qs 0)).
Proof.
  intros Hq Hall. unfold step1.
  erewrite bind_ret by apply show_run.
  erewrite bind_ret by (apply get_attr_run; cbn [session]; fld).
  unfold iterate. rewrite Hq.
  erewrite bind_ret by reflexivity.
  erewrite bind_ret by apply ask_answers_run.
  rewrite Hall. cbn [session world trace]. unfold ret.
  now rewrite <- !app_assoc.
Qed.

Lemma step2_not_iterable s w tr :
  Py.iter (field s "queries") = None ->
  step2 ui (mk_rs (with_defaults s) w tr)
  = (Raise TypeError,
     mk_rs (with_defaults s) w
           (tr ++ [EvShow Write ("### Research Goal" +:+ PyStr.nl +:+
                                 fmt (field s "goal"));
                   EvShow Write "### Web Search Queries"])).
Proof.
  intros Hq. unfold step2.
  erewrite bind_ret by (apply get_attr_run; cbn [session]; fld).
  erewrite bind_ret by apply show_run.
  erewrite bind_ret by apply show_run.
  erewrite bind_ret by (apply get_attr_run; cbn [session]; fld).
  unfold iterate. rewrite Hq. unfold bind, raise. cbn [session world trace].
  now rewrite <- !app_assoc.
Qed.

(** The planning button up to the answer of the planner. *)
Lemma plan_pressed_reply s w tr answers r w' text plan :
  responses_create
    (plan_request (field s "topic") (field s "questions") (PList answers)
                  (field s "clarify_id")) w = (inr r, w') ->
  says_text r text ->
  json_loads text = Some plan ->
  plan_pressed answers (mk_rs (with_defaults s) w tr)
  = bind (subscript plan "goal") (fun goal =>
    bind (set_attr "goal" goal) (fun _ =>
    bind (subscript plan "queries") (fun queries =>
    bind (set_attr "queries" queries) (fun _ =>
    bind (set_attr "goal_and_queries_id" (PStr (resp_id r))) (fun _ =>
    bind (set_attr "step" (PInt 2)) (fun _ => rerun))))))
      (mk_rs (<["answers" := PList answers]> (with_defaults s)) w'
         (tr ++ [EvGateway
                   (plan_request (field s "topic") (field s "questions")
                                 (PList answers) (field s "clarify_id"))
                   (inr r)])).
Proof.
  intros Hc Ht Hj. unfold plan_pressed.
  erewrite bind_ret by apply set_attr_run. cbn [session world trace].
  erewrite bind_ret
    by (apply get_attr_run; cbn [session]; apply lookup_answers_set;
        [unfold is_field; simpl; tauto|done]).
  erewrite bind_ret
    by (apply get_attr_run; cbn [session]; apply lookup_answers_set;
        [unfold is_field; simpl; tauto|done]).
  erewrite bind_ret
    by (apply get_attr_run; cbn [session]; apply lookup_insert_eq).
  erewrite bind_ret
    by (apply get_attr_run; cbn [session]; apply lookup_answers_set;
        [unfold is_field; simpl; tauto|done]).
  erewrite bind_ret
    by (erewrite get_goal_and_queries_ok by (cbn [world]; eassumption);
        rewrite Hj; reflexivity).
  reflexivity.
Qed.

(** Step 3 up to the buttons, on a Gateway that answers the
    evaluation. *)
Lemma step3_offers s w tr items r w' text :
  field s "collected" = PList items ->
  Forall displayable items ->
  responses_create
    (evaluate_request (field s "goal") (field s "collected")) w
  = (inr r, w') ->
  says_text r text ->
  step3 ui (mk_rs (with_defaults s) w tr)
  = step3_actions ui (sufficient text)
      (mk_rs (with_defaults s) w'
         (tr ++ [EvShow Write "### Collected Research Results"]
             ++ collected_shown items
             ++ [EvGateway
                   (evaluate_request (field s "goal") (field s "collected"))
                   (inr r);
                 EvShow Info ("**LLM Evaluation:** " +:+ text)])).
Proof.
  intros Hc Hitems Hr Ht.
  rewrite (step3_evaluates ui _ _ _ _ Hc Hitems).
  erewrite bind_ret
    by (eapply evaluate_responses_ok; [cbn [world]; exact Hr|exact Ht]).
  cbv beta iota.
  erewrite bind_ret by apply show_run.
  cbn [session world trace]. now rewrite <- !app_assoc.
Qed.

Lemma report_pressed_ok s w tr r w' text :
  responses_create
    (report_request (field s "goal") (field s "collected")) w
  = (inr r, w') ->
  says_text r text ->
  report_pressed (mk_rs (with_defaults s) w tr)
  = (RerunReq,
     mk_rs (<["step" := PInt 4]> (<["report" := PStr text]> (with_defaults s)))
           w'
           (tr ++ [EvGateway
                     (report_request (field s "goal") (field s "collected"))
                     (inr r)])).
Proof.
  intros Hc Ht. unfold report_pressed.
  erewrite bind_ret by (apply get_attr_run; cbn [session]; fld).
  erewrite bind_ret by (apply get_attr_run; cbn [session]; fld).
  unfold write_final_report.
  erewrite bind_ret
    by (erewrite bind_ret by (apply create_ok; cbn [world]; exact Hc);
        apply output_text_says; exact Ht).
  reflexivity.
Qed.

(** *** Searches that fail *)

Lemma run_search_raises q previous st e st' :
  run_search q previous st = (Raise e, st') -> search_error e.
Proof.
  unfold run_search, create, search_error. intros Hrun.
  unfold bind at 1 in Hrun.
  destruct (responses_create (search_request q previous) (world st))
    as [[msg|r] w'].
  - inversion Hrun; subst. eauto.
  - revert Hrun. unfold output_text, index, item_content, part_text.
    destruct (resp_output r) as [|it0 [|[id [|[text|rf] parts]|id] rest]];
      cbn; intros Hrun; inversion Hrun; subst; auto.
Qed.

Lemma search_loop_raises previous qs acc st e st' :
  session st !! "goal_and_queries_id" = Some previous ->
  for_append qs
    (fun q => bind (get_attr "goal_and_queries_id")
                   (fun previous => run_search q previous))
    acc st = (Raise e, st') ->
  search_error e.
Proof.
  intros Hp. revert acc st Hp.
  induction qs as [|q qs IH]; intros acc st Hp; cbn [for_append].
  - intros Hrun. inversion Hrun.
  - intros Hrun.
    apply bind_inv in Hrun as [(v & st1 & H1 & H2)|[(e' & H1 & He)|[_ He]]].
    + erewrite bind_ret in H1 by (apply get_attr_run; exact Hp).
      pose proof (run_search_inv _ _ _ _ _ H1) as (Hs1 & _ & _).
      apply IH in H2; [exact H2|now rewrite Hs1].
    + inversion He; subst.
      erewrite bind_ret in H1 by (apply get_attr_run; exact Hp).
      exact (run_search_raises _ _ _ _ _ H1).
    + discriminate He.
Qed.

Lemma search_pressed_raises s w tr qs e st' :
  field s "queries" = PList qs ->
  search_pressed (mk_rs (with_defaults s) w tr) = (Raise e, st') ->
  search_error e.
Proof.
  intros Hq. unfold search_pressed.
  erewrite bind_ret by (apply get_attr_run; cbn [session]; fld).
  rewrite Hq. erewrite bind_ret by reflexivity.
  intros Hrun.
  apply bind_inv in Hrun as [(l & st1 & H1 & H2)|[(e' & H1 & He)|[_ He]]].
  - inversion H2.
  - inversion He; subst.
    eapply search_loop_raises; [|exact H1]. cbn [session]. fld.
  - discriminate He.
Qed.

(** *** Stores with all their fields *)

Lemma with_defaults_keeps (s : gmap string pyval) k v :
  s !! k = Some v -> with_defaults s !! k = Some v.
Proof.
  intros H. unfold with_defaults. rewrite !setdefault_lookup. now rewrite H.
Qed.

Lemma field_keeps (s : gmap string pyval) k v :
  s !! k = Some v -> field s k = v.
Proof. intros H. unfold field. now rewrite (with_defaults_keeps _ _ _ H). Qed.

Lemma answers_from_length qs i : length (answers_from ui qs i) = length qs.
Proof.
  revert i. induction qs as [|q qs IH]; intros i; cbn [answers_from length];
    [reflexivity|]. now rewrite IH.
Qed.

Lemma answers_from_lookup qs i j :
  j < length qs ->
  answers_from ui qs i !! j
  = Some (PStr (text_of ui ("answer_" +:+ PyStr.decimal (i + j)))).
Proof.
  revert i j. induction qs as [|q qs IH]; intros i j Hj; cbn [length] in Hj;
    [lia|].
  destruct j as [|j]; cbn [answers_from].
  - now rewrite Nat.add_0_r.
  - cbn [lookup list_lookup]. rewrite IH by lia.
    now replace (S i + j) with (i + S j) by lia.
Qed.

(** *** How often a run calls the Gateway *)

Lemma spends_untouched {A} n (m : M A) : preserves untouched m -> spends n m.
Proof.
  intros Hm st o st' Hrun. destruct (Hm _ _ _ Hrun) as (_ & _ & _ & Hg).
  exists []. rewrite app_nil_r. split; [exact Hg|cbn; lia].
Qed.

Lemma spends_set_attr n k v : spends n (set_attr k v).
Proof.
  intros st o st' Hrun. inversion Hrun; subst. exists [].
  rewrite app_nil_r. split; [reflexivity|cbn; lia].
Qed.

Lemma spends_rerun {A} n : spends n (@rerun E A).
Proof.
  intros st o st' Hrun. inversion Hrun; subst. exists [].
  rewrite app_nil_r. split; [reflexivity|cbn; lia].
Qed.

Lemma spends_restart_pressed n : spends n restart_pressed.
Proof.
  intros [s w tr] o st' Hrun. rewrite restart_pressed_run in Hrun.
  inversion Hrun; subst. exists []. rewrite app_nil_r.
  split; [reflexivity|cbn; lia].
Qed.

Lemma spends_create n req : spends (S n) (create req).
Proof.
  intros st o st' Hrun. unfold create in Hrun.
  destruct (responses_create req (world st)) as [[msg|r] w'];
    inversion Hrun; subst; cbn [trace]; rewrite gateway_requests_app;
    (eexists; split; [reflexivity|cbn; lia]).
Qed.

Lemma spends_bind {A B} n1 n2 (m : M A) (k : A -> M B) :
  spends n1 m -> (forall a, spends n2 (k a)) -> spends (n1 + n2) (bind m k).
Proof.
  intros Hm Hk st o st' Hrun.
  apply bind_inv in Hrun as [(a & st1 & H1 & H2)|[(e & H1 & ->)|[H1 ->]]].
  - destruct (Hm _ _ _ H1) as (r1 & Hg1 & Hl1).
    destruct (Hk a _ _ _ H2) as (r2 & Hg2 & Hl2).
    exists (r1 ++ r2). rewrite Hg2, Hg1, <- app_assoc.
    split; [reflexivity|]. rewrite length_app. lia.
  - destruct (Hm _ _ _ H1) as (r1 & Hg1 & Hl1). exists r1.
    split; [exact Hg1|lia].
  - destruct (Hm _ _ _ H1) as (r1 & Hg1 & Hl1). exists r1.
    split; [exact Hg1|lia].
Qed.

Lemma spends_free {A B} n (m : M A) (k : A -> M B) :
  spends 0 m -> (forall a, spends n (k a)) -> spends n (bind m k).
Proof. intros Hm Hk. exact (spends_bind 0 n m k Hm Hk). Qed.

Lemma spends_one {A B} n (m : M A) (k : A -> M B) :
  spends 1 m -> (forall a, spends n (k a)) -> spends (S n) (bind m k).
Proof. intros Hm Hk. exact (spends_bind 1 n m k Hm Hk). Qed.

Lemma spends_stop {A B} n (m : M A) (k : A -> M B) :
  spends n m -> noreturn m -> spends n (bind m k).
Proof.
  intros Hm Hn st o st' Hrun.
  apply bind_inv in Hrun as [(a & st1 & H1 & H2)|[(e & H1 & ->)|[H1 ->]]].
  - destruct (Hn _ _ _ H1).
  - exact (Hm _ _ _ H1).
  - exact (Hm _ _ _ H1).
Qed.

Lemma spends_for_append {A B} n (l : list A) (body : A -> M B) acc :
  (forall x, spends n (body x)) ->
  spends (length l * n) (for_append l body acc).
Proof.
  intros Hb. revert acc.
  induction l as [|x l IH]; intros acc; cbn [for_append length Nat.mul].
  - apply spends_untouched. apply preserves_ret. apply admissible_untouched.
  - apply spends_bind; [apply Hb|]. intros b. apply IH.
Qed.

(** [spending]: a structural proof of [spends n m]. *)
Ltac spend_leaf :=
  match goal with
  | |- spends _ (bind _ _) => fail 1
  | |- _ => apply spends_untouched; solve [keep admissible_untouched fail]
  end.

Ltac spending :=
  repeat first
    [ spend_leaf
    | apply spends_set_attr
    | apply spends_rerun
    | apply spends_restart_pressed
    | apply spends_create
    | match goal with
      | |- forall _, _ => intro
      | |- spends _ (match ?x with _ => _ end) => destruct x
      | |- spends _ (bind (match ?x with _ => _ end) _) => destruct x
      end
    | apply spends_stop; [solve [spending]|apply noreturn_report_pressed]
    | apply spends_free; [solve [spending]|]
    | apply spends_one; [solve [spending]|] ].

Lemma spends_step0 : spends 1 (step0 ui).
Proof.
  unfold step0, questions_pressed, get_clarifying_questions, output_text.
  spending.
Qed.

Lemma spends_step1 : spends 1 (step1 ui).
Proof.
  unfold step1, ask_answers, plan_pressed, get_goal_and_queries,
    output_text.
  spending.
Qed.

Lemma spends_report_pressed : spends 1 report_pressed.
Proof.
  unfold report_pressed, write_final_report, output_text. spending.
Qed.

Lemma spends_step3 : spends 2 (step3 ui).
Proof.
  unfold step3, show_collected, evaluate_responses, output_text,
    step3_actions.
  repeat first
    [ apply spends_report_pressed
    | spend_leaf
    | match goal with
      | |- forall _, _ => intro
      | |- spends _ (match ?x with _ => _ end) => destruct x
      | |- spends _ (bind (match ?x with _ => _ end) _) => destruct x
      end
    | apply spends_stop;
      [apply spends_report_pressed|apply noreturn_report_pressed]
    | apply spends_free; [solve [spending]|]
    | apply spends_one; [solve [spending]|] ].
  unfold more_pressed, get_more_queries, output_text. spending.
Qed.

Lemma spends_step4 : spends 0 (step4 ui).
Proof. unfold step4. spending. Qed.

Lemma spends_search_all qs : spends (length qs) (search_all qs).
Proof.
  unfold search_all. rewrite <- (Nat.mul_1_r (length qs)).
  apply spends_for_append. intros q. unfold run_search, output_text.
  spending.
Qed.

Lemma gateway_requests_shown qs : gateway_requests (queries_shown qs) = [].
Proof. induction qs as [|q qs IH]; [reflexivity|exact IH]. Qed.

Lemma spends_search_rest qs :
  spends (length qs)
    (bind (search_all qs)
       (fun collected =>
          bind (set_attr "collected" (PList collected))
            (fun _ => bind (set_attr "step" (PInt 3))
                        (fun _ => @rerun E unit)))).
Proof.
  rewrite <- (Nat.add_0_r (length qs)).
  apply spends_bind; [apply spends_search_all|]. spending.
Qed.

Lemma spends_step2 s w tr o st' :
  step2 ui (mk_rs (with_defaults s) w tr) = (o, st') ->
  exists reqs,
    gateway_requests (trace st') = gateway_requests tr ++ reqs /\
    length reqs <= length (default [] (Py.iter (field s "queries"))).
Proof.
  unfold step2.
  erewrite bind_ret by (apply get_attr_run; cbn [session]; fld).
  erewrite bind_ret by apply show_run.
  erewrite bind_ret by apply show_run.
  erewrite bind_ret by (apply get_attr_run; cbn [session]; fld).
  unfold iterate. cbn [session world trace].
  destruct (Py.iter (field s "queries")) as [qs|] eqn:Hq.
  - erewrite bind_ret by reflexivity.
    erewrite bind_ret by apply show_queries_run.
    erewrite bind_ret by apply button_run. cbn [session world trace].
    match goal with
    | |- (if ?b then _ else _) _ = _ -> _ => destruct b
    end.
    + unfold search_pressed.
      erewrite bind_ret by (apply get_attr_run; cbn [session]; fld).
      unfold iterate. rewrite Hq. erewrite bind_ret by reflexivity.
      intros Hrun.
      destruct (spends_search_rest qs _ _ _ Hrun) as (reqs & Hr & Hl).
      cbn [trace] in Hr. exists reqs. cbn [default]. split; [|exact Hl].
      rewrite Hr, !gateway_requests_app, gateway_requests_shown.
      cbn [gateway_requests]. now rewrite !app_nil_r.
    + intros Hrun. pose proof (f_equal snd Hrun) as Hs.
      cbv beta iota delta [snd ret] in Hs. subst st'. cbn [trace].
      exists [].
      split; [|cbn; lia].
      rewrite !gateway_requests_app, gateway_requests_shown.
      cbn [gateway_requests]. now rewrite !app_nil_r.
  - intros Hrun. pose proof (f_equal snd Hrun) as Hs.
    cbv beta iota delta [snd bind raise] in Hs. subst st'. cbn [trace].
    exists [].
    split; [|cbn; lia]. rewrite !gateway_requests_app.
    cbn [gateway_requests]. now rewrite !app_nil_r.
Qed.




(** *** The shape of the store *)

Lemma field_insert (s : gmap string pyval) k v k' :
  field (<[k := v]> s) k' = if decide (k = k') then v else field s k'.
Proof.
  unfold field, with_defaults. rewrite !setdefault_lookup.
  destruct (decide (k = k')) as [->|Hne].
  - now rewrite lookup_insert_eq.
  - now rewrite lookup_insert_ne.
Qed.

Lemma field_with_defaults (s : gmap string pyval) k :
  field (with_defaults s) k = field s k.
Proof.
  unfold field at 1. rewrite with_defaults_id; [reflexivity|].
  intros k' Hk'. rewrite (with_defaults_field _ _ Hk'). eauto.
Qed.

Lemma well_formed_with_defaults s :
  well_formed s -> well_formed (with_defaults s).
Proof. unfold well_formed. now rewrite !field_with_defaults. Qed.

Lemma well_formed_empty : well_formed ∅.
Proof.
  unfold well_formed.
  repeat split; try (exists []; reflexivity); try (eexists; reflexivity).
  - exists 0%Z. split; [reflexivity|lia].
  - exists []. split; [reflexivity|constructor].
Qed.

Ltac shaped :=
  let H := fresh in
  intros ? H; unfold well_formed in *; rewrite !field_insert;
  repeat (case_decide; try congruence);
  destruct H as (? & ? & ? & ? & ? & ?);
  repeat match goal with |- _ /\ _ => split end;
  first [ assumption
        | eexists; reflexivity
        | eexists; split; [reflexivity|first [lia|assumption]] ].

Lemma texts_answers_from qs i : texts (PList (answers_from ui qs i)).
Proof.
  revert i. induction qs as [|q qs IH]; intros i; cbn [answers_from].
  - now exists [].
  - destruct (IH (S i)) as [l Hl]. inversion Hl as [Hl'].
    exists (text_of ui ("answer_" +:+ PyStr.decimal i) :: l).
    cbn [map]. now rewrite Hl'.
Qed.

Lemma keeps_same {A} I (m : M A) : preserves same_session m -> keeps I m.
Proof.
  intros Hm st o st' Hrun HI. destruct (Hm _ _ _ Hrun) as [_ Hs].
  unfold same_session in Hs. now rewrite Hs.
Qed.

Lemma keeps_bind {A B} I Q (m : M A) (k : A -> M B) :
  keeps I m -> yields Q m -> (forall a, Q a -> keeps I (k a)) ->
  keeps I (bind m k).
Proof.
  intros Hm HQ Hk st o st' Hrun HI.
  apply bind_inv in Hrun as [(a & st1 & H1 & H2)|[(e & H1 & ->)|[H1 ->]]].
  - exact (Hk a (HQ _ _ _ H1) _ _ _ H2 (Hm _ _ _ H1 HI)).
  - exact (Hm _ _ _ H1 HI).
  - exact (Hm _ _ _ H1 HI).
Qed.

Lemma keeps_set_attr I k v :
  (forall s, I s -> I (<[k := v]> s)) -> keeps I (set_attr k v).
Proof. intros H st o st' Hrun HI. inversion Hrun; subst. now apply H. Qed.

Lemma keeps_rerun {A} I : keeps I (@rerun E A).
Proof. intros st o st' Hrun HI. now inversion Hrun; subst. Qed.

Lemma keeps_restart_pressed I : I ∅ -> keeps I restart_pressed.
Proof.
  intros H [s w tr] o st' Hrun _. rewrite restart_pressed_run in Hrun.
  now inversion Hrun; subst.
Qed.

Lemma yields_any {A} (m : M A) : yields (fun _ => True) m.
Proof. now intros st a st' _. Qed.

Lemma yields_ret {A} (Q : A -> Prop) a : Q a -> yields Q (ret a).
Proof. intros H st b st' Hrun. now inversion Hrun; subst. Qed.

Lemma yields_bind {A B} (Q : B -> Prop) (m : M A) (k : A -> M B) :
  (forall a, yields Q (k a)) -> yields Q (bind m k).
Proof.
  intros Hk st b st' Hrun.
  apply bind_inv in Hrun as [(a & st1 & H1 & H2)|[(e & H1 & He)|[H1 He]]];
    [exact (Hk a _ _ _ H2)|discriminate He..].
Qed.

Lemma yields_for_append {A B} (Q : B -> Prop) (l : list A)
      (body : A -> M B) acc :
  (forall x, yields Q (body x)) -> Forall Q acc ->
  yields (Forall Q) (for_append l body acc).
Proof.
  intros Hb. revert acc.
  induction l as [|x l IH]; intros acc Hacc; cbn [for_append].
  - now apply yields_ret.
  - intros st b st' Hrun.
    apply bind_inv in Hrun as [(a & st1 & H1 & H2)|[(e & H1 & He)|[H1 He]]];
      [|discriminate He..].
    refine (IH (acc ++ [a]) _ _ _ _ H2). apply Forall_app. split; [exact Hacc|].
    constructor; [exact (Hb x _ _ _ H1)|constructor].
Qed.

Lemma yields_get_clarifying_questions topic :
  yields (fun p => texts (fst p)) (get_clarifying_questions topic).
Proof.
  unfold get_clarifying_questions.
  apply yields_bind. intros r. apply yields_bind. intros text.
  apply yields_ret. cbn [fst]. now eexists.
Qed.

Lemma yields_ask_answers qs :
  yields (fun answers => texts (PList answers)) (ask_answers ui qs).
Proof.
  intros st a st' Hrun. rewrite ask_answers_run in Hrun.
  inversion Hrun; subst. apply texts_answers_from.
Qed.

Lemma yields_search_all qs : yields (Forall displayable) (search_all qs).
Proof.
  unfold search_all. apply yields_for_append; [|constructor].
  intros q. apply yields_bind. intros previous. unfold run_search.
  apply yields_bind. intros r. apply yields_bind. intros it.
  apply yields_bind. intros text. apply yields_ret.
  eexists _, q, (PStr text). split; [reflexivity|]. now split.
Qed.

(** [keeping]: a structural proof of [keeps well_formed m]. *)
Ltac keep_same :=
  match goal with
  | |- keeps _ (bind _ _) => fail 1
  | |- _ => apply keeps_same; solve [keep_session]
  end.

Ltac keeping :=
  repeat first
    [ keep_same
    | apply keeps_rerun
    | apply keeps_restart_pressed; exact well_formed_empty
    | apply keeps_set_attr; solve [shaped]
    | match goal with
      | |- forall _, _ => intro
      | |- keeps _ (match ?x with _ => _ end) => destruct x
      | |- keeps _ (bind (match ?x with _ => _ end) _) => destruct x
      | |- keeps _ (bind (get_clarifying_questions _) _) =>
          apply (keeps_bind _ (fun p => texts (fst p)));
          [solve [unfold get_clarifying_questions, output_text; keeping]
          |apply yields_get_clarifying_questions
          |intros [? ?] ?; cbn [fst] in *]
      | |- keeps _ (bind (ask_answers _ _) _) =>
          apply (keeps_bind _ (fun a => texts (PList a)));
          [solve [unfold ask_answers; keeping]
          |apply yields_ask_answers|intros ? ?]
      | |- keeps _ (bind (search_all _) _) =>
          apply (keeps_bind _ (Forall displayable));
          [solve [unfold search_all, run_search, output_text; keeping]
          |apply yields_search_all|intros ? ?]
      end
    | apply (keeps_bind _ (fun _ => True));
      [solve [keeping]|apply yields_any|intros ? _] ].

Lemma keeps_step0 : keeps well_formed (step0 ui).
Proof. unfold step0, questions_pressed. keeping. Qed.

Lemma keeps_step1 : keeps well_formed (step1 ui).
Proof.
  unfold step1, plan_pressed, get_goal_and_queries, output_text. keeping.
Qed.

Lemma keeps_step2 : keeps well_formed (step2 ui).
Proof. unfold step2, show_queries, search_pressed. keeping. Qed.

Lemma keeps_step3 : keeps well_formed (step3 ui).
Proof.
  unfold step3, show_collected, evaluate_responses, output_text,
    step3_actions, report_pressed, write_final_report, more_pressed,
    get_more_queries, output_text.
  keeping.
Qed.

Lemma keeps_step4 : keeps well_formed (step4 ui).
Proof. unfold step4. keeping. Qed.

End Relations.

Section Properties.

Context `{E : Externals}.

(** *** Initialisation *)

Lemma setdefault_union k v (s : gmap string pyval) :
  setdefault k v s = s ∪ {[k := v]}.
Proof.
  apply map_eq. intros k'. rewrite setdefault_lookup, lookup_union.
  destruct (s !! k') as [x|] eqn:Hk'; cbn.
  - now destruct ({[k := v]} !! k').
  - rewrite lookup_singleton. case_decide; reflexivity.
Qed.

(** X1.  The initialisation of lines 119-138 completes the store with
    the defaults and changes nothing that is there: its result is the
    store joined, with priority, to the ten defaults.  So a field that
    is present keeps its value, also a falsy one such as step 0 or an
    empty topic, and initialising twice is initialising once. *)
Theorem initialisation_completes_store (st : run_state) :
  init_session st
  = (Ret tt,
     mk_rs (session st ∪ list_to_map default_fields) (world st) (trace st))
  /\
  (forall k v,
     session st !! k = Some v ->
     (session st ∪ list_to_map default_fields) !! k = Some v) /\
  (forall k,
     session st !! k = None ->
     (session st ∪ list_to_map default_fields) !! k
     = (list_to_map default_fields : gmap string pyval) !! k) /\
  (session st ∪ list_to_map default_fields) ∪ list_to_map default_fields
  = session st ∪ list_to_map default_fields.
Proof.
  assert (Hu : forall s : gmap string pyval,
             with_defaults s = s ∪ list_to_map default_fields).
  { intros s. unfold with_defaults. rewrite !setdefault_union.
    now rewrite <- !(assoc_L (∪)). }
  split; [|split; [|split]].
  - rewrite init_session_run. now rewrite Hu.
  - intros k v Hk. rewrite lookup_union, Hk.
    now destruct (list_to_map default_fields !! k).
  - intros k Hk. rewrite lookup_union, Hk.
    now destruct (list_to_map default_fields !! k).
  - rewrite <- (assoc_L (∪)). reflexivity.
Qed.

(** *** The clarifying questions *)


(** *** The state machine *)

(** X3.  Whatever the user does and whatever the Gateway and the
    decoder answer, a run that starts at step [n] and does not ask for a
    rerun leaves the step index at [n]; a run that asks for a rerun
    leaves it at a successor of [n] in the workflow: 1 after 0, 2 after
    1, 3 after 2, 4 or 2 after 3, and no step at all (the store is
    cleared) after 4.  So a step index between 0 and 4 stays between 0
    and 4. *)
Theorem step_transitions ui s w n o st' :
  field s "step" = PInt n ->
  render ui s w = (o, st') ->
  (if reruns o then In (session st' !! "step") (next_steps n)
   else session st' !! "step" = Some (PInt n)) /\
  ((0 <= n <= 4)%Z ->
   forall v, session st' !! "step" = Some v ->
             exists n', v = PInt n' /\ (0 <= n' <= 4)%Z).
Proof.
  intros Hstep Hrun.
  assert (Hs : with_defaults s !! "step" = Some (PInt n)).
  { rewrite <- Hstep. apply with_defaults_field. unfold is_field. cbn. tauto. }
  assert (Hmove : if reruns o then In (session st' !! "step") (next_steps n)
                  else session st' !! "step" = Some (PInt n)).
  { rewrite (render_step ui _ _ _ Hstep) in Hrun.
    unfold handler, next_steps in *. cbn [Py.eq_int] in Hrun.
    rewrite <- Hs.
    destruct (n =? 0)%Z; [exact (moves_step0 ui _ _ _ Hrun)|].
    destruct (n =? 1)%Z; [exact (moves_step1 ui _ _ _ Hrun)|].
    destruct (n =? 2)%Z; [exact (moves_step2 ui _ _ _ Hrun)|].
    destruct (n =? 3)%Z; [exact (moves_step3 ui _ _ _ Hrun)|].
    destruct (n =? 4)%Z; [exact (moves_step4 ui _ _ _ Hrun)|].
    inversion Hrun; subst. reflexivity. }
  split; [exact Hmove|].
  intros Hn v Hv. rewrite Hv in Hmove.
  destruct (reruns o).
  - unfold next_steps in Hmove.
    repeat match type of Hmove with
      | In _ (if ?b then _ else _) => destruct b
      end;
      cbn in Hmove;
      repeat match type of Hmove with
        | _ \/ _ => destruct Hmove as [Hmove|Hmove]
        end;
      try contradiction; try discriminate;
      inversion Hmove; subst; (eexists; split; [reflexivity|lia]).
  - inversion Hmove; subst. eauto.
Qed.

(** X4.  A run that no button caused, at any step and whatever the
    Gateway does, never asks for a rerun and stores nothing, except that
    step 0 stores the topic field.  Away from step 3 it also leaves the
    world alone: it makes no Gateway call. *)
Theorem idle_run_changes_nothing ui s w o st' :
  clicked ui = None ->
  render ui s w = (o, st') ->
  reruns o = false /\
  session st'
  = (if Py.eq_int (field s "step") 0
     then <["topic" := PStr (text_of ui topic_label)]> (with_defaults s)
     else with_defaults s) /\
  (Py.eq_int (field s "step") 3 = false ->
   world st' = w /\ gateway_requests (trace st') = []).
Proof.
  intros Hc Hrun. rewrite render_run in Hrun. unfold handler in Hrun.
  destruct (Py.eq_int (field s "step") 0).
  { destruct (step0_idle_untouched ui _ _ _ _ _ Hc Hrun)
      as (Ho & Hs & Hw & Hg).
    auto. }
  destruct (Py.eq_int (field s "step") 1).
  { destruct (step1_idle ui Hc _ _ _ Hrun) as (Ho & Hs & Hw & Hg). auto. }
  destruct (Py.eq_int (field s "step") 2).
  { destruct (step2_idle ui Hc _ _ _ Hrun) as (Ho & Hs & Hw & Hg). auto. }
  destruct (Py.eq_int (field s "step") 3).
  { destruct (step3_idle ui Hc _ _ _ Hrun) as (Ho & Hs).
    split; [exact Ho|]. split; [exact Hs|]. discriminate. }
  destruct (Py.eq_int (field s "step") 4).
  { destruct (step4_idle ui Hc _ _ _ Hrun) as (Ho & Hs & Hw & Hg). auto. }
  inversion Hrun; subst. auto.
Qed.

(** *** The transitions out of step 0 and step 3 *)


(** X6.  A guard that is not met offers no button.  At step 0 with an
    empty topic field, and at step 1 with an answer field left empty,
    the run ends normally whatever button is reported as pressed: the
    transition button is not polled, the Gateway is not called, and the
    store keeps its step and fields (step 0 stores the empty topic). *)
Theorem unmet_guard_offers_no_button ui s w :
  (field s "step" = PInt 0 ->
   text_of ui topic_label = "" ->
   render ui s w
   = (Ret tt,
      mk_rs (<["topic" := PStr ""]> (with_defaults s)) w
            [title; EvTextInput topic_label None])) /\
  (forall qs,
     field s "step" = PInt 1 ->
     Py.iter (field s "questions") = Some qs ->
     forallb Py.truthy (answers_from ui qs 0) = false ->
     render ui s w
     = (Ret tt,
        mk_rs (with_defaults s) w
              ([title; EvShow Write "### Clarifying Questions"]
                 ++ answer_inputs qs 0))).
Proof.
  split.
  - intros Hstep Ht. rewrite (render_step ui _ _ _ Hstep).
    change (handler ui (PInt 0)) with (step0 ui).
    now rewrite (step0_blank ui _ _ _ Ht).
  - intros qs Hstep Hq Hall. rewrite (render_step ui _ _ _ Hstep).
    change (handler ui (PInt 1)) with (step1 ui).
    now rewrite (step1_blocked ui _ _ _ _ Hq Hall).
Qed.

(** X7.  At step 3 the report is written on either of two routes: the
    evaluation finds [yes] and the report button is pressed, or it does
    not and [Proceed Anyway] is pressed.  On both, when the Gateway
    answers the report request with the text [text2], the run asks for
    a rerun with [report] set to [text2] as it is and the step at 4,
    every other field as it was, after two Gateway calls: the
    evaluation, then the report request for the goal and the collected
    results. *)
Theorem report_transition ui s w items r1 w1 text1 r2 w2 text2 :
  field s "step" = PInt 3 ->
  field s "collected" = PList items ->
  Forall displayable items ->
  responses_create
    (evaluate_request (field s "goal") (field s "collected")) w
  = (inr r1, w1) ->
  says_text r1 text1 ->
  (sufficient text1 = true /\ clicked ui = Some btn_report) \/
  (sufficient text1 = false /\ clicked ui = Some btn_proceed) ->
  responses_create
    (report_request (field s "goal") (field s "collected")) w1
  = (inr r2, w2) ->
  says_text r2 text2 ->
  exists tr,
    render ui s w
    = (RerunReq,
       mk_rs (<["step" := PInt 4]>
                (<["report" := PStr text2]> (with_defaults s))) w2 tr) /\
    gateway_requests tr
    = [evaluate_request (field s "goal") (field s "collected");
       report_request (field s "goal") (field s "collected")].
Proof.
  intros Hstep Hcol Hitems Hr1 Ht1 Hroute Hr2 Ht2.
  rewrite (render_step ui _ _ _ Hstep).
  change (handler ui (PInt 3)) with (step3 ui).
  rewrite (step3_offers ui _ _ _ _ _ _ _ Hcol Hitems Hr1 Ht1).
  assert (Hshown : gateway_requests (collected_shown items) = []).
  { clear. now induction items. }
  unfold step3_actions.
  destruct Hroute as [[Hyes Hc]|[Hno Hc]].
  - rewrite Hyes.
    erewrite bind_ret by apply show_run.
    erewrite bind_ret by apply button_run.
    rewrite (pressed_same ui _ Hc). cbn [session world trace].
    rewrite (report_pressed_ok _ _ _ _ _ _ Hr2 Ht2).
    eexists. split; [reflexivity|].
    rewrite !gateway_requests_app, Hshown. reflexivity.
  - rewrite Hno.
    erewrite bind_ret by apply show_run.
    erewrite bind_ret by apply button_run.
    rewrite (pressed_same ui _ Hc). cbn [session world trace].
    erewrite bind_rerun
      by (apply (report_pressed_ok _ _ _ _ _ _ Hr2 Ht2)).
    eexists. split; [reflexivity|].
    rewrite !gateway_requests_app, Hshown. reflexivity.
Qed.

(** X8.  At step 3 the buttons follow the evaluation of the same run.
    When the answer has [yes], only the report button is polled: a run
    that a press of [Proceed Anyway] or of the button for more queries
    is said to have caused ends normally with the store as it was.  When
    the answer has no [yes], only those two are polled, and a press of
    the report button does nothing. *)
Theorem offered_buttons_follow_evaluation ui s w items r w' text :
  field s "step" = PInt 3 ->
  field s "collected" = PList items ->
  Forall displayable items ->
  responses_create
    (evaluate_request (field s "goal") (field s "collected")) w
  = (inr r, w') ->
  says_text r text ->
  let shown :=
    [title; EvShow Write "### Collected Research Results"]
      ++ collected_shown items
      ++ [EvGateway
            (evaluate_request (field s "goal") (field s "collected"))
            (inr r);
          EvShow Info ("**LLM Evaluation:** " +:+ text)] in
  (sufficient text = true ->
   clicked ui <> Some btn_report ->
   render ui s w
   = (Ret tt,
      mk_rs (with_defaults s) w'
            (shown ++ [EvShow Success "Sufficient information collected!";
                       EvButton btn_report]))) /\
  (sufficient text = false ->
   clicked ui <> Some btn_proceed ->
   clicked ui <> Some btn_more ->
   render ui s w
   = (Ret tt,
      mk_rs (with_defaults s) w'
            (shown
               ++ [EvShow Warning
                     "Not enough information. Generating 5 more queries...";
                   EvButton btn_proceed; EvButton btn_more]))).
Proof.
  intros Hstep Hcol Hitems Hr Ht shown.
  rewrite (render_step ui _ _ _ Hstep).
  change (handler ui (PInt 3)) with (step3 ui).
  rewrite (step3_offers ui _ _ _ _ _ _ _ Hcol Hitems Hr Ht).
  unfold step3_actions, shown. split.
  - intros Hyes Hc. rewrite Hyes.
    erewrite bind_ret by apply show_run.
    erewrite bind_ret by apply button_run.
    rewrite (pressed_other ui _ Hc). cbn [session world trace]. unfold ret.
    now rewrite <- !app_assoc.
  - intros Hno Hc1 Hc2. rewrite Hno.
    erewrite bind_ret by apply show_run.
    erewrite bind_ret by apply button_run.
    rewrite (pressed_other ui _ Hc1). cbv iota.
    erewrite bind_ret by reflexivity.
    erewrite bind_ret by apply button_run.
    rewrite (pressed_other ui _ Hc2). cbn [session world trace]. unfold ret.
    now rewrite <- !app_assoc.
Qed.

(** *** Searches and plans that go wrong *)

(** X9.  The searches of step 2 are all or nothing.  When the run that
    the search button caused ends with an exception, whichever search
    it came from, nothing is stored: [collected] and the step are what
    they were, and the results of the searches that had succeeded are
    lost.  The exception is a failure of the Gateway, [IndexError] or
    [AttributeError], nothing else. *)
Theorem failed_search_stores_nothing ui s w qs e st' :
  field s "step" = PInt 2 ->
  field s "queries" = PList qs ->
  clicked ui = Some btn_search ->
  render ui s w = (Raise e, st') ->
  session st' = with_defaults s /\ search_error e.
Proof.
  intros Hstep Hq Hc Hrun.
  rewrite (render_step ui _ _ _ Hstep) in Hrun.
  change (handler ui (PInt 2)) with (step2 ui) in Hrun.
  rewrite (step2_pressed ui _ _ _ _ Hq Hc) in Hrun.
  split.
  - exact (search_pressed_inv _ _ _ _ _ _ Hq Hrun).
  - exact (search_pressed_raises _ _ _ _ _ _ Hq Hrun).
Qed.

(** X10.  [run_search] reads the second output item of the answer and
    the text of its first block.  For an answer of the Gateway, it
    raises [IndexError] exactly when there is no second item or the
    second item is a message without a block, [AttributeError] exactly
    when the second item is a tool call or its first block is a
    refusal, and returns a result exactly when the second item is a
    message that starts with a text block; the result then holds the
    query, the identifier of that item and that text. *)
Theorem search_reads_second_item q previous st r w' :
  responses_create (search_request q previous) (world st) = (inr r, w') ->
  let out := run_search q previous st in
  session (snd out) = session st /\
  (fst out = Raise IndexError <->
   nth_error (resp_output r) 1 = None \/
   exists id, nth_error (resp_output r) 1 = Some (OutMessage id [])) /\
  (fst out = Raise AttributeError <->
   (exists id, nth_error (resp_output r) 1 = Some (OutToolCall id)) \/
   exists id x parts,
     nth_error (resp_output r) 1 = Some (OutMessage id (Refusal x :: parts)))
  /\
  (forall v,
     fst out = Ret v <->
     exists id text parts,
       nth_error (resp_output r) 1
       = Some (OutMessage id (OutputText text :: parts)) /\
       v = PDict [("query", q); ("resp_id", PStr id);
                  ("research_output", PStr text)]).
Proof.
  intros Hc out. unfold out, run_search.
  erewrite bind_ret by (apply create_ok; exact Hc).
  unfold output_text, index, item_content, part_text, item_ident.
  destruct (resp_output r) as [|it0 [|[id [|[text|rf] parts]|id] rest]];
    cbn; (split; [reflexivity|]); (split; [|split]);
    try (intros v); split; intros H;
    try discriminate H; try reflexivity;
    repeat match goal with
      | H : _ \/ _ |- _ => destruct H
      | H : exists _, _ |- _ => destruct H
      | H : _ /\ _ |- _ => destruct H
      end;
    try discriminate; try congruence; eauto 8.
  inversion H. eauto 8.
Qed.

(** X11.  The planner's reply is not checked before it is stored.
    When it decodes to a JSON object without ["goal"], the planning
    transition raises [KeyError] with only the answers stored.  When it
    has ["goal"] and no ["queries"], it raises [KeyError] after the
    goal has replaced the old one: the store is left with the new goal,
    the old queries and step 1.  When it decodes to a value that is not
    an object, it raises [TypeError]. *)
Theorem incomplete_plan_is_half_stored ui s w qs r w' text plan :
  field s "step" = PInt 1 ->
  Py.iter (field s "questions") = Some qs ->
  forallb Py.truthy (answers_from ui qs 0) = true ->
  clicked ui = Some btn_plan ->
  responses_create
    (plan_request (field s "topic") (field s "questions")
                  (PList (answers_from ui qs 0)) (field s "clarify_id")) w
  = (inr r, w') ->
  says_text r text ->
  json_loads text = Some plan ->
  let answered :=
    <["answers" := PList (answers_from ui qs 0)]> (with_defaults s) in
  (forall d,
     plan = PDict d -> Py.assoc "goal" d = None ->
     exists tr,
       render ui s w = (Raise (KeyError "goal"), mk_rs answered w' tr)) /\
  (forall d g,
     plan = PDict d -> Py.assoc "goal" d = Some g ->
     Py.assoc "queries" d = None ->
     exists tr,
       render ui s w
       = (Raise (KeyError "queries"),
          mk_rs (<["goal" := g]> answered) w' tr) /\
       (<["goal" := g]> answered) !! "step" = Some (PInt 1) /\
       (<["goal" := g]> answered) !! "queries"
       = Some (field s "queries")) /\
  ((forall d, plan <> PDict d) ->
   exists tr, render ui s w = (Raise TypeError, mk_rs answered w' tr)).
Proof.
  intros Hstep Hqs Hall Hc Hr Ht Hj answered.
  rewrite (render_step ui _ _ _ Hstep).
  change (handler ui (PInt 1)) with (step1 ui).
  rewrite (step1_pressed ui _ _ _ _ Hqs Hall Hc).
  rewrite (plan_pressed_reply _ _ _ _ _ _ _ _ Hr Ht Hj).
  fold answered. split; [|split].
  - intros d -> Hg. unfold subscript. rewrite Hg.
    eexists. reflexivity.
  - intros d g -> Hg Hq. unfold subscript. rewrite Hg, Hq.
    eexists. split; [reflexivity|]. unfold answered. split.
    + rewrite !lookup_insert_ne by done. rewrite <- Hstep.
      apply with_defaults_field. unfold is_field. cbn. tauto.
    + rewrite !lookup_insert_ne by done.
      apply with_defaults_field. unfold is_field. cbn. tauto.
  - intros Hnd. destruct plan; try (eexists; reflexivity).
    destruct (Hnd d eq_refl).
Qed.

(** X12.  Queries that cannot be iterated block step 2.  When [queries]
    is a value a [for] loop rejects, such as [None] or a number, every
    run at step 2 raises [TypeError] while it displays the queries,
    before the search button is polled: no action is offered and the
    store stays as it is.  The button for more queries leads there when
    the Gateway's answer decodes to such a value. *)
Theorem unreadable_queries_block_step_2 ui s w :
  (field s "step" = PInt 2 ->
   Py.iter (field s "queries") = None ->
   render ui s w
   = (Raise TypeError,
      mk_rs (with_defaults s) w
            [title;
             EvShow Write ("### Research Goal" +:+ PyStr.nl +:+
                           fmt (field s "goal"));
             EvShow Write "### Web Search Queries"])) /\
  (forall items r1 w1 text1 r2 w2 text2 v,
     field s "step" = PInt 3 ->
     field s "collected" = PList items ->
     Forall displayable items ->
     clicked ui = Some btn_more ->
     responses_create
       (evaluate_request (field s "goal") (field s "collected")) w
     = (inr r1, w1) ->
     says_text r1 text1 ->
     sufficient text1 = false ->
     responses_create
       (more_request (field s "collected") (field s "goal")
                     (field s "goal_and_queries_id")) w1 = (inr r2, w2) ->
     says_text r2 text2 ->
     json_loads text2 = Some v ->
     Py.iter v = None ->
     exists st',
       render ui s w = (RerunReq, st') /\
       field (session st') "step" = PInt 2 /\
       Py.iter (field (session st') "queries") = None).
Proof.
  split.
  - intros Hstep Hq. rewrite (render_step ui _ _ _ Hstep).
    change (handler ui (PInt 2)) with (step2 ui).
    now rewrite (step2_not_iterable ui _ _ _ Hq).
  - intros items r1 w1 text1 r2 w2 text2 v
           Hstep Hcol Hitems Hc Hr1 Ht1 Hno Hr2 Ht2 Hj Hv.
    rewrite (render_step ui _ _ _ Hstep).
    change (handler ui (PInt 3)) with (step3 ui).
    rewrite (step3_not_sufficient ui _ _ _ _ _ _ _ Hcol Hitems Hr1 Ht1 Hno Hc).
    rewrite (more_pressed_ok _ _ _ _ _ _ _ Hr2 Ht2 Hj).
    eexists. split; [reflexivity|]. cbn [session]. split.
    + apply field_keeps. apply lookup_insert_eq.
    + erewrite field_keeps; [exact Hv|].
      rewrite lookup_insert_ne by done. apply lookup_insert_eq.
Qed.

(** X13.  The planning transition stores one answer per question: when
    it completes, [answers] is as long as the question list, its [i]-th
    entry is the text of the field with key [answer_i], and none of its
    entries is empty. *)
Theorem answers_match_questions ui s w qs r w' text d g q :
  field s "step" = PInt 1 ->
  Py.iter (field s "questions") = Some qs ->
  forallb Py.truthy (answers_from ui qs 0) = true ->
  clicked ui = Some btn_plan ->
  responses_create
    (plan_request (field s "topic") (field s "questions")
                  (PList (answers_from ui qs 0)) (field s "clarify_id")) w
  = (inr r, w') ->
  says_text r text ->
  json_loads text = Some (PDict d) ->
  Py.assoc "goal" d = Some g ->
  Py.assoc "queries" d = Some q ->
  exists st' answers,
    render ui s w = (RerunReq, st') /\
    session st' !! "answers" = Some (PList answers) /\
    length answers = length qs /\
    (forall i,
       i < length qs ->
       answers !! i
       = Some (PStr (text_of ui ("answer_" +:+ PyStr.decimal i)))) /\
    Forall (fun a => exists t, a = PStr t /\ t <> "") answers.
Proof.
  intros Hstep Hqs Hall Hc Hr Ht Hj Hg Hq.
  rewrite (render_step ui _ _ _ Hstep).
  change (handler ui (PInt 1)) with (step1 ui).
  rewrite (step1_pressed ui _ _ _ _ Hqs Hall Hc).
  rewrite (plan_pressed_ok _ _ _ _ _ _ _ _ _ _ Hr Ht Hj Hg Hq).
  eexists _, (answers_from ui qs 0). split; [reflexivity|]. cbn [session].
  split; [now rewrite !lookup_insert_ne, lookup_insert_eq by done|].
  split; [apply answers_from_length|].
  split; [intros i Hi; now rewrite (answers_from_lookup ui qs 0 i Hi)|].
  apply Forall_forall. intros a Ha.
  rewrite forallb_forall in Hall.
  assert (Htr : Py.truthy a = true)
    by (apply Hall; now apply list_elem_of_In).
  apply list_elem_of_lookup in Ha as [i Hi].
  assert (Hlt : i < length qs).
  { rewrite <- (answers_from_length ui qs 0). now apply lookup_lt_Some in Hi. }
  rewrite (answers_from_lookup ui qs 0 i Hlt) in Hi. inversion Hi; subst.
  eexists. split; [reflexivity|]. intros He. cbn [Py.truthy] in Htr.
  rewrite He in Htr. discriminate Htr.
Qed.

(** *** What every run respects *)

(** X14.  One run calls the Gateway a bounded number of times, whatever
    the user does and whatever the Gateway answers: at most once at
    steps 0 and 1, at most once per query at step 2, at most twice at
    step 3 (the evaluation, then the report or the new queries) and
    never at step 4 or with any other step value. *)
Theorem gateway_calls_are_bounded ui s w o st' :
  render ui s w = (o, st') ->
  length (gateway_requests (trace st')) <= call_budget s.
Proof.
  rewrite render_run. unfold handler, call_budget.
  destruct (Py.eq_int (field s "step") 0);
    [|destruct (Py.eq_int (field s "step") 1);
      [|destruct (Py.eq_int (field s "step") 2);
        [|destruct (Py.eq_int (field s "step") 3);
          [|destruct (Py.eq_int (field s "step") 4)]]]];
    intros Hrun.
  - destruct (spends_step0 ui _ _ _ Hrun) as (reqs & Hr & Hl).
    now rewrite Hr.
  - destruct (spends_step1 ui _ _ _ Hrun) as (reqs & Hr & Hl).
    now rewrite Hr.
  - destruct (spends_step2 ui _ _ _ _ _ Hrun) as (reqs & Hr & Hl).
    now rewrite Hr.
  - destruct (spends_step3 ui _ _ _ Hrun) as (reqs & Hr & Hl).
    now rewrite Hr.
  - destruct (spends_step4 ui _ _ _ Hrun) as (reqs & Hr & Hl).
    now rewrite Hr.
  - inversion Hrun; subst. cbn. lia.
Qed.

(** X15.  The store keeps its shape.  When the step is an index from 0
    to 4, the topic and the report are strings, the questions and the
    answers are lists of strings and every collected result is a
    dictionary with a query and a research output, the same holds after
    a run, however it ends and whatever the Gateway answered.  A fresh
    session has that shape, and so has the store a restart leaves. *)
Theorem store_keeps_its_shape ui s w o st' :
  well_formed s ->
  render ui s w = (o, st') ->
  well_formed (session st') /\ well_formed ∅.
Proof.
  intros Hs Hrun. split; [|apply well_formed_empty].
  rewrite render_run in Hrun.
  apply well_formed_with_defaults in Hs. revert Hrun. unfold handler.
  destruct (Py.eq_int (field s "step") 0);
    [|destruct (Py.eq_int (field s "step") 1);
      [|destruct (Py.eq_int (field s "step") 2);
        [|destruct (Py.eq_int (field s "step") 3);
          [|destruct (Py.eq_int (field s "step") 4)]]]];
    intros Hrun.
  - exact (keeps_step0 ui _ _ _ Hrun Hs).
  - exact (keeps_step1 ui _ _ _ Hrun Hs).
  - exact (keeps_step2 ui _ _ _ Hrun Hs).
  - exact (keeps_step3 ui _ _ _ Hrun Hs).
  - exact (keeps_step4 ui _ _ _ Hrun Hs).
  - now inversion Hrun; subst.
Qed.

(** *** Runs in sequence *)


(** X17.  The searches continue the planning conversation.  After the
    planning transition of one run, a run in which the search button is
    pressed and every search completes has called the Gateway once per
    query of the planner's reply, in the order of the reply, each time
    with the identifier of the planner's answer as the response to
    continue; it leaves one result per query in [collected] and the
    goal of the reply in [goal]. *)
Theorem searches_continue_plan ui1 ui2 s w qs r w1 text d g queries :
  field s "step" = PInt 1 ->
  Py.iter (field s "questions") = Some qs ->
  forallb Py.truthy (answers_from ui1 qs 0) = true ->
  clicked ui1 = Some btn_plan ->
  responses_create
    (plan_request (field s "topic") (field s "questions")
                  (PList (answers_from ui1 qs 0)) (field s "clarify_id")) w
  = (inr r, w1) ->
  says_text r text ->
  json_loads text = Some (PDict d) ->
  Py.assoc "goal" d = Some g ->
  Py.assoc "queries" d = Some (PList queries) ->
  clicked ui2 = Some btn_search ->
  exists st1,
    render ui1 s w = (RerunReq, st1) /\ world st1 = w1 /\
    forall st2,
      render ui2 (session st1) w1 = (RerunReq, st2) ->
      gateway_requests (trace st2)
      = map (fun q => search_request q (PStr (resp_id r))) queries /\
      field (session st2) "goal" = g /\
      exists collected,
        field (session st2) "collected" = PList collected /\
        Forall2 result_for queries collected.
Proof.
  intros Hstep Hqs Hall Hc1 Hr Ht Hj Hg Hq Hc2.
  rewrite (render_step ui1 _ _ _ Hstep).
  change (handler ui1 (PInt 1)) with (step1 ui1).
  rewrite (step1_pressed ui1 _ _ _ _ Hqs Hall Hc1).
  rewrite (plan_pressed_ok _ _ _ _ _ _ _ _ _ _ Hr Ht Hj Hg Hq).
  eexists. split; [reflexivity|]. split; [reflexivity|].
  cbn [session].
  set (s1 := <["step" := PInt 2]> _).
  assert (H1 : field s1 "step" = PInt 2)
    by (apply field_keeps, lookup_insert_eq).
  assert (H2 : field s1 "queries" = PList queries).
  { unfold s1. rewrite !field_insert.
    repeat (case_decide; try congruence). }
  assert (H3 : field s1 "goal_and_queries_id" = PStr (resp_id r)).
  { unfold s1. rewrite !field_insert.
    repeat (case_decide; try congruence). }
  assert (H4 : field s1 "goal" = g).
  { unfold s1. rewrite !field_insert.
    repeat (case_decide; try congruence). }
  intros st2. rewrite (render_step ui2 _ _ _ H1).
  change (handler ui2 (PInt 2)) with (step2 ui2).
  rewrite (step2_pressed ui2 _ _ _ _ H2 Hc2). intros Hrun.
  destruct (search_pressed_inv _ _ _ _ _ _ H2 Hrun)
    as (collected & Hs & Hres & Hreq).
  rewrite Hreq, H3, !gateway_requests_app, gateway_requests_shown.
  split; [reflexivity|]. rewrite Hs, !field_insert.
  repeat (case_decide; try congruence).
  rewrite field_with_defaults. split; [exact H4|].
  exists collected. now split.
Qed.

End Properties.

(** ** The properties at work *)


(** The restart leaves a store without a step. *)
Lemma step_transitions_witness :
  let ui := Demo.user "" (Some btn_restart) in
  let run := @render ref_externals ui (Demo.populated 4) [] in
  field (Demo.populated 4) "step" = PInt 4 /\
  fst run = RerunReq /\
  session (snd run) !! "step" = None.
Proof.
  intros ui run.
  assert (H1 : field (Demo.populated 4) "step" = PInt 4) by reflexivity.
  split; [exact H1|].
  assert (Ho : fst run = RerunReq) by (vm_compute; reflexivity).
  split; [exact Ho|].
  destruct (@step_transitions ref_externals ui (Demo.populated 4) [] 4
              (fst run) (snd run) H1 (surjective_pairing run)) as [Hm _].
  rewrite Ho in Hm. cbn in Hm. destruct Hm as [Hm|[]]. now symmetry.
Defined.

(** A run at step 2 that no button caused, on a Gateway that would
    fail. *)
Lemma idle_run_changes_nothing_witness :
  let ui := Demo.user "" None in
  let w := [Ref.fails "quota exceeded"] in
  let run := @render ref_externals ui (Demo.populated 2) w in
  clicked ui = None /\
  reruns (fst run) = false /\
  world (snd run) = w /\
  gateway_requests (trace (snd run)) = [].
Proof.
  intros ui w run. split; [reflexivity|].
  destruct (@idle_run_changes_nothing ref_externals ui (Demo.populated 2) w
              (fst run) (snd run) eq_refl (surjective_pairing run))
    as (Ho & _ & Hw).
  split; [exact Ho|]. exact (Hw eq_refl).
Defined.


(** An empty topic at step 0, an empty answer at step 1. *)
Lemma unmet_guard_offers_no_button_witness :
  let ui0 := Demo.user "" (Some btn_questions) in
  let ui1 := Demo.user "" (Some btn_plan) in
  field (∅ : gmap string pyval) "step" = PInt 0 /\
  field (Demo.populated 1) "step" = PInt 1 /\
  fst (@render ref_externals ui0 ∅ []) = Ret tt /\
  @render ref_externals ui1 (Demo.populated 1) []
  = (Ret tt,
     @mk_rs ref_externals (Demo.populated 1) []
       [title; EvShow Write "### Clarifying Questions";
        EvTextInput (@fmt ref_externals (PStr "1. Why?")) (Some "answer_0");
        EvTextInput (@fmt ref_externals (PStr "2. How?")) (Some "answer_1")]).
Proof.
  intros ui0 ui1.
  assert (H0 : field (∅ : gmap string pyval) "step" = PInt 0) by reflexivity.
  assert (H1 : field (Demo.populated 1) "step" = PInt 1) by reflexivity.
  split; [exact H0|]. split; [exact H1|].
  destruct (@unmet_guard_offers_no_button ref_externals ui0 ∅ []) as [Ha _].
  destruct (@unmet_guard_offers_no_button ref_externals ui1
              (Demo.populated 1) []) as [_ Hb].
  rewrite (Ha H0 eq_refl).
  rewrite (Hb [PStr "1. Why?"; PStr "2. How?"] H1 eq_refl eq_refl).
  split; reflexivity.
Defined.

(** The report written although the evaluation said no. *)
Lemma report_transition_witness :
  let ui := Demo.user "" (Some btn_proceed) in
  let w := [Ref.says "r5" "No."; Ref.says "r6" "# Tea"] in
  field Demo.searched "step" = PInt 3 /\
  field Demo.searched "collected" = PList Demo.results /\
  Forall displayable Demo.results /\
  sufficient "No." = false /\
  clicked ui = Some btn_proceed /\
  exists st',
    @render ref_externals ui Demo.searched w = (RerunReq, st') /\
    session st' !! "report" = Some (PStr "# Tea") /\
    session st' !! "step" = Some (PInt 4).
Proof.
  intros ui w.
  assert (H1 : field Demo.searched "step" = PInt 3) by reflexivity.
  assert (H2 : field Demo.searched "collected" = PList Demo.results)
    by reflexivity.
  assert (H3 : Forall displayable Demo.results).
  { repeat (constructor; [eexists _, _, _; repeat split; reflexivity|]).
    constructor. }
  assert (H4 : sufficient "No." = false) by reflexivity.
  assert (H5 : clicked ui = Some btn_proceed) by reflexivity.
  repeat (split; [assumption|]).
  destruct (@report_transition ref_externals ui Demo.searched w Demo.results
              (Ref.message "r5" "No.") [Ref.says "r6" "# Tea"] "No."
              (Ref.message "r6" "# Tea") [] "# Tea" H1 H2 H3 eq_refl)
    as (tr & Hrun & _).
  - eexists _, _, _. reflexivity.
  - right. split; [exact H4|exact H5].
  - reflexivity.
  - eexists _, _, _. reflexivity.
  - eexists. split; [exact Hrun|]. cbn [session]. split.
    + rewrite lookup_insert_ne by discriminate. apply lookup_insert_eq.
    + apply lookup_insert_eq.
Defined.

(** The evaluation said yes: a press of the button for more queries does
    nothing. *)
Lemma offered_buttons_follow_evaluation_witness :
  let ui := Demo.user "" (Some btn_more) in
  let w := [Ref.says "r5" "Yes."] in
  field Demo.searched "step" = PInt 3 /\
  field Demo.searched "collected" = PList Demo.results /\
  Forall displayable Demo.results /\
  sufficient "Yes." = true /\
  clicked ui <> Some btn_report /\
  fst (@render ref_externals ui Demo.searched w) = Ret tt /\
  session (snd (@render ref_externals ui Demo.searched w)) = Demo.searched.
Proof.
  intros ui w.
  assert (H1 : field Demo.searched "step" = PInt 3) by reflexivity.
  assert (H2 : field Demo.searched "collected" = PList Demo.results)
    by reflexivity.
  assert (H3 : Forall displayable Demo.results).
  { repeat (constructor; [eexists _, _, _; repeat split; reflexivity|]).
    constructor. }
  assert (H4 : sufficient "Yes." = true) by reflexivity.
  assert (H5 : clicked ui <> Some btn_report) by discriminate.
  repeat (split; [assumption|]).
  destruct (@offered_buttons_follow_evaluation ref_externals ui Demo.searched
              w Demo.results (Ref.message "r5" "Yes.") [] "Yes." H1 H2 H3
              eq_refl) as [Hyes _].
  - eexists _, _, _. reflexivity.
  - rewrite (Hyes H4 H5). cbn [fst snd session]. split; reflexivity.
Defined.

(** The second of two searches gets an answer without the second item:
    the result of the first is not stored. *)
Lemma failed_search_stores_nothing_witness :
  let ui := Demo.user "" (Some btn_search) in
  let w := [Ref.found "r3" "t1"; Ref.says "r4" "I did not search"] in
  let run := @render ref_externals ui (Demo.populated 2) w in
  field (Demo.populated 2) "step" = PInt 2 /\
  field (Demo.populated 2) "queries" = PList [PStr "q1"; PStr "q2"] /\
  clicked ui = Some btn_search /\
  fst run = Raise IndexError /\
  session (snd run) = Demo.populated 2.
Proof.
  intros ui w run.
  assert (H1 : field (Demo.populated 2) "step" = PInt 2) by reflexivity.
  assert (H2 : field (Demo.populated 2) "queries"
               = PList [PStr "q1"; PStr "q2"]) by reflexivity.
  assert (H3 : clicked ui = Some btn_search) by reflexivity.
  assert (Ho : fst run = Raise IndexError) by (vm_compute; reflexivity).
  repeat (split; [assumption|]).
  assert (Hrun : run = (Raise IndexError, snd run))
    by (rewrite <- Ho; apply surjective_pairing).
  destruct (@failed_search_stores_nothing ref_externals ui (Demo.populated 2)
              w _ IndexError (snd run) H1 H2 H3 Hrun) as [Hs _].
  rewrite Hs. reflexivity.
Defined.

(** A search answered with a single message. *)
Lemma search_reads_second_item_witness :
  let st := Demo.calling [Ref.says "r3" "I did not search"] in
  fst (@run_search ref_externals (PStr "q1") (PStr "resp_2") st)
  = Raise IndexError.
Proof.
  intros st.
  destruct (@search_reads_second_item ref_externals (PStr "q1")
              (PStr "resp_2") st (Ref.message "r3" "I did not search") []
              eq_refl) as (_ & Hidx & _).
  apply Hidx. left. reflexivity.
Defined.

(** A plan with a goal and no queries. *)
Lemma incomplete_plan_is_half_stored_witness :
  let ui := Demo.user "x" (Some btn_plan) in
  let w := [Ref.says "resp_2" Demo.goal_only_json] in
  field (Demo.populated 1) "step" = PInt 1 /\
  clicked ui = Some btn_plan /\
  @json_loads ref_externals Demo.goal_only_json
  = Some (PDict [("goal", PStr "G")]) /\
  exists st',
    @render ref_externals ui (Demo.populated 1) w
    = (Raise (KeyError "queries"), st') /\
    session st' !! "goal" = Some (PStr "G") /\
    session st' !! "step" = Some (PInt 1).
Proof.
  intros ui w.
  assert (H1 : field (Demo.populated 1) "step" = PInt 1) by reflexivity.
  assert (H2 : clicked ui = Some btn_plan) by reflexivity.
  assert (Hj : @json_loads ref_externals Demo.goal_only_json
               = Some (PDict [("goal", PStr "G")]))
    by (vm_compute; reflexivity).
  repeat (split; [assumption|]).
  destruct (@incomplete_plan_is_half_stored ref_externals ui
              (Demo.populated 1) w [PStr "1. Why?"; PStr "2. How?"]
              (Ref.message "resp_2" Demo.goal_only_json) []
              Demo.goal_only_json (PDict [("goal", PStr "G")])
              H1 eq_refl eq_refl H2 eq_refl) as (_ & Hq & _).
  - eexists _, _, _. reflexivity.
  - exact Hj.
  - destruct (Hq _ (PStr "G") eq_refl eq_refl eq_refl)
      as (tr & Hrun & Hstep & _).
    eexists. split; [exact Hrun|]. cbn [session].
    split; [apply lookup_insert_eq|exact Hstep].
Defined.

(** The Gateway answers the request for more queries with a number: the
    next run cannot display the queries. *)
Lemma unreadable_queries_block_step_2_witness :
  let ui := Demo.user "" (Some btn_more) in
  let w := [Ref.says "r5" "No."; Ref.says "r6" "7"] in
  field Demo.unreadable "step" = PInt 2 /\
  Py.iter (field Demo.unreadable "queries") = None /\
  fst (@render ref_externals ui Demo.unreadable []) = Raise TypeError /\
  @json_loads ref_externals "7" = Some (PInt 7) /\
  exists st',
    @render ref_externals ui Demo.searched w = (RerunReq, st') /\
    fst (@render ref_externals (Demo.user "" (Some btn_search)) (session st')
           [])
    = Raise TypeError.
Proof.
  intros ui w.
  assert (H1 : field Demo.unreadable "step" = PInt 2) by reflexivity.
  assert (H2 : Py.iter (field Demo.unreadable "queries") = None)
    by reflexivity.
  assert (Hj : @json_loads ref_externals "7" = Some (PInt 7))
    by (vm_compute; reflexivity).
  split; [exact H1|]. split; [exact H2|].
  destruct (@unreadable_queries_block_step_2 ref_externals ui Demo.unreadable
              []) as [Ha _].
  split; [now rewrite (Ha H1 H2)|]. split; [exact Hj|].
  destruct (@unreadable_queries_block_step_2 ref_externals ui Demo.searched w)
    as [_ Hb].
  destruct (Hb Demo.results (Ref.message "r5" "No.") [Ref.says "r6" "7"]
              "No." (Ref.message "r6" "7") [] "7" (PInt 7))
    as (st' & Hrun & Hstep & Hq); try reflexivity.
  - repeat (constructor; [eexists _, _, _; repeat split; reflexivity|]).
    constructor.
  - eexists _, _, _. reflexivity.
  - eexists _, _, _. reflexivity.
  - exists st'. split; [exact Hrun|].
    destruct (@unreadable_queries_block_step_2 ref_externals
                (Demo.user "" (Some btn_search)) (session st') [])
      as [Hc _].
    now rewrite (Hc Hstep Hq).
Defined.

(** Two questions, two answers. *)
Lemma answers_match_questions_witness :
  let ui := Demo.user "x" (Some btn_plan) in
  let w := [Ref.says "resp_2" Demo.plan_json] in
  field (Demo.populated 1) "step" = PInt 1 /\
  clicked ui = Some btn_plan /\
  exists st' answers,
    @render ref_externals ui (Demo.populated 1) w = (RerunReq, st') /\
    session st' !! "answers" = Some (PList answers) /\
    length answers = 2 /\
    answers !! 1 = Some (PStr "x").
Proof.
  intros ui w.
  assert (H1 : field (Demo.populated 1) "step" = PInt 1) by reflexivity.
  assert (H2 : clicked ui = Some btn_plan) by reflexivity.
  repeat (split; [assumption|]).
  destruct (@answers_match_questions ref_externals ui (Demo.populated 1) w
              [PStr "1. Why?"; PStr "2. How?"]
              (Ref.message "resp_2" Demo.plan_json) [] Demo.plan_json
              [("goal", PStr "G");
               ("queries",
                PList [PStr "a"; PStr "b"; PStr "c"; PStr "d"; PStr "e"])]
              (PStr "G")
              (PList [PStr "a"; PStr "b"; PStr "c"; PStr "d"; PStr "e"])
              H1 eq_refl eq_refl H2 eq_refl)
    as (st' & answers & Hrun & Ha & Hl & Hlk & _).
  - eexists _, _, _. reflexivity.
  - vm_compute. reflexivity.
  - reflexivity.
  - reflexivity.
  - exists st', answers. split; [exact Hrun|]. split; [exact Ha|].
    split; [exact Hl|]. apply (Hlk 1). cbn. lia.
Defined.

(** Two queries, the second search fails: two calls, the budget of the
    run. *)
Lemma gateway_calls_are_bounded_witness :
  let ui := Demo.user "" (Some btn_search) in
  let w := [Ref.found "r3" "t1"; Ref.fails "quota exceeded"] in
  let run := @render ref_externals ui (Demo.populated 2) w in
  call_budget (Demo.populated 2) = 2 /\
  length (gateway_requests (trace (snd run))) <= 2.
Proof.
  intros ui w run. split; [reflexivity|].
  exact (@gateway_calls_are_bounded ref_externals ui (Demo.populated 2) w
           (fst run) (snd run) (surjective_pairing run)).
Defined.

(** The store after the topic transition of a fresh session. *)
Lemma store_keeps_its_shape_witness :
  let ui := Demo.user "tea" (Some btn_questions) in
  let w := [Ref.says "resp_1" Demo.two_questions] in
  let run := @render ref_externals ui ∅ w in
  well_formed ∅ /\ fst run = RerunReq /\ well_formed (session (snd run)).
Proof.
  intros ui w run.
  assert (H0 : well_formed ∅).
  { unfold well_formed. split; [exists 0%Z; split; [reflexivity|lia]|].
    split; [now exists ""|]. split; [now exists []|].
    split; [now exists []|].
    split; [exists []; split; [reflexivity|constructor]|now exists ""]. }
  split; [exact H0|]. split; [vm_compute; reflexivity|].
  exact (proj1 (@store_keeps_its_shape ref_externals ui ∅ w (fst run)
                  (snd run) H0 (surjective_pairing run))).
Defined.


(** From the plan to the search. *)
Lemma searches_continue_plan_witness :
  let ui1 := Demo.user "x" (Some btn_plan) in
  let ui2 := Demo.user "" (Some btn_search) in
  let w := [Ref.says "resp_2" Demo.short_plan_json; Ref.found "r3" "t1"] in
  field (Demo.populated 1) "step" = PInt 1 /\
  @json_loads ref_externals Demo.short_plan_json
  = Some (PDict [("goal", PStr "G"); ("queries", PList [PStr "a"])]) /\
  exists st1 st2,
    @render ref_externals ui1 (Demo.populated 1) w = (RerunReq, st1) /\
    @render ref_externals ui2 (session st1) [Ref.found "r3" "t1"]
    = (RerunReq, st2) /\
    gateway_requests (trace st2)
    = [@search_request ref_externals (PStr "a") (PStr "resp_2")].
Proof.
  intros ui1 ui2 w.
  assert (H1 : field (Demo.populated 1) "step" = PInt 1) by reflexivity.
  assert (Hj : @json_loads ref_externals Demo.short_plan_json
               = Some (PDict [("goal", PStr "G");
                              ("queries", PList [PStr "a"])]))
    by (vm_compute; reflexivity).
  split; [exact H1|]. split; [exact Hj|].
  destruct (@searches_continue_plan ref_externals ui1 ui2 (Demo.populated 1)
              w [PStr "1. Why?"; PStr "2. How?"]
              (Ref.message "resp_2" Demo.short_plan_json)
              [Ref.found "r3" "t1"] Demo.short_plan_json
              [("goal", PStr "G"); ("queries", PList [PStr "a"])]
              (PStr "G") [PStr "a"] H1 eq_refl eq_refl eq_refl eq_refl)
    as (st1 & Hrun & _ & Hnext); try reflexivity.
  - eexists _, _, _. reflexivity.
  - assert (Hs : st1 = snd (@render ref_externals ui1 (Demo.populated 1) w))
      by now rewrite Hrun.
    assert (Ho : fst (@render ref_externals ui2 (session st1)
                        [Ref.found "r3" "t1"]) = RerunReq)
      by (rewrite Hs; vm_compute; reflexivity).
    assert (H2 : @render ref_externals ui2 (session st1)
                   [Ref.found "r3" "t1"]
                 = (RerunReq,
                    snd (@render ref_externals ui2 (session st1)
                           [Ref.found "r3" "t1"])))
      by (rewrite <- Ho; apply surjective_pairing).
    eexists st1, _. split; [exact Hrun|]. split; [exact H2|].
    exact (proj1 (Hnext _ H2)).
Defined.
